(** * virttest/libvirt_cgroup.py: cgroup state normalisation for libvirt tests

    A shallow embedding of [CgroupTest] (src/virttest/libvirt_cgroup.py) and
    the properties of its two normalisers: the reader of the kernel's cgroup
    files (v1 and v2) and the parser of virsh reports.

    Modelling conventions.
    - A Python [str] is a Rocq [string] whose characters are read as the
      code points U+0000 to U+00FF; the character classes below ([isspace],
      [isdigit_c], [isdecimal_c], line boundaries, [lower_c]) are Python's on
      these code points.  Text with a code point above 255 is outside the
      model.
    - [int] and [str] have the interpreter's default limit of 4300 digits
      ([sys.int_info.default_max_str_digits]); both raise ValueError past
      it.
    - A Python [dict] is an association list in insertion order: assigning an
      existing key replaces its value in place, a new key is appended.
    - Exceptions and logging are explicit: a computation takes the process
      state (the log and the module-level v1 blkio table, which the code
      mutates) and returns an outcome and the new state.
    - The host (files, directories, device nodes, external collaborators) is
      a record of functions; a file's content is the text that [read()]
      returns. *)

From Stdlib Require Import String Ascii List Bool Arith NArith ZArith Lia.
From Stdlib Require Import DecimalString DecimalPos.
From Stdlib Require Import Sorted Permutation.
Import ListNotations.
Open Scope string_scope.

Set Implicit Arguments.

(** ** Python string primitives *)

Module PyStr.

Definition code (c : ascii) : N := N_of_ascii c.

(** [str.isspace] on one character, which is also the blank class of the
    regular expressions: TAB..CR, FS..US, the space, NEL (U+0085) and the
    no-break space (U+00A0). *)
Definition isspace (c : ascii) : bool :=
  let n := code c in
  ((9 <=? n) && (n <=? 13) || (28 <=? n) && (n <=? 32)
   || (n =? 133) || (n =? 160))%N.

(** The blanks that [int] skips at both ends of its text: TAB..CR and the
    space. *)
Definition isspace_ascii (c : ascii) : bool :=
  let n := code c in
  ((9 <=? n) && (n <=? 13) || (n =? 32))%N.

(** The decimal digits 0 to 9: the digits of [int] and the digit class of
    the regular expressions. *)
Definition isdecimal_c (c : ascii) : bool :=
  let n := code c in ((48 <=? n) && (n <=? 57))%N.

(** [str.isdigit] on one character: the decimal digits and the superscript
    digits two, three and one (U+00B2, U+00B3, U+00B9). *)
Definition isdigit_c (c : ascii) : bool :=
  let n := code c in
  (isdecimal_c c || (n =? 178) || (n =? 179) || (n =? 185))%N.

Definition digit_val (c : ascii) : N := (code c - 48)%N.

(** Line boundaries of [str.splitlines]: LF, VT, FF, CR, FS, GS, RS and
    NEL. *)
Definition islinebreak (c : ascii) : bool :=
  let n := code c in
  ((10 <=? n) && (n <=? 13) || (28 <=? n) && (n <=? 30) || (n =? 133))%N.

Definition LF : ascii := ascii_of_N 10.
Definition CR : ascii := ascii_of_N 13.

Fixpoint lstrip_by (p : ascii -> bool) (s : string) : string :=
  match s with
  | String c s' => if p c then lstrip_by p s' else s
  | EmptyString => EmptyString
  end.

Fixpoint rstrip_by (p : ascii -> bool) (s : string) : string :=
  match s with
  | EmptyString => EmptyString
  | String c s' =>
      match rstrip_by p s' with
      | EmptyString => if p c then EmptyString else String c EmptyString
      | r => String c r
      end
  end.

Definition strip_by (p : ascii -> bool) (s : string) : string :=
  rstrip_by p (lstrip_by p s).

(** [s.strip()] *)
Definition strip (s : string) : string := strip_by isspace s.

(** [s.strip(ch)] for a one-character argument. *)
Definition strip_char (ch : ascii) (s : string) : string :=
  strip_by (Ascii.eqb ch) s.

(** [s.split(sep)] for a one-character separator: never empty. *)
Fixpoint split_char (sep : ascii) (s : string) : list string :=
  match s with
  | EmptyString => [EmptyString]
  | String c s' =>
      if Ascii.eqb c sep then EmptyString :: split_char sep s'
      else match split_char sep s' with
           | l :: ls => String c l :: ls
           | [] => [String c EmptyString]
           end
  end.

(** [s.split()]: the maximal runs of non-whitespace. *)
Fixpoint split_ws (s : string) : list string :=
  match s with
  | EmptyString => []
  | String c s' =>
      if isspace c then split_ws s'
      else match s' with
           | EmptyString => [String c EmptyString]
           | String c' _ =>
               if isspace c' then String c EmptyString :: split_ws s'
               else match split_ws s' with
                    | t :: ts => String c t :: ts
                    | [] => [String c EmptyString]
                    end
           end
  end.

(** [s.splitlines()]: line ends dropped, CR LF is one boundary, no empty
    last line. *)
Fixpoint splitlines (s : string) : list string :=
  match s with
  | EmptyString => []
  | String c s' =>
      if islinebreak c then
        if Ascii.eqb c CR then
          match s' with
          | String c' s'' =>
              if Ascii.eqb c' LF then EmptyString :: splitlines s''
              else EmptyString :: splitlines s'
          | EmptyString => EmptyString :: splitlines s'
          end
        else EmptyString :: splitlines s'
      else match splitlines s' with
           | l :: ls => String c l :: ls
           | [] => [String c EmptyString]
           end
  end.

(** [f.readlines()] on the text of a file: cut after every LF, line ends
    kept. *)
Fixpoint readlines (s : string) : list string :=
  match s with
  | EmptyString => []
  | String c s' =>
      if Ascii.eqb c LF then String c EmptyString :: readlines s'
      else match readlines s' with
           | l :: ls => String c l :: ls
           | [] => [String c EmptyString]
           end
  end.

(** [sub in s] *)
Fixpoint contains (sub s : string) : bool :=
  if prefix sub s then true
  else match s with
       | EmptyString => false
       | String _ s' => contains sub s'
       end.

(** [s.endswith(suf)] *)
Fixpoint endswith (suf s : string) : bool :=
  if String.eqb suf s then true
  else match s with
       | EmptyString => false
       | String _ s' => endswith suf s'
       end.

(** [s.split(sub)[0]]: the text before the first occurrence of [sub], the
    whole of [s] when there is none ([sub] is not empty). *)
Fixpoint before_first (sub s : string) : string :=
  if prefix sub s then EmptyString
  else match s with
       | EmptyString => EmptyString
       | String c s' => String c (before_first sub s')
       end.

Fixpoint replace_aux (old new s : string) (skip : nat) : string :=
  match s with
  | EmptyString => EmptyString
  | String c s' =>
      match skip with
      | S k => replace_aux old new s' k
      | O =>
          if prefix old s then new ++ replace_aux old new s' (String.length old - 1)
          else String c (replace_aux old new s' 0)
      end
  end.

(** [s.replace(old, new)] for a non-empty [old]. *)
Definition replace (old new s : string) : string := replace_aux old new s 0.

(** [str.lower] on one character: A..Z and the capital letters U+00C0 to
    U+00DE (the multiplication sign U+00D7 is no letter). *)
Definition lower_c (c : ascii) : ascii :=
  let n := code c in
  if ((65 <=? n) && (n <=? 90)
      || (192 <=? n) && (n <=? 222) && negb (n =? 215))%N
  then ascii_of_N (n + 32) else c.

(** [s.lower()] *)
Fixpoint lower (s : string) : string :=
  match s with
  | EmptyString => EmptyString
  | String c s' => String (lower_c c) (lower s')
  end.

Fixpoint all_chars (p : ascii -> bool) (s : string) : bool :=
  match s with
  | EmptyString => true
  | String c s' => p c && all_chars p s'
  end.

(** [s.isdigit()]: not empty and digits only. *)
Definition isdigit (s : string) : bool :=
  match s with
  | EmptyString => false
  | _ => all_chars isdigit_c s
  end.

(** Not empty and decimal digits only. *)
Definition isdecimal (s : string) : bool :=
  match s with
  | EmptyString => false
  | _ => all_chars isdecimal_c s
  end.

Fixpoint map_chars (f : ascii -> ascii) (s : string) : string :=
  match s with
  | EmptyString => EmptyString
  | String c s' => String (f c) (map_chars f s')
  end.

Fixpoint count_chars (p : ascii -> bool) (s : string) : nat :=
  match s with
  | EmptyString => O
  | String c s' => if p c then S (count_chars p s') else count_chars p s'
  end.

(** [sys.int_info.default_max_str_digits]: the most digits that [int]
    reads and that [str] writes. *)
Definition int_max_str_digits : nat := 4300.

(** The digits of [int(s)] after sign and blanks: digits, with single
    underscores allowed between two digits. *)
Fixpoint digits_val (s : string) (acc : N) (after_us : bool) : option N :=
  match s with
  | EmptyString => if after_us then None else Some acc
  | String c s' =>
      if isdecimal_c c then digits_val s' (10 * acc + digit_val c)%N false
      else if Ascii.eqb c "_" then
             if after_us then None else digits_val s' acc true
           else None
  end.

(** The number after the sign: it starts with a digit and has at most
    [int_max_str_digits] digits (underscores are not counted). *)
Definition unsigned_val (s : string) : option N :=
  match s with
  | String c s' =>
      if isdecimal_c c then
        if (count_chars isdecimal_c s <=? int_max_str_digits)%nat
        then digits_val s' (digit_val c) false
        else None
      else None
  | EmptyString => None
  end.

(** Before it parses, [int] turns the blanks above U+007F into spaces. *)
Definition int_blank (c : ascii) : ascii :=
  let n := code c in
  if ((n =? 133) || (n =? 160))%N then " "%char else c.

(** [int(s)], base ten; [None] is ValueError. *)
Definition int (s : string) : option Z :=
  match strip_by isspace_ascii (map_chars int_blank s) with
  | String "+" r => option_map Z.of_N (unsigned_val r)
  | String "-" r => option_map (fun n => Z.opp (Z.of_N n)) (unsigned_val r)
  | t => option_map Z.of_N (unsigned_val t)
  end.

(** The decimal text of an integer. *)
Definition str_text (z : Z) : string := NilZero.string_of_int (Z.to_int z).

(** [str(n)] for an integer, which is also what the percent-s and percent-d
    conversions give it; [None] is the ValueError of a number of more than
    [int_max_str_digits] digits. *)
Definition str (z : Z) : option string :=
  if (String.length (str_text (Z.abs z)) <=? int_max_str_digits)%nat
  then Some (str_text z) else None.

End PyStr.

(** ** Python dictionaries *)

Section Dict.
Variables K V : Type.
Variable eqb : K -> K -> bool.

Definition dict := list (K * V).

Fixpoint dict_get (k : K) (d : dict) : option V :=
  match d with
  | [] => None
  | (k', v) :: d' => if eqb k k' then Some v else dict_get k d'
  end.

(** [d[k] = v] *)
Fixpoint dict_set (k : K) (v : V) (d : dict) : dict :=
  match d with
  | [] => [(k, v)]
  | (k', v') :: d' =>
      if eqb k k' then (k', v) :: d' else (k', v') :: dict_set k v d'
  end.

Definition dict_keys (d : dict) : list K := map fst d.
End Dict.

Arguments dict_get {K V} eqb k d.
Arguments dict_set {K V} eqb k v d.
Arguments dict_keys {K V} d.

Definition sget {V} (k : string) (d : dict string V) := dict_get String.eqb k d.
Definition sset {V} (k : string) (v : V) (d : dict string V) :=
  dict_set String.eqb k v d.

(** [x in l] for a list of strings. *)
Definition in_list (x : string) (l : list string) : bool :=
  existsb (String.eqb x) l.

(** ** Outcomes, process state and the host *)

Inductive exn : Type :=
| OSError          (* open, listdir or stat on a missing path *)
| IndexError
| KeyError
| ValueError
| TypeError
| AttributeError
| CollaboratorError. (* raised inside an external collaborator *)

Inductive outcome (A : Type) : Type :=
| Ok (a : A)
| Raise (e : exn).
Arguments Ok {A} a.
Arguments Raise {A} e.

Inductive level : Type := ERROR | DEBUG.

(** The module-level table that [__get_standardized_cgroup1_info] patches. *)
Definition CGROUP_V1_BLKIO_FILE_MAPPING : dict string string :=
  [ ("weight", "blkio.bfq.weight");
    ("wiops", "blkio.throttle.write_iops_device");
    ("riops", "blkio.throttle.read_iops_device");
    ("rbps", "blkio.throttle.read_bps_device");
    ("wbps", "blkio.throttle.write_bps_device") ].

Record state : Type := {
  log : list (level * string);
  v1_blkio_mapping : dict string string
}.

Definition initial_state : state :=
  {| log := []; v1_blkio_mapping := CGROUP_V1_BLKIO_FILE_MAPPING |}.

Definition M (A : Type) : Type := state -> outcome A * state.

Definition ret {A} (a : A) : M A := fun st => (Ok a, st).
Definition raise {A} (e : exn) : M A := fun st => (Raise e, st).
Definition bind {A B} (c : M A) (k : A -> M B) : M B :=
  fun st => match c st with
            | (Ok a, st') => k a st'
            | (Raise e, st') => (Raise e, st')
            end.

Notation "x <- c ;; k" := (bind c (fun x => k))
  (at level 61, c at next level, right associativity).
Notation "c ;;; k" := (bind c (fun _ => k))
  (at level 61, right associativity).

Definition LOG (l : level) (msg : string) : M unit :=
  fun st => (Ok tt, {| log := log st ++ [(l, msg)];
                       v1_blkio_mapping := v1_blkio_mapping st |}).

Definition get_v1_blkio : M (dict string string) :=
  fun st => (Ok (v1_blkio_mapping st), st).
Definition set_v1_blkio (k v : string) : M unit :=
  fun st => (Ok tt, {| log := log st;
                       v1_blkio_mapping := sset k v (v1_blkio_mapping st) |}).

(** A value that may raise, lifted: [None] raises [e]. *)
Definition orraise {A} (e : exn) (o : option A) : M A :=
  match o with Some a => ret a | None => raise e end.

(** [for x in l: s = body x s] *)
Fixpoint for_each {A S} (body : A -> S -> M S) (l : list A) (s : S) : M S :=
  match l with
  | [] => ret s
  | a :: l' => s' <- body a s ;; for_each body l' s'
  end.

Record Host : Type := {
  (** exit status of [cat /proc/mounts | grep cgroup2] *)
  grep_cgroup2_status : Z;
  (** [open(path).read()] in text mode; [None]: the open fails *)
  open_read : string -> option string;
  (** [os.path.exists] *)
  path_exists : string -> bool;
  (** [os.listdir]; the argument [None] lists the working directory *)
  listdir : option string -> option (list string);
  (** [os.stat(path).st_rdev] *)
  stat_rdev : string -> option N;
  (** [utils_cgroup.resolve_task_cgroup_path(pid, controller)] *)
  resolve_task_cgroup_path : Z -> option string -> option string;
  (** stdout of [getconf PAGE_SIZE] *)
  getconf_page_size : string;
  (** [utils_disk.get_first_disk()] *)
  get_first_disk : string;
  (** stdout of [virsh <cmd> <vm_name>] *)
  virsh : string -> string -> string
}.

(** ** Canonical attribute maps *)

Inductive value : Type :=
| VStr (s : string)
| VNone
| VDict (d : dict string string).

Definition key_eqb (a b : option string) : bool :=
  match a, b with
  | Some x, Some y => String.eqb x y
  | None, None => true
  | _, _ => false
  end.

(** A standardized map: keys are strings (or [None], which the report
    parser can produce as a device key). *)
Definition info : Type := dict (option string) value.

Definition kget (k : option string) (d : info) := dict_get key_eqb k d.
Definition kset (k : option string) (v : value) (d : info) : info :=
  dict_set key_eqb k v d.

Definition dev_init_dict : dict string string :=
  [("rbps", "max"); ("wbps", "max"); ("riops", "max"); ("wiops", "max")].

(** [std[dev][k] = v] *)
Definition set_dev_attr (dev : option string) (k v : string) (std : info)
  : M info :=
  match kget dev std with
  | Some (VDict d) => ret (kset dev (VDict (sset k v d)) std)
  | Some _ => raise TypeError
  | None => raise KeyError
  end.

(** ** Paths and regular expressions *)

(** [os.path.join(a, b)] (posixpath) *)
Definition path_join (a b : string) : string :=
  if prefix "/" b then b
  else if (String.eqb a "" || PyStr.endswith "/" a)%bool then a ++ b
       else a ++ "/" ++ b.

Fixpoint take_nonspace (s : string) : string :=
  match s with
  | String c s' => if PyStr.isspace c then "" else String c (take_nonspace s')
  | EmptyString => ""
  end.

Fixpoint drop_nonspace (s : string) : string :=
  match s with
  | String c s' => if PyStr.isspace c then s else drop_nonspace s'
  | EmptyString => ""
  end.

(** Element 0 of [re.findall] with the mount-point pattern (a blank, a
    group of non-blanks ending in [cgroup], a blank) on the text: the first
    blank-delimited word, with a blank on both sides, that ends in [cgroup]. *)
Fixpoint findall_mount_point_0 (text : string) : option string :=
  match text with
  | EmptyString => None
  | String c s' =>
      if PyStr.isspace c then
        let tok := take_nonspace s' in
        match drop_nonspace s' with
        | String _ _ =>
            if PyStr.endswith "cgroup" tok then Some tok
            else findall_mount_point_0 s'
        | EmptyString => findall_mount_point_0 s'
        end
      else findall_mount_point_0 s'
  end.

Fixpoint drop (n : nat) (s : string) : string :=
  match n, s with
  | S k, String _ s' => drop k s'
  | _, _ => s
  end.

(** The text after the last occurrence of [sub]. *)
Fixpoint after_last (sub s : string) : option string :=
  match s with
  | EmptyString => None
  | String c s' =>
      match after_last sub s' with
      | Some r => Some r
      | None => if prefix sub s then Some (drop (String.length sub) s) else None
      end
  end.

(** Element 0 of [re.findall] with the scope pattern (non-blanks, two
    colons, a group of non-blanks) on the text: in the first word that
    holds [::], the text after its last [::]. *)
Definition findall_vm_scope_0 (text : string) : option string :=
  match find (PyStr.contains "::") (PyStr.split_ws text) with
  | Some tok => after_last "::" tok
  | None => None
  end.

Fixpoint insert_sorted (x : string) (l : list string) : list string :=
  match l with
  | [] => [x]
  | y :: l' => if String.leb x y then x :: l else y :: insert_sorted x l'
  end.

(** [sorted(l)] on strings *)
Definition sorted (l : list string) : list string :=
  fold_right insert_sorted [] l.

(** ** Schema tables *)

Definition VIRSH_BLKIOTUNE_OUTPUT_MAPPING : dict string string :=
  [ ("weight", "weight");
    ("device_read_iops_sec", "riops");
    ("device_write_iops_sec", "wiops");
    ("device_read_bytes_sec", "rbps");
    ("device_write_bytes_sec", "wbps") ].

Definition CGROUP_V2_BLKIO_FILE_MAPPING : dict string string :=
  [ ("weight", "io.bfq.weight");
    ("wiops", "io.max");
    ("riops", "io.max");
    ("rbps", "io.max");
    ("wbps", "io.max") ].

Definition CGROUP_V1_MEM_FILE_MAPPING : dict string string :=
  [ ("hard_limit", "memory.limit_in_bytes");
    ("soft_limit", "memory.soft_limit_in_bytes");
    ("swap_hard_limit", "memory.memsw.limit_in_bytes") ].

Definition CGROUP_V2_MEM_FILE_MAPPING : dict string string :=
  [ ("hard_limit", "memory.max");
    ("soft_limit", "memory.high");
    ("swap_hard_limit", "memory.swap.max") ].

Definition CGROUP_V1_SCHEDINFO_FILE_MAPPING : dict string string :=
  [ ("cpu_shares", "cpu.shares");
    ("vcpu_period", "<vcpuX>/cpu.cfs_period_us");
    ("vcpu_quota", "<vcpuX>/cpu.cfs_quota_us");
    ("emulator_period", "emulator/cpu.cfs_period_us");
    ("emulator_quota", "emulator/cpu.cfs_quota_us");
    ("global_period", "cpu.cfs_period_us");
    ("global_quota", "cpu.cfs_quota_us");
    ("iothread_period", "<iothreadX>/cpu.cfs_period_us");
    ("iothread_quota", "<iothreadX>/cpu.cfs_quota_us") ].

Definition CGROUP_V2_SCHEDINFO_FILE_MAPPING : dict string string :=
  [ ("cpu_shares", "cpu.weight");
    ("vcpu_period", "<vcpuX>/cpu.max");
    ("vcpu_quota", "<vcpuX>/cpu.max");
    ("emulator_period", "emulator/cpu.max");
    ("emulator_quota", "emulator/cpu.max");
    ("global_period", "cpu.max");
    ("global_quota", "cpu.max");
    ("iothread_period", "<iothreadX>/cpu.max");
    ("iothread_quota", "<iothreadX>/cpu.max") ].

(** ** Small helpers of the embedding *)

(** [virsh_cmd == name], where the argument defaults to [None]. *)
Definition cmd_is (virsh_cmd : option string) (name : string) : bool :=
  match virsh_cmd with
  | Some c => String.eqb c name
  | None => false
  end.

(** The text that a percent-s conversion gives for the argument. *)
Definition fmt_s (o : option string) : string :=
  match o with Some s => s | None => "None" end.

(** [dirs[0]] *)
Definition first_dir (dirs : option (list string)) : M string :=
  match dirs with
  | None => raise TypeError
  | Some [] => raise IndexError
  | Some (d :: _) => ret d
  end.

(** Truth value of a list-or-None. *)
Definition truthy_dirs (dirs : option (list string)) : bool :=
  match dirs with
  | Some (_ :: _) => true
  | _ => false
  end.

(** [os.path.join(p, name)] where [p] may be [None]. *)
Definition join_opt (p : option string) (name : string) : M string :=
  match p with
  | Some p' => ret (path_join p' name)
  | None => raise TypeError
  end.

(** [f.readline()] right after the open. *)
Definition readline (text : string) : string :=
  hd "" (PyStr.readlines text).

Fixpoint take_digits (s : string) : string :=
  match s with
  | String c s' =>
      if PyStr.isdecimal_c c then String c (take_digits s') else ""
  | EmptyString => ""
  end.

(** The group of [re.search] with the digits pattern (one or more decimal
    digits): the first maximal run of digits, if any. *)
Fixpoint search_digits (s : string) : option string :=
  match s with
  | EmptyString => None
  | String c s' =>
      if PyStr.isdecimal_c c then Some (take_digits s) else search_digits s'
  end.

(** [os.major] and [os.minor] (glibc's encoding of a device number). *)
Definition os_major (dev : N) : N :=
  N.lor (N.land (N.shiftr dev 32) 0xfffff000) (N.land (N.shiftr dev 8) 0xfff).
Definition os_minor (dev : N) : N :=
  N.lor (N.land (N.shiftr dev 12) 0xffffff00) (N.land dev 0xff).

(** ** class CgroupTest *)

Section CgroupTest.

Variable h : Host.
Variable vm_pid : string.

Definition is_cgroup_v2_enabled : bool :=
  if Z.eqb (grep_cgroup2_status h) 0 then true else false.

Definition get_cgroup_path (controller : option string)
  : M (option string) :=
  cgroup_path <-
    (if is_cgroup_v2_enabled then
       let vm_proc_cgroup_path := "/proc/" ++ vm_pid ++ "/cgroup" in
       mnts <- orraise OSError (open_read h "/proc/mounts") ;;
       vm_cg <- orraise OSError (open_read h vm_proc_cgroup_path) ;;
       cg_mount_point_0 <- orraise IndexError (findall_mount_point_0 mnts) ;;
       cg_vm_scope_0 <- orraise IndexError (findall_vm_scope_0 vm_cg) ;;
       let cgroup_path :=
         path_join cg_mount_point_0 (PyStr.strip_char "/" cg_vm_scope_0) in
       if PyStr.contains "emulator" cgroup_path
       then ret (cgroup_path ++ "/..")
       else ret cgroup_path
     else
       pid <- orraise ValueError (PyStr.int vm_pid) ;;
       orraise CollaboratorError (resolve_task_cgroup_path h pid controller)) ;;
  if negb (path_exists h cgroup_path) then
    LOG ERROR ("cgroup path '" ++ cgroup_path ++ "' doesn't exist") ;;;
    ret None
  else ret (Some cgroup_path).

Definition __get_cpu_subdirs (controller_path : option string)
  (dir_keyword : string) : M (option (list string)) :=
  names <- orraise OSError (listdir h controller_path) ;;
  let dir_names := filter (PyStr.contains dir_keyword) names in
  match dir_names with
  | [] =>
      if PyStr.contains "iothread" dir_keyword then
        LOG DEBUG ("No sub dirs found with keyword: '" ++ dir_keyword
                   ++ "'. Pls check if you've executed virsh cmd 'iothreadadd'.") ;;;
        ret None
      else ret (Some (sorted dir_names))
  | _ => ret (Some (sorted dir_names))
  end.

Definition is_bfq : M bool :=
  let first_blk := get_first_disk h in
  let schedulerfd := "/sys/block/" ++ first_blk ++ "/queue/scheduler" in
  iosche <- orraise OSError (open_read h schedulerfd) ;;
  ret (PyStr.contains "bfq" (readline iosche)).

(** The inner function of [__get_standardized_cgroup1_info]. *)
Definition __get_cg_file_path (cg_key : string) (cg_path : option string)
  (cg_file_name : string) : M string :=
  match cg_path with
  | None => raise TypeError
  | Some p =>
      if (in_list cg_key ["weight"; "cpu_shares"]
          && PyStr.contains "libvirt" p)%bool
      then ret (path_join (PyStr.before_first "libvirt" p) cg_file_name)
      else ret (path_join p cg_file_name)
  end.

(** v1 blkiotune: one line of a per-device file. *)
Definition cgroup1_blkio_line (cg_key line : string)
  (acc : info * list string) : M (info * list string) :=
  let '(std, dev_list) := acc in
  let dev_info := PyStr.split_ws (PyStr.strip line) in
  dev_num <- orraise IndexError (nth_error dev_info 0) ;;
  dev_cg_value <- orraise IndexError (nth_error dev_info 1) ;;
  let std1 :=
    if negb (in_list dev_num dev_list)
    then kset (Some dev_num) (VDict dev_init_dict) std
    else std in
  std2 <- set_dev_attr (Some dev_num) cg_key dev_cg_value std1 ;;
  ret (std2, (dev_list ++ [dev_num])%list).

(** v1 blkiotune: one entry of the table. *)
Definition cgroup1_blkio_entry (cgroup_path : option string)
  (entry : string * string) (acc : info * list string)
  : M (info * list string) :=
  let '(cg_key, cg_file_name) := entry in
  cg_file_path <- __get_cg_file_path cg_key cgroup_path cg_file_name ;;
  cg_file <- orraise OSError (open_read h cg_file_path) ;;
  let acc1 :=
    if in_list cg_key ["weight"]
    then (kset (Some cg_key) (VStr (PyStr.strip cg_file)) (fst acc), snd acc)
    else acc in
  if in_list cg_key ["rbps"; "wbps"; "riops"; "wiops"; "weight_device"]
  then for_each (cgroup1_blkio_line cg_key) (PyStr.readlines cg_file) acc1
  else ret acc1.

(** v1 memtune: one entry of the table. *)
Definition cgroup1_mem_entry (cgroup_path : option string)
  (max_mem_value : string) (entry : string * string) (std : info) : M info :=
  let '(cg_key, cg_file_name) := entry in
  p <- join_opt cgroup_path cg_file_name ;;
  cg_file <- orraise OSError (open_read h p) ;;
  let cg_file_value := PyStr.strip cg_file in
  let cg_file_value :=
    if String.eqb cg_file_value max_mem_value then "max" else cg_file_value in
  ret (kset (Some cg_key) (VStr cg_file_value) std).

(** v1 schedinfo: the read of one file, after the placeholders. *)
Definition cgroup1_sched_read (cgroup_path cg_key cg_file_name : string)
  (std : info) : M info :=
  cg_file_path <- __get_cg_file_path cg_key (Some cgroup_path) cg_file_name ;;
  cg_file <- orraise OSError (open_read h cg_file_path) ;;
  let max_cpu_value := "-1" in
  let cg_file_value := PyStr.strip cg_file in
  let cg_file_value :=
    if String.eqb cg_file_value max_cpu_value then "max" else cg_file_value in
  if (PyStr.contains "quota" cg_key
      && in_list cg_file_value ["-1"; "18446744073709551"; "17592186044415"])%bool
  then ret (kset (Some cg_key) (VStr "max") std)
  else ret (kset (Some cg_key) (VStr cg_file_value) std).

(** Placeholder substitution shared by the two schedinfo loops: [None] is
    the [continue] of an iothread entry without iothread directories. *)
Definition subst_placeholders (vcpu_dirs iothread_dirs : option (list string))
  (cg_file_name : string) : M (option string) :=
  name1 <-
    (if PyStr.contains "<vcpuX>" cg_file_name then
       d <- first_dir vcpu_dirs ;;
       ret (PyStr.replace "<vcpuX>" d cg_file_name)
     else ret cg_file_name) ;;
  if PyStr.contains "<iothreadX>" name1 then
    if truthy_dirs iothread_dirs then
      d <- first_dir iothread_dirs ;;
      ret (Some (PyStr.replace "<iothreadX>" d name1))
    else ret None
  else ret (Some name1).

Definition cgroup1_sched_entry (cgroup_path : string)
  (vcpu_dirs iothread_dirs : option (list string))
  (entry : string * string) (std : info) : M info :=
  let '(cg_key, cg_file_name) := entry in
  name <- subst_placeholders vcpu_dirs iothread_dirs cg_file_name ;;
  match name with
  | None => ret std
  | Some cg_file_name' => cgroup1_sched_read cgroup_path cg_key cg_file_name' std
  end.

Definition __get_standardized_cgroup1_info (virsh_cmd : option string)
  : M info :=
  if cmd_is virsh_cmd "blkiotune" then
    cgroup_path <- get_cgroup_path (Some "blkio") ;;
    bfq <- is_bfq ;;
    (if negb bfq then
       set_v1_blkio "weight" "blkio.weight" ;;;
       set_v1_blkio "weight_device" "blkio.weight_device"
     else ret tt) ;;;
    table <- get_v1_blkio ;;
    r <- for_each (cgroup1_blkio_entry cgroup_path) table ([], []) ;;
    ret (fst r)
  else if cmd_is virsh_cmd "memtune" then
    cgroup_path <- get_cgroup_path (Some "memory") ;;
    let page_size := PyStr.strip (getconf_page_size h) in
    n <- orraise ValueError (PyStr.int page_size) ;;
    page_size_d <- orraise ValueError (PyStr.str n) ;;
    LOG DEBUG ("page_size is " ++ page_size_d) ;;;
    let max_mem_value :=
      if Z.eqb n 65536 then "9223372036854710272"
      else "9223372036854771712" in
    LOG DEBUG ("max_mem_value is " ++ max_mem_value) ;;;
    for_each (cgroup1_mem_entry cgroup_path max_mem_value)
      CGROUP_V1_MEM_FILE_MAPPING []
  else if cmd_is virsh_cmd "schedinfo" then
    p <- get_cgroup_path (Some "cpu,cpuacct") ;;
    cgroup_path <-
      (match p with
       | Some p' => ret (p' ++ "/..")
       | None => raise TypeError
       end) ;;
    vcpu_dirs <- __get_cpu_subdirs (Some cgroup_path) "vcpu" ;;
    iothread_dirs <- __get_cpu_subdirs (Some cgroup_path) "iothread" ;;
    for_each (cgroup1_sched_entry cgroup_path vcpu_dirs iothread_dirs)
      CGROUP_V1_SCHEDINFO_FILE_MAPPING []
  else
    LOG ERROR ("You've provided a wrong virsh cmd: " ++ fmt_s virsh_cmd) ;;;
    ret [].

(** v2 blkiotune: the [key=value] words of one [io.max] line. *)
Definition cgroup2_iomax_word (word : string) (dev_iomax_dict : dict string string)
  : M (dict string string) :=
  match PyStr.split_char "=" word with
  | [key; value] => ret (sset key value dev_iomax_dict)
  | _ => raise ValueError
  end.

(** v2 blkiotune: one line of [io.max]. *)
Definition cgroup2_iomax_line (line : string) (std : info) : M info :=
  let dev_iomax_info := PyStr.split_ws (PyStr.strip line) in
  dev_num <- orraise IndexError (nth_error dev_iomax_info 0) ;;
  dev_iomax_dict <- for_each cgroup2_iomax_word (tl dev_iomax_info) [] ;;
  ret (kset (Some dev_num) (VDict dev_iomax_dict) std).

(** v2 memtune: one entry of the table. *)
Definition cgroup2_mem_entry (cgroup_path : option string)
  (entry : string * string) (std : info) : M info :=
  let '(cg_key, cg_file_name) := entry in
  p <- join_opt cgroup_path cg_file_name ;;
  cg_file <- orraise OSError (open_read h p) ;;
  ret (kset (Some cg_key) (VStr (PyStr.strip cg_file)) std).

(** v2 schedinfo: the read of one file, after the placeholders. *)
Definition cgroup2_sched_read (cgroup_path : option string)
  (cg_key cg_file_name : string) (std : info) : M info :=
  cg_dir <-
    (if String.eqb cg_key "cpu_shares" then
       match cgroup_path with
       | Some p => ret (Some (PyStr.before_first "libvirt" p))
       | None => raise AttributeError
       end
     else ret cgroup_path) ;;
  p <- join_opt cg_dir cg_file_name ;;
  cg_file <- orraise OSError (open_read h p) ;;
  let cg_file_values := PyStr.split_ws (PyStr.strip cg_file) in
  let list_index := if PyStr.contains "period" cg_key then 1 else 0 in
  v <- orraise IndexError (nth_error cg_file_values list_index) ;;
  ret (kset (Some cg_key) (VStr v) std).

Definition cgroup2_sched_entry (cgroup_path : option string)
  (vcpu_dirs iothread_dirs : option (list string))
  (entry : string * string) (std : info) : M info :=
  let '(cg_key, cg_file_name) := entry in
  name <- subst_placeholders vcpu_dirs iothread_dirs cg_file_name ;;
  match name with
  | None => ret std
  | Some cg_file_name' => cgroup2_sched_read cgroup_path cg_key cg_file_name' std
  end.

Definition __get_standardized_cgroup2_info (virsh_cmd : option string)
  : M info :=
  cgroup_path <- get_cgroup_path None ;;
  if cmd_is virsh_cmd "blkiotune" then
    weight_file_name <- orraise KeyError (sget "weight" CGROUP_V2_BLKIO_FILE_MAPPING) ;;
    iomax_file_name <- orraise KeyError (sget "wiops" CGROUP_V2_BLKIO_FILE_MAPPING) ;;
    p <- orraise AttributeError cgroup_path ;;
    let path_to_weight :=
      path_join (PyStr.before_first "libvirt" p) weight_file_name in
    weight_file <- orraise OSError (open_read h path_to_weight) ;;
    let weight_value :=
      match search_digits weight_file with
      | Some g => VStr g
      | None => VNone
      end in
    let std := kset (Some "weight") weight_value [] in
    let path_to_iomax := path_join p iomax_file_name in
    iomax_file <- orraise OSError (open_read h path_to_iomax) ;;
    for_each cgroup2_iomax_line (PyStr.readlines iomax_file) std
  else if cmd_is virsh_cmd "memtune" then
    for_each (cgroup2_mem_entry cgroup_path) CGROUP_V2_MEM_FILE_MAPPING []
  else if cmd_is virsh_cmd "schedinfo" then
    vcpu_dirs <- __get_cpu_subdirs cgroup_path "vcpu" ;;
    iothread_dirs <- __get_cpu_subdirs cgroup_path "iothread" ;;
    for_each (cgroup2_sched_entry cgroup_path vcpu_dirs iothread_dirs)
      CGROUP_V2_SCHEDINFO_FILE_MAPPING []
  else
    LOG ERROR ("You've provided a wrong virsh cmd: " ++ fmt_s virsh_cmd) ;;;
    ret [].

Definition get_standardized_cgroup_info (virsh_cmd : option string) : M info :=
  if is_cgroup_v2_enabled then __get_standardized_cgroup2_info virsh_cmd
  else __get_standardized_cgroup1_info virsh_cmd.

(** One line of the report: the field name and its value. *)
Definition convert_line (output_line : string) : string * string :=
  let output_info := PyStr.split_char ":" output_line in
  let output_param := PyStr.strip (nth 0 output_info "") in
  let output_value :=
    if Nat.eqb (List.length output_info) 1 then ""
    else PyStr.strip (nth 1 output_info "") in
  (output_param, output_value).

(** The argument is [result.stdout_text]. *)
Definition convert_virsh_output_to_dict (stdout_text : string)
  : dict string string :=
  let output := PyStr.strip stdout_text in
  let output_list := PyStr.splitlines output in
  fold_left (fun output_dict output_line =>
               let '(output_param, output_value) := convert_line output_line in
               sset output_param output_value output_dict)
            output_list [].

Definition get_virsh_output_dict (vm_name : string) (virsh_cmd : option string)
  : M (option (dict string string)) :=
  match virsh_cmd with
  | Some c =>
      if in_list c ["memtune"; "blkiotune"; "schedinfo"] then
        ret (Some (convert_virsh_output_to_dict (virsh h c vm_name)))
      else
        LOG ERROR ("There is no virsh cmd '" ++ c ++ "'") ;;; ret None
  | None => LOG ERROR "There is no virsh cmd 'None'" ;;; ret None
  end.

Definition __get_dev_major_minor (dev_path : string) : M (option string) :=
  if negb (path_exists h dev_path) then
    LOG DEBUG ("device '" ++ dev_path ++ "' not existing") ;;;
    ret None
  else
    st_rdev <- orraise OSError (stat_rdev h dev_path) ;;
    major <- orraise ValueError (PyStr.str (Z.of_N (os_major st_rdev))) ;;
    minor <- orraise ValueError (PyStr.str (Z.of_N (os_minor st_rdev))) ;;
    ret (Some (major ++ ":" ++ minor)).

(** blkiotune report: the walk over the comma-separated words of one field
    (the index [i] of the source is the position of the head of [l]). *)
Fixpoint virsh_blkio_values (virsh_output_mapping : dict string string)
  (io_item : string) (l : list string)
  (acc : info * list (option string)) : M (info * list (option string)) :=
  match l with
  | [] => ret acc
  | word :: rest =>
      acc' <-
        (if PyStr.contains "dev" word then
           let '(std, dev_list) := acc in
           dev_num <- __get_dev_major_minor word ;;
           let '(std1, dev_list1) :=
             if negb (existsb (key_eqb dev_num) dev_list)
             then (kset dev_num (VDict dev_init_dict) std,
                   (dev_list ++ [dev_num])%list)
             else (std, dev_list) in
           next <- orraise IndexError (nth_error rest 0) ;;
           k <- orraise KeyError (sget io_item virsh_output_mapping) ;;
           std2 <- set_dev_attr dev_num k next std1 ;;
           ret (std2, dev_list1)
         else ret acc) ;;
      virsh_blkio_values virsh_output_mapping io_item rest acc'
  end.

Definition virsh_blkio_item (virsh_output_mapping : dict string string)
  (item : string * string) (acc : info * list (option string))
  : M (info * list (option string)) :=
  let '(io_item, io_item_value) := item in
  if in_list io_item ["weight"] then
    ret (kset (Some io_item) (VStr io_item_value) (fst acc), snd acc)
  else if (in_list io_item (dict_keys virsh_output_mapping)
           && negb (String.eqb io_item_value ""))%bool then
    virsh_blkio_values virsh_output_mapping io_item
      (PyStr.split_char "," io_item_value) acc
  else ret acc.

Definition virsh_mem_item (item : string * string) (std : info) : M info :=
  let '(mem_item, mem_item_value) := item in
  if in_list mem_item_value ["unlimited"] then
    ret (kset (Some mem_item) (VStr "max") std)
  else if PyStr.isdigit mem_item_value then
    n <- orraise ValueError (PyStr.int mem_item_value) ;;
    bytes <- orraise ValueError (PyStr.str (n * 1024)) ;;
    ret (kset (Some mem_item) (VStr bytes) std)
  else
    let std' := kset (Some mem_item) (VStr mem_item_value) std in
    LOG DEBUG ("memtune: the value '" ++ mem_item_value ++ "' for '"
               ++ mem_item ++ "' is new to us, pls check.") ;;;
    ret std'.

Definition virsh_sched_item (item : string * string) (std : info) : M info :=
  let '(schedinfo_item, schedinfo_value) := item in
  if in_list (PyStr.lower schedinfo_item) ["scheduler"] then ret std
  else
    is_max <-
      (if PyStr.contains "quota" schedinfo_item then
         if in_list schedinfo_value ["18446744073709551"; "17592186044415"]
         then ret true
         else
           n <- orraise ValueError (PyStr.int schedinfo_value) ;;
           ret (Z.ltb n 0)
       else ret false) ;;
    if is_max then ret (kset (Some schedinfo_item) (VStr "max") std)
    else ret (kset (Some schedinfo_item) (VStr schedinfo_value) std).

(** [virsh_dict.items()]; the dictionary may be [None]. *)
Definition items (virsh_dict : option (dict string string))
  : M (list (string * string)) :=
  orraise AttributeError virsh_dict.

Definition get_standardized_virsh_info (virsh_cmd : option string)
  (virsh_dict : option (dict string string)) : M (option info) :=
  if cmd_is virsh_cmd "blkiotune" then
    let virsh_output_mapping := VIRSH_BLKIOTUNE_OUTPUT_MAPPING in
    l <- items virsh_dict ;;
    r <- for_each (virsh_blkio_item virsh_output_mapping) l ([], []) ;;
    ret (Some (fst r))
  else if cmd_is virsh_cmd "memtune" then
    let std : info :=
      [ (Some "hard_limit", VStr "max");
        (Some "soft_limit", VStr "max");
        (Some "swap_hard_limit", VStr "max") ] in
    l <- items virsh_dict ;;
    r <- for_each virsh_mem_item l std ;;
    ret (Some r)
  else if cmd_is virsh_cmd "schedinfo" then
    l <- items virsh_dict ;;
    r <- for_each virsh_sched_item l [] ;;
    ret (Some r)
  else
    LOG ERROR ("You've provided an unsupported virsh cmd: " ++ fmt_s virsh_cmd) ;;;
    ret None.

Definition get_standardized_virsh_output_by_name (vm_name : string)
  (virsh_cmd : option string) : M (option info) :=
  virsh_output_dict <- get_virsh_output_dict vm_name virsh_cmd ;;
  get_standardized_virsh_info virsh_cmd virsh_output_dict.

End CgroupTest.

(** ** Example hosts *)

(** A host given by its files, directories and device nodes. *)
Definition mk_host (grep_status : Z) (files : dict string string)
  (dirs : dict string (list string)) (devs : dict string N)
  (v1_path : string) (report : string) : Host :=
  {| grep_cgroup2_status := grep_status;
     open_read := fun p => sget p files;
     path_exists := fun p =>
       match sget p files, sget p dirs, sget p devs with
       | None, None, None => false
       | _, _, _ => true
       end;
     listdir := fun p => match p with Some p' => sget p' dirs | None => None end;
     stat_rdev := fun p => sget p devs;
     resolve_task_cgroup_path := fun _ _ => Some v1_path;
     getconf_page_size := "4096" ++ String PyStr.LF "";
     get_first_disk := "sda";
     virsh := fun _ _ => report |}.

(** A line feed. *)
Definition nl : string := String PyStr.LF "".

(** The text after the first occurrence of [sub] (empty when there is
    none). *)
Fixpoint after_first (sub s : string) : string :=
  if prefix sub s then drop (String.length sub) s
  else match s with
       | EmptyString => EmptyString
       | String _ s' => after_first sub s'
       end.

(** The field that the spec's first stage gives a line: the trimmed text
    before the first colon, and the whole trimmed remainder after it. *)
Definition spec_convert_line (line : string) : string * string :=
  (PyStr.strip (PyStr.before_first ":" line),
   if PyStr.contains ":" line then PyStr.strip (after_first ":" line) else "").

(** The value of the last pair with key [p]. *)
Definition last_value (p : string) (l : list (string * string))
  (init : option string) : option string :=
  fold_left (fun acc kv => if String.eqb p (fst kv) then Some (snd kv) else acc)
            l init.

Unset Implicit Arguments.

(** ** Statements: the spec's wording, the code's behaviour, shapes *)

(** The last segment of a path, and the resolver as the spec words it: the
    parent directory when the last segment is [emulator], the path itself
    otherwise. *)
Definition last_segment (path : string) : string :=
  last (PyStr.split_char "/" path) "".

Definition spec_resolve_v2 (joined : string) : string :=
  if String.eqb (last_segment joined) "emulator" then joined ++ "/.."
  else joined.

(** What the code does with the joined path. *)
Definition resolve_v2 (joined : string) : string :=
  if PyStr.contains "emulator" joined then joined ++ "/.." else joined.

Definition log_add (st : state) (l : level) (msg : string) : state :=
  {| log := log st ++ [(l, msg)]; v1_blkio_mapping := v1_blkio_mapping st |}.

(** A v2 host whose VM scope has [emulator] in a directory name that is
    not the last segment. *)
Definition host_emulator_inside : Host :=
  mk_host 0
    [ ("/proc/mounts", "cgroup2 /sys/fs/cgroup cgroup2 rw 0 0" ++ nl);
      ("/proc/4242/cgroup", "0::/machine.slice/emulator-vm.scope/libvirt/vcpu0" ++ nl) ]
    [ ("/sys/fs/cgroup/machine.slice/emulator-vm.scope/libvirt/vcpu0", []);
      ("/sys/fs/cgroup/machine.slice/emulator-vm.scope/libvirt/vcpu0/..", []) ]
    [] "" "".

Definition unsupported (virsh_cmd : option string) : Prop :=
  cmd_is virsh_cmd "blkiotune" = false
  /\ cmd_is virsh_cmd "memtune" = false
  /\ cmd_is virsh_cmd "schedinfo" = false.

(** A v2 host on which the cgroup file of the process 4242 cannot be
    opened. *)
Definition host_v2_no_proc : Host :=
  mk_host 0
    [ ("/proc/mounts", "cgroup2 /sys/fs/cgroup cgroup2 rw 0 0" ++ nl) ]
    [ ("/sys/fs/cgroup", []) ] [] "" "".

(** A v1 host without files. *)
Definition host_v1_bare : Host := mk_host 1 [] [] [] "/sys/fs/cgroup/blkio/machine" "".

(** The path that [__get_cg_file_path] gives for a known directory. *)
Definition v1_file_path (cg_key cg_path cg_file_name : string) : string :=
  if (in_list cg_key ["weight"; "cpu_shares"]
      && PyStr.contains "libvirt" cg_path)%bool
  then path_join (PyStr.before_first "libvirt" cg_path) cg_file_name
  else path_join cg_path cg_file_name.

(** The canonical value as the spec words it: the three sentinels become
    [max] for quota keys, every other value is kept. *)
Definition spec_v1_sched_value (cg_key v : string) : string :=
  if (PyStr.contains "quota" cg_key
      && in_list v ["-1"; "18446744073709551"; "17592186044415"])%bool
  then "max" else v.

(** The canonical value of the code. *)
Definition v1_sched_value (cg_key v : string) : string :=
  if String.eqb v "-1" then "max"
  else if (PyStr.contains "quota" cg_key
           && in_list v ["18446744073709551"; "17592186044415"])%bool
       then "max" else v.

(** An entry of the v1 scheduling map: the canonical value of a file. *)
Definition v1_sched_entry_of (h : Host) (kv : option string * value) : Prop :=
  exists cg_key path text,
    fst kv = Some cg_key
    /\ open_read h path = Some text
    /\ snd kv = VStr (v1_sched_value cg_key (PyStr.strip text)).

(** A v1 host: the scheduling files of a VM with two vcpus and no iothread,
    whose global period file reads [-1]. *)
Definition host_v1_sched : Host :=
  mk_host 1
    [ ("/cg/cpu/vm.scope/cpu.shares", "1024" ++ nl);
      ("/cg/cpu/vm.scope/libvirt/emulator/../vcpu0/cpu.cfs_period_us", "100000" ++ nl);
      ("/cg/cpu/vm.scope/libvirt/emulator/../vcpu0/cpu.cfs_quota_us", "17592186044415" ++ nl);
      ("/cg/cpu/vm.scope/libvirt/emulator/../emulator/cpu.cfs_period_us", "18446744073709551" ++ nl);
      ("/cg/cpu/vm.scope/libvirt/emulator/../emulator/cpu.cfs_quota_us", "50000" ++ nl);
      ("/cg/cpu/vm.scope/libvirt/emulator/../cpu.cfs_period_us", "-1" ++ nl);
      ("/cg/cpu/vm.scope/libvirt/emulator/../cpu.cfs_quota_us", "-1" ++ nl) ]
    [ ("/cg/cpu/vm.scope/libvirt/emulator", []);
      ("/cg/cpu/vm.scope/libvirt/emulator/..", ["vcpu1"; "emulator"; "vcpu0"]) ]
    [] "/cg/cpu/vm.scope/libvirt/emulator" "".

(** The file that the v2 scheduling reader opens for a known directory. *)
Definition v2_file_path (cg_key cg_path cg_file_name : string) : string :=
  path_join (if String.eqb cg_key "cpu_shares"
             then PyStr.before_first "libvirt" cg_path else cg_path)
            cg_file_name.

(** A v2 host: the scheduling files of a VM with one vcpu and no iothread;
    the argument is the content of the VM's own [cpu.max]. *)
Definition host_v2_sched (global_cpu_max : string) : Host :=
  mk_host 0
    [ ("/proc/mounts", "cgroup2 /sys/fs/cgroup cgroup2 rw 0 0" ++ nl);
      ("/proc/4242/cgroup", "0::/vm.scope/libvirt/emulator" ++ nl);
      ("/sys/fs/cgroup/vm.scope/cpu.weight", "100" ++ nl);
      ("/sys/fs/cgroup/vm.scope/libvirt/emulator/../vcpu0/cpu.max", "20000 100000" ++ nl);
      ("/sys/fs/cgroup/vm.scope/libvirt/emulator/../emulator/cpu.max", "max 50000" ++ nl);
      ("/sys/fs/cgroup/vm.scope/libvirt/emulator/../cpu.max", global_cpu_max) ]
    [ ("/sys/fs/cgroup/vm.scope/libvirt/emulator/..", ["vcpu0"; "emulator"]) ]
    [] "" "".

(** The index of the word that a key receives. *)
Definition v2_list_index (cg_key : string) : nat :=
  if PyStr.contains "period" cg_key then 1 else 0.

(** An entry of the v2 scheduling map: a word of a file, as read. *)
Definition v2_sched_entry_of (h : Host) (kv : option string * value) : Prop :=
  exists cg_key path text word,
    fst kv = Some cg_key
    /\ open_read h path = Some text
    /\ nth_error (PyStr.split_ws (PyStr.strip text)) (v2_list_index cg_key)
       = Some word
    /\ snd kv = VStr word.

(** The schedinfo report of a VM whose vcpu quota is printed as [max]. *)
Definition schedinfo_report_max : string :=
  "Scheduler      : posix" ++ nl ++
  "cpu_shares     : 1024" ++ nl ++
  "vcpu_period    : 100000" ++ nl ++
  "vcpu_quota     : max" ++ nl.

(** The memtune report of virsh, with a hard limit of 2 GiB in KiB. *)
Definition memtune_report : string :=
  "hard_limit     : 2097152" ++ nl ++
  "soft_limit     : unlimited" ++ nl ++
  "swap_hard_limit: unlimited" ++ nl.

(** The four per-device fields of the blkiotune report and their keys. *)
Definition device_fields : dict string string :=
  tl VIRSH_BLKIOTUNE_OUTPUT_MAPPING.

(** The identity string of a device number. *)
Definition major_minor (st_rdev : N) : string :=
  PyStr.str_text (Z.of_N (os_major st_rdev)) ++ ":"
  ++ PyStr.str_text (Z.of_N (os_minor st_rdev)).

(** The report of one device field: [path,value]. *)
Definition one_device_report (io_item path value : string)
  : dict string string :=
  [(io_item, path ++ String "," value)].

(** A host with the disk [/dev/sda] (device number 8:0) and no [/dev/sdb]. *)
Definition host_one_disk : Host :=
  mk_host 1 [] [] [("/dev/sda", 0x800%N)] "/sys/fs/cgroup/blkio/machine" "".

Definition four_keys : list string := ["rbps"; "wbps"; "riops"; "wiops"].

Definition has_key (d : dict string string) (k : string) : bool :=
  match sget k d with Some _ => true | None => false end.

(** All of rbps, wbps, riops and wiops are present. *)
Definition has_four (d : dict string string) : bool :=
  forallb (has_key d) four_keys.

(** A v1 host with the bfq scheduler: one device has a read-iops limit. *)
Definition host_v1_blkio : Host :=
  mk_host 1
    [ ("/sys/block/sda/queue/scheduler", "mq-deadline kyber [bfq] none" ++ nl);
      ("/cg/blkio/vm.scope/blkio.bfq.weight", "100" ++ nl);
      ("/cg/blkio/vm.scope/libvirt/blkio.throttle.write_iops_device", "");
      ("/cg/blkio/vm.scope/libvirt/blkio.throttle.read_iops_device", "8:0 500" ++ nl);
      ("/cg/blkio/vm.scope/libvirt/blkio.throttle.read_bps_device", "");
      ("/cg/blkio/vm.scope/libvirt/blkio.throttle.write_bps_device", "") ]
    [ ("/cg/blkio/vm.scope/libvirt", []) ]
    [] "/cg/blkio/vm.scope/libvirt" "".

(** A v2 host; the arguments are the contents of the weight file and of
    [io.max]. *)
Definition host_v2_blkio (weight_file iomax_file : string) : Host :=
  mk_host 0
    [ ("/proc/mounts", "cgroup2 /sys/fs/cgroup cgroup2 rw 0 0" ++ nl);
      ("/proc/4242/cgroup", "0::/vm.scope/libvirt/emulator" ++ nl);
      ("/sys/fs/cgroup/vm.scope/io.bfq.weight", weight_file);
      ("/sys/fs/cgroup/vm.scope/libvirt/emulator/../io.max", iomax_file) ]
    [ ("/sys/fs/cgroup/vm.scope/libvirt/emulator/..", []) ]
    [] "" "".

(** A decimal number or the sentinel [max]. *)
Definition decimal_or_max (s : string) : bool :=
  (String.eqb s "max" || PyStr.isdecimal s)%bool.

(** The value shape that the spec gives every entry of a canonical map. *)
Definition canonical_value (v : value) : bool :=
  match v with
  | VStr s => decimal_or_max s
  | VNone => false
  | VDict d => forallb (fun kv => decimal_or_max (snd kv)) d
  end.

(** The canonical value that the memtune parser gives a report value;
    [None] is the ValueError of a digit string that [int] refuses or whose
    product [str] refuses. *)
Definition virsh_mem_value (v : string) : option string :=
  if in_list v ["unlimited"] then Some "max"
  else if PyStr.isdigit v then
         match PyStr.int v with
         | Some n => PyStr.str (n * 1024)
         | None => None
         end
       else Some v.

(** The state after the memtune parser has handled a field: a value that
    is neither [unlimited] nor a digit string leaves a debug line. *)
Definition virsh_mem_log (k v : string) (st : state) : state :=
  if (in_list v ["unlimited"] || PyStr.isdigit v)%bool then st
  else log_add st DEBUG ("memtune: the value '" ++ v ++ "' for '"
                         ++ k ++ "' is new to us, pls check.").

(** The keys that the memtune parser starts from. *)
Definition memtune_keys : list string :=
  ["hard_limit"; "soft_limit"; "swap_hard_limit"].

(** A string of [n] nines, and the superscript two (U+00B2). *)
Definition nines (n : nat) : string := string_of_list_ascii (repeat "9"%char n).
Definition superscript_two : string := String (ascii_of_N 178) "".

(** ** More of class CgroupTest *)

Definition get_cgroup_file_mapping (h : Host) (virsh_cmd : option string)
  : M (option (dict string string)) :=
  if is_cgroup_v2_enabled h then
    if cmd_is virsh_cmd "memtune" then ret (Some CGROUP_V2_MEM_FILE_MAPPING)
    else if cmd_is virsh_cmd "blkiotune" then
           ret (Some CGROUP_V2_BLKIO_FILE_MAPPING)
    else if cmd_is virsh_cmd "schedinfo" then
           ret (Some CGROUP_V2_SCHEDINFO_FILE_MAPPING)
    else ret None
  else
    if cmd_is virsh_cmd "memtune" then ret (Some CGROUP_V1_MEM_FILE_MAPPING)
    else if cmd_is virsh_cmd "blkiotune" then
           table <- get_v1_blkio ;; ret (Some table)
    else if cmd_is virsh_cmd "schedinfo" then
           ret (Some CGROUP_V1_SCHEDINFO_FILE_MAPPING)
    else ret None.

(** ** Statements of the further properties *)

(** String order of [sorted]. *)
Definition str_le (a b : string) : Prop := String.leb a b = true.

(** The two keys of the schema tables that need an iothread directory. *)
Definition iothread_period : option string := Some "iothread_period".
Definition iothread_quota : option string := Some "iothread_quota".

(** No child of any directory of the host has [keyword] in its name. *)
Definition no_child_with (h : Host) (keyword : string) : Prop :=
  forall p names,
    listdir h p = Some names -> filter (PyStr.contains keyword) names = [].

(** Every listed directory of the host has a child with [keyword] in its
    name. *)
Definition some_child_with (h : Host) (keyword : string) : Prop :=
  forall p names,
    listdir h p = Some names -> filter (PyStr.contains keyword) names <> [].

(** An entry of a scheduling table that is not an iothread key, or that
    needs the iothread placeholder alone. *)
Definition sched_entry_kind (entry : string * string) : bool :=
  let '(cg_key, cg_file_name) := entry in
  (negb (String.eqb "iothread_period" cg_key)
   && negb (String.eqb "iothread_quota" cg_key)
   || negb (PyStr.contains "<vcpuX>" cg_file_name)
      && PyStr.contains "<iothreadX>" cg_file_name)%bool.

(** A v1 host whose scheduling directory lists no vcpu child. *)
Definition host_v1_no_vcpu : Host :=
  mk_host 1
    [ ("/cg/cpu/vm.scope/cpu.shares", "1024" ++ nl) ]
    [ ("/cg/cpu/vm.scope/libvirt/emulator", []);
      ("/cg/cpu/vm.scope/libvirt/emulator/..", ["emulator"]) ]
    [] "/cg/cpu/vm.scope/libvirt/emulator" "".

(** The table after the patch that the v1 blkio reader applies when the
    scheduler is not bfq. *)
Definition patch_v1_blkio (table : dict string string) : dict string string :=
  sset "weight_device" "blkio.weight_device" (sset "weight" "blkio.weight" table).

(** A computation that leaves the process state as it is. *)
Definition pure_M {A} (c : M A) : Prop := forall st, snd (c st) = st.

(** A computation that leaves the v1 blkio table as it is. *)
Definition keeps_table {A} (c : M A) : Prop :=
  forall st, v1_blkio_mapping (snd (c st)) = v1_blkio_mapping st.

(** The scheduler file that [is_bfq] reads. *)
Definition schedulerfd (h : Host) : string :=
  "/sys/block/" ++ get_first_disk h ++ "/queue/scheduler".

(** A v1 host whose scheduler is not bfq, with the legacy weight files. *)
Definition host_v1_cfq : Host :=
  mk_host 1
    [ ("/sys/block/sda/queue/scheduler", "noop deadline [cfq]" ++ nl);
      ("/cg/blkio/vm.scope/blkio.weight", "500" ++ nl);
      ("/cg/blkio/vm.scope/libvirt/blkio.throttle.write_iops_device", "");
      ("/cg/blkio/vm.scope/libvirt/blkio.throttle.read_iops_device", "8:0 500" ++ nl);
      ("/cg/blkio/vm.scope/libvirt/blkio.throttle.read_bps_device", "");
      ("/cg/blkio/vm.scope/libvirt/blkio.throttle.write_bps_device", "");
      ("/cg/blkio/vm.scope/libvirt/blkio.weight_device", "8:0 300" ++ nl) ]
    [ ("/cg/blkio/vm.scope/libvirt", []) ]
    [] "/cg/blkio/vm.scope/libvirt" "".

(** The byte count that stands for no limit in the v1 memory files: it
    depends on the page size. *)
Definition v1_max_mem_value (page_size : Z) : string :=
  if Z.eqb page_size 65536 then "9223372036854710272"
  else "9223372036854771712".

(** The canonical value of a v1 memory file. *)
Definition v1_mem_value (page_size : Z) (content : string) : string :=
  let v := PyStr.strip content in
  if String.eqb v (v1_max_mem_value page_size) then "max" else v.

(** A v1 host with the three memory files; the arguments are the output
    of getconf and the content of the hard limit file. *)
Definition host_v1_mem (page_size hard : string) : Host :=
  {| grep_cgroup2_status := 1;
     open_read := fun p =>
       sget p [ ("/cg/memory/vm.scope/memory.limit_in_bytes", hard);
                ("/cg/memory/vm.scope/memory.soft_limit_in_bytes",
                 "9223372036854771712" ++ nl);
                ("/cg/memory/vm.scope/memory.memsw.limit_in_bytes",
                 "4294967296" ++ nl) ];
     path_exists := fun p => String.eqb p "/cg/memory/vm.scope";
     listdir := fun _ => None;
     stat_rdev := fun _ => None;
     resolve_task_cgroup_path := fun _ _ => Some "/cg/memory/vm.scope";
     getconf_page_size := page_size;
     get_first_disk := "sda";
     virsh := fun _ _ => "" |}.

(** The canonical value that the schedinfo parser gives a field. *)
Definition virsh_sched_value (field v : string) : string :=
  if (PyStr.contains "quota" field
      && (in_list v ["18446744073709551"; "17592186044415"]
          || match PyStr.int v with
             | Some n => Z.ltb n 0
             | None => false
             end))%bool
  then "max" else v.

(** An entry of the schedinfo parser's map for the report [l]. *)
Definition virsh_sched_entry_of (l : dict string string)
  (kv : option string * value) : Prop :=
  exists k v,
    fst kv = Some k /\ In (k, v) l
    /\ in_list (PyStr.lower k) ["scheduler"] = false
    /\ snd kv = VStr (virsh_sched_value k v).

(** A schedinfo report of virsh. *)
Definition schedinfo_report : string :=
  "Scheduler      : posix" ++ nl ++
  "cpu_shares     : 1024" ++ nl ++
  "vcpu_period    : 100000" ++ nl ++
  "vcpu_quota     : -1" ++ nl ++
  "emulator_quota : 17592186044415" ++ nl ++
  "global_quota   : 50000" ++ nl.

(** A character other than the colon. *)
Definition not_colon (c : ascii) : bool := negb (Ascii.eqb c ":").

(** A field name or value of the first stage: trimmed and free of colons. *)
Definition clean_text (s : string) : Prop :=
  PyStr.strip s = s /\ PyStr.contains ":" s = false.

(** The keys of a per-device entry after a weight_device line. *)
Definition five_keys : list string := four_keys ++ ["weight_device"].

(** A per-device entry with exactly the four keys, in the order of the
    defaults. *)
Definition keys_four (v : value) : Prop :=
  match v with
  | VDict d => dict_keys d = four_keys
  | _ => True
  end.

Definition entries_four (std : info) : Prop :=
  Forall (fun kv => keys_four (snd kv)) std.

(** A per-device entry with the four keys, or the four keys and
    weight_device. *)
Definition keys_four_or_five (v : value) : Prop :=
  match v with
  | VDict d => dict_keys d = four_keys \/ dict_keys d = five_keys
  | _ => True
  end.

Definition entries_four_or_five (std : info) : Prop :=
  Forall (fun kv => keys_four_or_five (snd kv)) std.

(** The words of a line of [io.max]. *)
Definition iomax_words (line : string) : list string :=
  PyStr.split_ws (PyStr.strip line).

(** The sub-map that one line of [io.max] describes: a key for every
    [key=value] word after the device, a later word replacing an earlier one
    with the same key. *)
Definition iomax_entry (line : string) : dict string string :=
  fold_left (fun d word =>
               sset (PyStr.before_first "=" word) (after_first "=" word) d)
            (tl (iomax_words line)) [].

(** A v2 host whose [io.max] names the device 8:0 on two lines. *)
Definition host_v2_two_lines : Host :=
  host_v2_blkio ("default 100" ++ nl)
    ("8:0 rbps=1048576 wbps=max riops=max wiops=max" ++ nl
     ++ "8:16 rbps=max wbps=max riops=500 wiops=max" ++ nl
     ++ "8:0 riops=200" ++ nl).

(** ** Statements on the per-device entries *)

(** The value that the last pair for the device [dev] gives, [init] when
    no pair names the device. *)
Definition last_for (dev : option string)
  (pairs : list (option string * string)) (init : option string)
  : option string :=
  fold_left (fun acc p => if key_eqb dev (fst p) then Some (snd p) else acc)
            pairs init.

(** The value of the last pair for the device [dev], [default] when no
    pair names the device. *)
Definition last_or (dev : option string)
  (pairs : list (option string * string)) (default : string) : string :=
  fold_left (fun acc p => if key_eqb dev (fst p) then snd p else acc)
            pairs default.

(** The device and the value of a line of a v1 per-device file. *)
Definition v1_line_pair (line : string) : list (option string * string) :=
  match PyStr.split_ws (PyStr.strip line) with
  | dev_num :: dev_cg_value :: _ => [(Some dev_num, dev_cg_value)]
  | _ => []
  end.

(** The devices and values of a v1 per-device file under the directory
    [cgroup_path], in the order of its lines. *)
Definition v1_file_pairs (h : Host) (cgroup_path cg_file_name : string)
  : list (option string * string) :=
  match open_read h (path_join cgroup_path cg_file_name) with
  | Some text => flat_map v1_line_pair (PyStr.readlines text)
  | None => []
  end.

(** The devices and values that the entries of a table give the key
    [cg_key]. *)
Definition v1_key_pairs (h : Host) (cgroup_path : string)
  (entries : dict string string) (cg_key : string)
  : list (option string * string) :=
  flat_map (fun entry => if String.eqb cg_key (fst entry)
                         then v1_file_pairs h cgroup_path (snd entry) else [])
           entries.

(** The four throttle files of the v1 table, which the patch leaves as
    they are. *)
Definition v1_throttle_files : dict string string :=
  tl CGROUP_V1_BLKIO_FILE_MAPPING.

(** The two values that the module-level table takes: as the module
    defines it, and patched. *)
Definition v1_table_reachable (table : dict string string) : Prop :=
  table = CGROUP_V1_BLKIO_FILE_MAPPING
  \/ table = patch_v1_blkio CGROUP_V1_BLKIO_FILE_MAPPING.

(** The key under which the report parser files a device path: [None]
    for a path that does not exist, the identity of the node otherwise (a
    run that returns has read the device number of every path that
    exists). *)
Definition dev_key (h : Host) (path : string) : option string :=
  if path_exists h path then option_map major_minor (stat_rdev h path)
  else None.

(** The devices and values of the comma-separated words of a report field:
    a word that holds [dev] names a device, and the word after it is the
    value. *)
Fixpoint virsh_dev_pairs (h : Host) (words : list string)
  : list (option string * string) :=
  match words with
  | [] => []
  | word :: rest =>
      ((if PyStr.contains "dev" word then
          match rest with
          | next :: _ => [(dev_key h word, next)]
          | [] => []
          end
        else []) ++ virsh_dev_pairs h rest)%list
  end.

(** The devices and values that a field of the report gives the key [k]. *)
Definition virsh_field_pairs (h : Host) (k : string) (item : string * string)
  : list (option string * string) :=
  let '(io_item, io_item_value) := item in
  if in_list io_item ["weight"] then []
  else if (in_list io_item (dict_keys VIRSH_BLKIOTUNE_OUTPUT_MAPPING)
           && negb (String.eqb io_item_value ""))%bool then
         match sget io_item VIRSH_BLKIOTUNE_OUTPUT_MAPPING with
         | Some k' =>
             if String.eqb k k'
             then virsh_dev_pairs h (PyStr.split_char "," io_item_value)
             else []
         | None => []
         end
       else [].

Definition virsh_report_pairs (h : Host) (k : string)
  (virsh_dict : dict string string) : list (option string * string) :=
  flat_map (virsh_field_pairs h k) virsh_dict.

(** A line of [io.max] whose first word is [dev], and the last such line. *)
Definition names_dev (dev line : string) : bool :=
  match nth_error (iomax_words line) 0 with
  | Some d => String.eqb dev d
  | None => false
  end.

Definition last_line_for (dev : string) (lines : list string) : option string :=
  fold_left (fun acc line => if names_dev dev line then Some line else acc)
            lines None.

(** The pairs found so far, by key, and the same with more pairs for one
    key. *)
Definition add_pairs (P : string -> list (option string * string))
  (k0 : string) (more : list (option string * string))
  : string -> list (option string * string) :=
  fun k => if String.eqb k k0 then (P k ++ more)%list else P k.

(** The invariant of the loops that fill the per-device entries: the
    devices seen are those with an entry and those of the pairs found, and
    an entry holds, key by key, the value of the device's last pair, or the
    default. *)
Definition dev_inv (P : string -> list (option string * string))
  (std : info) (seen : option string -> bool) : Prop :=
  (forall D, seen D = true <-> exists d, kget D std = Some (VDict d))
  /\ (forall D, seen D = true <-> exists k v, In (D, v) (P k))
  /\ (forall D d, kget D std = Some (VDict d) ->
        forall k, sget k d = last_for D (P k) (sget k dev_init_dict)).

(** What the invariant says of the map alone. *)
Definition dev_entries (P : string -> list (option string * string))
  (std : info) : Prop :=
  (forall D, (exists d, kget D std = Some (VDict d))
             <-> exists k v, In (D, v) (P k))
  /\ (forall D d, kget D std = Some (VDict d) ->
        forall k, sget k d = last_for D (P k) (sget k dev_init_dict)).

Definition seen_v1 (dev_list : list string) (D : option string) : bool :=
  match D with
  | Some dev_num => in_list dev_num dev_list
  | None => false
  end.

Definition seen_virsh (dev_list : list (option string)) (D : option string)
  : bool :=
  existsb (key_eqb D) dev_list.

(** * Properties *)

(** ** The primitives on examples *)

Example strip_ex : PyStr.strip "  a b  " = "a b".
Proof. reflexivity. Qed.
Example str_ex : PyStr.str (-1024) = Some "-1024" /\ PyStr.str 0 = Some "0".
Proof. split; reflexivity. Qed.
Example int_ex : PyStr.int " -1_0 " = Some (-10)%Z /\ PyStr.int "max" = None.
Proof. split; reflexivity. Qed.

Example path_join_ex :
  path_join "/sys/fs/cgroup" "machine.slice/vm.scope" = "/sys/fs/cgroup/machine.slice/vm.scope"
  /\ path_join "/a/" "b" = "/a/b" /\ path_join "/a" "/b" = "/b".
Proof. repeat split; reflexivity. Qed.

Example findall_mount_point_ex :
  findall_mount_point_0
    ("proc /proc proc rw 0 0" ++ String PyStr.LF
       "cgroup2 /sys/fs/cgroup cgroup2 rw,nosuid 0 0")
  = Some "/sys/fs/cgroup".
Proof. reflexivity. Qed.

Example findall_vm_scope_ex :
  findall_vm_scope_0 ("0::/machine.slice/vm.scope/libvirt/emulator" ++ String PyStr.LF "")
  = Some "/machine.slice/vm.scope/libvirt/emulator".
Proof. reflexivity. Qed.

Example os_major_minor_ex : os_major 0x810 = 8%N /\ os_minor 0x810 = 16%N.
Proof. split; reflexivity. Qed.

(** ** Dictionaries *)

Section DictFacts.
Variables K V : Type.
Variable eqb : K -> K -> bool.
Hypothesis eqb_spec : forall a b, eqb a b = true <-> a = b.

Lemma eqb_same a : eqb a a = true.
Proof. apply eqb_spec; reflexivity. Qed.

Lemma dict_get_set (k k' : K) (v : V) (d : dict K V) :
  dict_get eqb k (dict_set eqb k' v d)
  = if eqb k k' then Some v else dict_get eqb k d.
Proof.
  induction d as [|[k0 v0] d IH]; simpl.
  - reflexivity.
  - destruct (eqb k' k0) eqn:E0; simpl.
    + apply eqb_spec in E0; subst k0.
      destruct (eqb k k'); reflexivity.
    + destruct (eqb k k0) eqn:E1.
      * destruct (eqb k k') eqn:E2; [|reflexivity].
        apply eqb_spec in E1, E2; subst.
        rewrite eqb_same in E0; discriminate.
      * exact IH.
Qed.
Lemma Forall_dict_set_kv (Q : K * V -> Prop) (k : K) (v : V) (d : dict K V) :
  Q (k, v) -> Forall Q d -> Forall Q (dict_set eqb k v d).
Proof.
  intros Hv Hd. induction Hd as [|[k0 v0] d H0 Hd IH]; cbn [dict_set].
  - constructor; [exact Hv | constructor].
  - destruct (eqb k k0) eqn:E; constructor; auto.
    apply eqb_spec in E. subst k0. exact Hv.
Qed.

Lemma Forall_dict_get_kv (Q : K * V -> Prop) (k : K) (v : V) (d : dict K V) :
  Forall Q d -> dict_get eqb k d = Some v -> Q (k, v).
Proof.
  intros Hd. induction Hd as [|[k0 v0] d H0 Hd IH]; cbn [dict_get].
  - discriminate.
  - destruct (eqb k k0) eqn:E; [|exact IH].
    apply eqb_spec in E. subst k0. intro H. inversion H; subst. exact H0.
Qed.
End DictFacts.

Lemma key_eqb_spec a b : key_eqb a b = true <-> a = b.
Proof.
  destruct a as [x|], b as [y|]; simpl; split; intro H;
    try discriminate; try reflexivity.
  - apply String.eqb_eq in H; congruence.
  - inversion H; apply String.eqb_refl.
Qed.

Lemma sget_sset {V} (k k' : string) (v : V) d :
  sget k (sset k' v d) = if String.eqb k k' then Some v else sget k d.
Proof. apply dict_get_set, String.eqb_eq. Qed.

Lemma kget_kset k k' v d :
  kget k (kset k' v d) = if key_eqb k k' then Some v else kget k d.
Proof. apply dict_get_set, key_eqb_spec. Qed.

(** ** The first stage of the report parser *)

Lemma prefix_char (c a : ascii) (s : string) :
  prefix (String c "") (String a s) = Ascii.eqb a c.
Proof.
  simpl. destruct (ascii_dec c a) as [->|N].
  - rewrite Ascii.eqb_refl; destruct s; reflexivity.
  - symmetry; apply Ascii.eqb_neq; congruence.
Qed.

Lemma split_char_first (c : ascii) (s : string) :
  PyStr.split_char c s
  = PyStr.before_first (String c "") s
      :: (if PyStr.contains (String c "") s
          then PyStr.split_char c (after_first (String c "") s) else []).
Proof.
  induction s as [|a s IH].
  - reflexivity.
  - cbn [PyStr.split_char PyStr.before_first PyStr.contains after_first].
    rewrite prefix_char.
    destruct (Ascii.eqb a c) eqn:E.
    + reflexivity.
    + rewrite IH. reflexivity.
Qed.

Lemma convert_line_fields (line : string) :
  convert_line line
  = (PyStr.strip (PyStr.before_first ":" line),
     if PyStr.contains ":" line
     then PyStr.strip (PyStr.before_first ":" (after_first ":" line))
     else "").
Proof.
  unfold convert_line.
  rewrite (split_char_first ":" line).
  destruct (PyStr.contains ":" line).
  - rewrite (split_char_first ":" (after_first ":" line)).
    cbn [nth List.length Nat.eqb].
    destruct (PyStr.contains ":" (after_first ":" line)); reflexivity.
  - reflexivity.
Qed.

Lemma convert_fold_get (p : string) (lines : list string) :
  forall d : dict string string,
    sget p (fold_left (fun output_dict output_line =>
                         let '(output_param, output_value) :=
                           convert_line output_line in
                         sset output_param output_value output_dict)
                      lines d)
    = last_value p (map convert_line lines) (sget p d).
Proof.
  unfold last_value.
  induction lines as [|l lines IH]; intro d; simpl.
  - reflexivity.
  - rewrite IH. destruct (convert_line l) as [k v]; simpl.
    rewrite sget_sset. reflexivity.
Qed.

(** C3 (as amended): for every line, the first stage takes the trimmed text
    before the first colon as the field name and, as its value, the trimmed
    text between the first colon and the second one (the end of the line when
    there is no second colon; the empty string when the line has no colon);
    what follows a second colon is dropped.  In the resulting map a field
    name has the value of the last line that carries it. *)
Theorem convert_virsh_output_to_dict_fields :
  (forall line,
      convert_line line
      = (PyStr.strip (PyStr.before_first ":" line),
         if PyStr.contains ":" line
         then PyStr.strip (PyStr.before_first ":" (after_first ":" line))
         else ""))
  /\ (forall stdout_text p,
         sget p (convert_virsh_output_to_dict stdout_text)
         = last_value p
             (map convert_line (PyStr.splitlines (PyStr.strip stdout_text)))
             None).
Proof.
  split.
  - exact convert_line_fields.
  - intros t p. unfold convert_virsh_output_to_dict.
    rewrite convert_fold_get. reflexivity.
Qed.

(** C3, counterexample: on the report line [a: b:c] the value holds a
    colon; the spec's first stage would keep [b:c], the code keeps [b]. *)
Lemma convert_virsh_output_to_dict_drops_after_second_colon :
  let line := "a: b:c" in
  PyStr.contains ":" line = true
  /\ spec_convert_line line = ("a", "b:c")
  /\ sget "a" (convert_virsh_output_to_dict line) = Some "b"
  /\ sget (fst (spec_convert_line line)) (convert_virsh_output_to_dict line)
     <> Some (snd (spec_convert_line line)).
Proof. cbv. repeat split; discriminate. Qed.

(** ** Inversion of the monad and loop invariants *)

Lemma bind_Ok_inv {A B} (c : M A) (k : A -> M B) st b st' :
  bind c k st = (Ok b, st') ->
  exists a st1, c st = (Ok a, st1) /\ k a st1 = (Ok b, st').
Proof.
  unfold bind. destruct (c st) as [[a|e] st1]; intro H.
  - exists a, st1. split; [reflexivity | exact H].
  - discriminate.
Qed.

Lemma ret_Ok_inv {A} (a b : A) st st' :
  ret a st = (Ok b, st') -> a = b /\ st = st'.
Proof. unfold ret. intro H. inversion H. split; reflexivity. Qed.

Lemma orraise_Ok_inv {A} e (o : option A) a st st' :
  orraise e o st = (Ok a, st') -> o = Some a /\ st = st'.
Proof.
  destruct o; cbn; intro H; inversion H. split; reflexivity.
Qed.

(** A property of the loop state that every iteration keeps is kept by
    the loop. *)
Lemma for_each_inv {A S} (P : S -> Prop) (body : A -> S -> M S) (l : list A) :
  (forall a s st s' st',
      In a l -> P s -> body a s st = (Ok s', st') -> P s') ->
  forall s st s' st',
    P s -> for_each body l s st = (Ok s', st') -> P s'.
Proof.
  induction l as [|a l IH]; intros Hstep s st s' st' Hs H.
  - apply ret_Ok_inv in H as [-> _]. exact Hs.
  - cbn [for_each] in H. apply bind_Ok_inv in H as (s1 & st1 & H1 & H2).
    apply (IH (fun a0 s0 st0 s0' st0' Hin => Hstep a0 s0 st0 s0' st0' (or_intror Hin))
             s1 st1 s' st'); [|exact H2].
    eapply Hstep; [left; reflexivity | exact Hs | exact H1].
Qed.

(** A property that one iteration establishes and every iteration keeps
    holds after the loop. *)
Lemma for_each_reach {A S} (P : S -> Prop) (body : A -> S -> M S)
  (a0 : A) (l : list A) :
  (forall a s st s' st', body a s st = (Ok s', st') -> P s -> P s') ->
  (forall s st s' st', body a0 s st = (Ok s', st') -> P s') ->
  In a0 l ->
  forall s st s' st', for_each body l s st = (Ok s', st') -> P s'.
Proof.
  intros Hkeep Hset. induction l as [|a l IH]; intros Hin s st s' st' H.
  - destruct Hin.
  - cbn [for_each] in H. apply bind_Ok_inv in H as (s1 & st1 & H1 & H2).
    destruct Hin as [->|Hin].
    + revert H2. apply for_each_inv with (P := P).
      * intros a s2 st2 s2' st2' _ Hs Hb. exact (Hkeep _ _ _ _ _ Hb Hs).
      * exact (Hset _ _ _ _ H1).
    + exact (IH Hin _ _ _ _ H2).
Qed.

(** ** Path resolution on cgroup v2 *)

Lemma split_char_not_nil (c : ascii) (s : string) :
  PyStr.split_char c s <> [].
Proof.
  destruct s as [|a s]; cbn [PyStr.split_char]; [discriminate|].
  destruct (Ascii.eqb a c); [discriminate|].
  destruct (PyStr.split_char c s); discriminate.
Qed.

Lemma split_char_single (c : ascii) (s x : string) :
  PyStr.split_char c s = [x] -> s = x.
Proof.
  revert x. induction s as [|a s IH]; intros x H; cbn [PyStr.split_char] in H.
  - inversion H. reflexivity.
  - destruct (Ascii.eqb a c).
    + inversion H as [[Hx Hnil]]. destruct (split_char_not_nil c s Hnil).
    + destruct (PyStr.split_char c s) as [|l ls] eqn:E.
      * destruct (split_char_not_nil c s E).
      * inversion H; subst. rewrite (IH l eq_refl). reflexivity.
Qed.

(** The last segment of a path is a suffix of the path. *)
Lemma last_split_suffix (c : ascii) (s : string) :
  exists pre, s = pre ++ last (PyStr.split_char c s) "".
Proof.
  induction s as [|a s (pre & IH)].
  - exists "". reflexivity.
  - cbn [PyStr.split_char].
    destruct (PyStr.split_char c s) as [|l ls] eqn:E;
      [destruct (split_char_not_nil c s E)|].
    destruct (Ascii.eqb a c).
    + exists (String a pre). cbn [last append]. rewrite IH at 1. reflexivity.
    + destruct ls as [|x ls'].
      * apply split_char_single in E. subst l.
        exists "". reflexivity.
      * exists (String a pre).
        change (last (String a l :: x :: ls') "") with (last (l :: x :: ls') "").
        cbn [append]. rewrite IH at 1. reflexivity.
Qed.

Lemma prefix_self (p : string) : prefix p p = true.
Proof.
  induction p as [|a p IH]; [reflexivity|].
  cbn [prefix]. destruct (ascii_dec a a); [exact IH | congruence].
Qed.

Lemma contains_suffix (pre p : string) : PyStr.contains p (pre ++ p) = true.
Proof.
  induction pre as [|a pre IH]; cbn [append].
  - destruct p; cbn [PyStr.contains]; [reflexivity|].
    rewrite prefix_self. reflexivity.
  - cbn [PyStr.contains]. rewrite IH.
    destruct (prefix p (String a (pre ++ p))); reflexivity.
Qed.

Lemma last_segment_contains (path : string) :
  PyStr.contains (last_segment path) path = true.
Proof.
  unfold last_segment. destruct (last_split_suffix "/" path) as [pre H].
  rewrite H at 2. apply contains_suffix.
Qed.

(** C7 (as amended): on cgroup v2 the resolver joins the mount point and
    the scope (slashes stripped) and appends [/..] exactly when the text
    [emulator] occurs anywhere in the joined path; the result is returned
    when it exists, and [None] (with an error logged) when it does not.
    A path whose last segment is [emulator] is among those rewritten. *)
Theorem get_cgroup_path_v2_emulator
  (h : Host) (vm_pid : string) (controller : option string) (st : state)
  (mnts vm_cg mp scope : string) :
  is_cgroup_v2_enabled h = true ->
  open_read h "/proc/mounts" = Some mnts ->
  open_read h ("/proc/" ++ vm_pid ++ "/cgroup") = Some vm_cg ->
  findall_mount_point_0 mnts = Some mp ->
  findall_vm_scope_0 vm_cg = Some scope ->
  let joined := path_join mp (PyStr.strip_char "/" scope) in
  get_cgroup_path h vm_pid controller st
  = (if path_exists h (resolve_v2 joined)
     then (Ok (Some (resolve_v2 joined)), st)
     else (Ok None,
           log_add st ERROR
             ("cgroup path '" ++ resolve_v2 joined ++ "' doesn't exist")))
  /\ (PyStr.contains "emulator" joined = true ->
      resolve_v2 joined = joined ++ "/..")
  /\ (PyStr.contains "emulator" joined = false -> resolve_v2 joined = joined)
  /\ (last_segment joined = "emulator" -> resolve_v2 joined = joined ++ "/..").
Proof.
  intros Hv2 Hm Hc Hmp Hsc joined. repeat split.
  - unfold get_cgroup_path, bind.
    rewrite Hv2, Hm, Hc. cbn [orraise ret].
    rewrite Hmp, Hsc. cbn [orraise ret].
    fold joined. unfold resolve_v2.
    destruct (PyStr.contains "emulator" joined); cbn [ret];
      match goal with
      | |- context [path_exists h ?p] => destruct (path_exists h p)
      end; reflexivity.
  - intro H. unfold resolve_v2. rewrite H. reflexivity.
  - intro H. unfold resolve_v2. rewrite H. reflexivity.
  - intro H. unfold resolve_v2.
    pose proof (last_segment_contains joined) as Hc'. rewrite H in Hc'.
    rewrite Hc'. reflexivity.
Qed.

Lemma get_cgroup_path_v2_emulator_witness :
  get_cgroup_path host_emulator_inside "4242" None initial_state
  = (Ok (Some "/sys/fs/cgroup/machine.slice/emulator-vm.scope/libvirt/vcpu0/.."),
     initial_state).
Proof.
  exact (proj1 (get_cgroup_path_v2_emulator host_emulator_inside "4242" None
                  initial_state
                  ("cgroup2 /sys/fs/cgroup cgroup2 rw 0 0" ++ nl)
                  ("0::/machine.slice/emulator-vm.scope/libvirt/vcpu0" ++ nl)
                  "/sys/fs/cgroup"
                  "/machine.slice/emulator-vm.scope/libvirt/vcpu0"
                  eq_refl eq_refl eq_refl eq_refl eq_refl)).
Defined.

(** C7, counterexample: the last segment of the joined path is [vcpu0],
    not [emulator], yet the path is not returned unmodified. *)
Lemma get_cgroup_path_v2_rewrites_on_inner_emulator :
  let joined := "/sys/fs/cgroup/machine.slice/emulator-vm.scope/libvirt/vcpu0" in
  last_segment joined = "vcpu0"
  /\ spec_resolve_v2 joined = joined
  /\ path_exists host_emulator_inside joined = true
  /\ fst (get_cgroup_path host_emulator_inside "4242" None initial_state)
     = Ok (Some (joined ++ "/.."))
  /\ fst (get_cgroup_path host_emulator_inside "4242" None initial_state)
     <> Ok (Some (spec_resolve_v2 joined)).
Proof. vm_compute. repeat split; discriminate. Qed.

(** ** Unsupported commands *)

(** C9 (as amended): for a command that is none of blkiotune, memtune and
    schedinfo, the v1 kernel-state reader logs an error and returns the
    empty map, and the report parser logs an error and returns [None].  The
    v2 reader resolves the cgroup path before it looks at the command: when
    the resolution returns (a path or [None]) the reader logs the error and
    returns the empty map; when the resolution raises, the reader raises the
    same exception, with no log line of its own and no map. *)
Theorem unsupported_command_asymmetry
  (h : Host) (vm_pid : string) (virsh_cmd : option string)
  (virsh_dict : option (dict string string)) (st : state) :
  unsupported virsh_cmd ->
  __get_standardized_cgroup1_info h vm_pid virsh_cmd st
  = (Ok [], log_add st ERROR
              ("You've provided a wrong virsh cmd: " ++ fmt_s virsh_cmd))
  /\ __get_standardized_cgroup2_info h vm_pid virsh_cmd st
     = match get_cgroup_path h vm_pid None st with
       | (Ok _, st1) =>
           (Ok [], log_add st1 ERROR
                     ("You've provided a wrong virsh cmd: " ++ fmt_s virsh_cmd))
       | (Raise e, st1) => (Raise e, st1)
       end
  /\ get_standardized_virsh_info h virsh_cmd virsh_dict st
     = (Ok None, log_add st ERROR
                   ("You've provided an unsupported virsh cmd: "
                    ++ fmt_s virsh_cmd)).
Proof.
  intros (Hb & Hm & Hs). repeat split.
  - unfold __get_standardized_cgroup1_info. rewrite Hb, Hm, Hs. reflexivity.
  - unfold __get_standardized_cgroup2_info, bind at 1.
    destruct (get_cgroup_path h vm_pid None st) as [[p|e] st1]; [|reflexivity].
    rewrite Hb, Hm, Hs. reflexivity.
  - unfold get_standardized_virsh_info. rewrite Hb, Hm, Hs. reflexivity.
Qed.

Lemma unsupported_command_asymmetry_witness :
  __get_standardized_cgroup1_info host_v1_bare "4242" (Some "cpuset") initial_state
  = (Ok [], log_add initial_state ERROR "You've provided a wrong virsh cmd: cpuset")
  /\ __get_standardized_cgroup2_info host_emulator_inside "4242" (Some "cpuset")
       initial_state
     = (Ok [], log_add initial_state ERROR "You've provided a wrong virsh cmd: cpuset")
  /\ get_standardized_virsh_info host_v1_bare (Some "cpuset") (Some []) initial_state
     = (Ok None, log_add initial_state ERROR
                   "You've provided an unsupported virsh cmd: cpuset").
Proof.
  pose proof (@unsupported_command_asymmetry host_v1_bare "4242" (Some "cpuset")
                (Some []) initial_state
                (conj eq_refl (conj eq_refl eq_refl))) as (H1 & _ & H3).
  pose proof (@unsupported_command_asymmetry host_emulator_inside "4242"
                (Some "cpuset") (Some []) initial_state
                (conj eq_refl (conj eq_refl eq_refl))) as (_ & H2 & _).
  exact (conj H1 (conj H2 H3)).
Defined.

(** C9, counterexample: on a v2 host where the cgroup file of the process
    cannot be opened, the reader given an unknown command neither logs nor
    returns the empty map: the path resolution that precedes the dispatch
    raises. *)
Lemma cgroup2_unsupported_command_raises :
  unsupported (Some "cpuset")
  /\ __get_standardized_cgroup2_info host_v2_no_proc "4242" (Some "cpuset")
       initial_state
     = (Raise OSError, initial_state).
Proof. split; [repeat split | vm_compute; reflexivity]. Qed.

(** ** Scheduling values on cgroup v1 *)

Lemma v1_sched_value_vs_spec (cg_key v : string) :
  v1_sched_value cg_key v
  = if (negb (PyStr.contains "quota" cg_key) && String.eqb v "-1")%bool
    then "max" else spec_v1_sched_value cg_key v.
Proof.
  unfold v1_sched_value, spec_v1_sched_value. cbn [in_list existsb].
  destruct (String.eqb v "-1") eqn:E1, (PyStr.contains "quota" cg_key);
    cbn [negb andb orb]; try reflexivity.
Qed.

Lemma cgroup1_sched_read_open
  (h : Host) (cgroup_path cg_key cg_file_name text : string)
  (std : info) (st : state) :
  open_read h (v1_file_path cg_key cgroup_path cg_file_name) = Some text ->
  cgroup1_sched_read h cgroup_path cg_key cg_file_name std st
  = (Ok (kset (Some cg_key) (VStr (v1_sched_value cg_key (PyStr.strip text))) std),
     st).
Proof.
  intro Hopen.
  unfold cgroup1_sched_read, bind, __get_cg_file_path.
  fold (v1_file_path cg_key cgroup_path cg_file_name).
  assert (Hp : (if (in_list cg_key ["weight"; "cpu_shares"]
                    && PyStr.contains "libvirt" cgroup_path)%bool
                then ret (path_join (PyStr.before_first "libvirt" cgroup_path)
                                    cg_file_name)
                else ret (path_join cgroup_path cg_file_name)) st
               = (Ok (v1_file_path cg_key cgroup_path cg_file_name), st)).
  { unfold v1_file_path.
    destruct (in_list cg_key ["weight"; "cpu_shares"]
              && PyStr.contains "libvirt" cgroup_path)%bool; reflexivity. }
  rewrite Hp, Hopen. cbn [orraise ret].
  set (v := PyStr.strip text).
  unfold v1_sched_value. cbn [in_list existsb].
  destruct (String.eqb v "-1") eqn:E1.
  - cbn. destruct (PyStr.contains "quota" cg_key); reflexivity.
  - rewrite E1. cbn [orb].
    destruct (PyStr.contains "quota" cg_key); cbn [andb]; [|reflexivity].
    destruct (String.eqb v "18446744073709551" || (String.eqb v "17592186044415" || false))%bool;
      reflexivity.
Qed.

(** A successful read opened its file. *)
Lemma cgroup1_sched_read_inv
  (h : Host) (cgroup_path cg_key cg_file_name : string)
  (std std' : info) (st st' : state) :
  cgroup1_sched_read h cgroup_path cg_key cg_file_name std st = (Ok std', st') ->
  exists text,
    open_read h (v1_file_path cg_key cgroup_path cg_file_name) = Some text
    /\ std' = kset (Some cg_key)
                (VStr (v1_sched_value cg_key (PyStr.strip text))) std.
Proof.
  intro H.
  destruct (open_read h (v1_file_path cg_key cgroup_path cg_file_name))
    as [text|] eqn:Hopen.
  - rewrite (cgroup1_sched_read_open _ _ _ _ _ _ _ Hopen) in H.
    inversion H. exists text. split; reflexivity.
  - exfalso. revert H.
    unfold cgroup1_sched_read, bind, __get_cg_file_path.
    fold (v1_file_path cg_key cgroup_path cg_file_name).
    unfold v1_file_path in *.
    destruct (in_list cg_key ["weight"; "cpu_shares"]
              && PyStr.contains "libvirt" cgroup_path)%bool;
      cbn [ret]; rewrite Hopen; discriminate.
Qed.

Lemma cgroup1_schedinfo_entries (h : Host) (vm_pid : string)
  (st st' : state) (r : info) :
  __get_standardized_cgroup1_info h vm_pid (Some "schedinfo") st = (Ok r, st') ->
  Forall (v1_sched_entry_of h) r.
Proof.
  unfold __get_standardized_cgroup1_info.
  cbn [cmd_is String.eqb Ascii.eqb Bool.eqb]. intro H.
  apply bind_Ok_inv in H as (p & st1 & _ & H).
  apply bind_Ok_inv in H as (cgroup_path & st2 & _ & H).
  apply bind_Ok_inv in H as (vcpu_dirs & st3 & _ & H).
  apply bind_Ok_inv in H as (iothread_dirs & st4 & _ & H).
  revert H. apply for_each_inv with (P := Forall (v1_sched_entry_of h));
    [|constructor].
  intros [cg_key cg_file_name] s0 st0 s0' st0' _ Hs Hentry.
  unfold cgroup1_sched_entry in Hentry.
  apply bind_Ok_inv in Hentry as ([name|] & st5 & _ & Hentry).
  - apply cgroup1_sched_read_inv in Hentry as (text & Hopen & ->).
    apply Forall_dict_set_kv; [exact key_eqb_spec | | exact Hs].
    exists cg_key, (v1_file_path cg_key cgroup_path name), text.
    repeat split. exact Hopen.
  - apply ret_Ok_inv in Hentry as [<- _]. exact Hs.
Qed.

(** C5 (as amended): on cgroup v1 the scheduling reader stores, for a file
    it can open, the trimmed content canonicalized so: [-1] becomes [max]
    for every key (quota or not); the two large sentinels become [max] for
    quota keys only; every other value, and the large sentinels under a
    non-quota key, are stored unchanged.  Every entry of a map that the
    reader returns is the canonical value of a file it opened. *)
Theorem cgroup1_sched_read_value
  (h : Host) (cgroup_path cg_key cg_file_name text : string)
  (std : info) (st : state) :
  open_read h (v1_file_path cg_key cgroup_path cg_file_name) = Some text ->
  let v := PyStr.strip text in
  cgroup1_sched_read h cgroup_path cg_key cg_file_name std st
  = (Ok (kset (Some cg_key) (VStr (v1_sched_value cg_key v)) std), st)
  /\ (v = "-1" -> v1_sched_value cg_key v = "max")
  /\ (PyStr.contains "quota" cg_key = true ->
      in_list v ["18446744073709551"; "17592186044415"] = true ->
      v1_sched_value cg_key v = "max")
  /\ (PyStr.contains "quota" cg_key = false -> v <> "-1" ->
      v1_sched_value cg_key v = v)
  /\ (in_list v ["-1"; "18446744073709551"; "17592186044415"] = false ->
      v1_sched_value cg_key v = v)
  /\ (forall vm_pid st0 st1 r key val,
         __get_standardized_cgroup1_info h vm_pid (Some "schedinfo") st0
         = (Ok r, st1) ->
         kget (Some key) r = Some val ->
         exists path content,
           open_read h path = Some content
           /\ val = VStr (v1_sched_value key (PyStr.strip content))).
Proof.
  intros Hopen v. repeat split.
  - apply cgroup1_sched_read_open, Hopen.
  - intros ->. reflexivity.
  - intros Hq Hs. unfold v1_sched_value. rewrite Hq, Hs.
    destruct (String.eqb v "-1"); reflexivity.
  - intros Hq Hn. unfold v1_sched_value. rewrite Hq.
    apply String.eqb_neq in Hn. rewrite Hn. reflexivity.
  - intros Hs. unfold v1_sched_value. cbn [in_list existsb] in *.
    apply orb_false_elim in Hs as [H1 Hs]. rewrite H1, Hs.
    rewrite andb_false_r. reflexivity.
  - intros vm_pid st0 st1 r key val Hrun Hget.
    apply cgroup1_schedinfo_entries in Hrun.
    pose proof (Forall_dict_get_kv _ _ _ key_eqb_spec _ _ _ _ Hrun Hget)
      as (k' & path & content & Hk & Ho & Hv).
    cbn [fst snd] in Hk, Hv. inversion Hk; subst k'.
    exists path, content. split; assumption.
Qed.

Example cgroup1_schedinfo_run :
  fst (__get_standardized_cgroup1_info host_v1_sched "4242" (Some "schedinfo")
         initial_state)
  = Ok [ (Some "cpu_shares", VStr "1024");
         (Some "vcpu_period", VStr "100000");
         (Some "vcpu_quota", VStr "max");
         (Some "emulator_period", VStr "18446744073709551");
         (Some "emulator_quota", VStr "50000");
         (Some "global_period", VStr "max");
         (Some "global_quota", VStr "max") ].
Proof. vm_compute. reflexivity. Qed.

Lemma cgroup1_sched_read_value_witness :
  cgroup1_sched_read host_v1_sched "/cg/cpu/vm.scope/libvirt/emulator/.."
    "global_quota" "cpu.cfs_quota_us" [] initial_state
  = (Ok [(Some "global_quota", VStr "max")], initial_state).
Proof.
  exact (proj1 (@cgroup1_sched_read_value host_v1_sched
                  "/cg/cpu/vm.scope/libvirt/emulator/.." "global_quota"
                  "cpu.cfs_quota_us" ("-1" ++ nl) [] initial_state eq_refl)).
Defined.

(** C5, counterexample: [global_period] is not a quota key and its file
    reads [-1]; the value does not pass through, it becomes [max]. *)
Lemma cgroup1_period_minus_one_becomes_max :
  PyStr.contains "quota" "global_period" = false
  /\ open_read host_v1_sched
       (v1_file_path "global_period" "/cg/cpu/vm.scope/libvirt/emulator/.."
          "cpu.cfs_period_us") = Some ("-1" ++ nl)
  /\ spec_v1_sched_value "global_period" "-1" = "-1"
  /\ (exists r,
         fst (__get_standardized_cgroup1_info host_v1_sched "4242"
                (Some "schedinfo") initial_state) = Ok r
         /\ kget (Some "global_period") r = Some (VStr "max")
         /\ kget (Some "global_period") r
            <> Some (VStr (spec_v1_sched_value "global_period" "-1"))).
Proof.
  repeat split; try reflexivity.
  eexists. split; [vm_compute; reflexivity|].
  split; [reflexivity | discriminate].
Qed.

(** ** Scheduling values on cgroup v2 *)

Lemma cgroup2_sched_read_open
  (h : Host) (cgroup_path cg_key cg_file_name text : string)
  (std : info) (st : state) :
  open_read h (v2_file_path cg_key cgroup_path cg_file_name) = Some text ->
  cgroup2_sched_read h (Some cgroup_path) cg_key cg_file_name std st
  = match nth_error (PyStr.split_ws (PyStr.strip text)) (v2_list_index cg_key) with
    | Some word => (Ok (kset (Some cg_key) (VStr word) std), st)
    | None => (Raise IndexError, st)
    end.
Proof.
  intro Hopen. unfold cgroup2_sched_read, bind.
  assert (Hd : (if String.eqb cg_key "cpu_shares"
                then ret (Some (PyStr.before_first "libvirt" cgroup_path))
                else ret (Some cgroup_path)) st
               = (Ok (Some (if String.eqb cg_key "cpu_shares"
                            then PyStr.before_first "libvirt" cgroup_path
                            else cgroup_path)), st)).
  { destruct (String.eqb cg_key "cpu_shares"); reflexivity. }
  rewrite Hd. cbn [join_opt ret].
  fold (v2_file_path cg_key cgroup_path cg_file_name).
  rewrite Hopen. cbn [orraise ret]. fold (v2_list_index cg_key).
  destruct (nth_error (PyStr.split_ws (PyStr.strip text)) (v2_list_index cg_key));
    reflexivity.
Qed.

(** A successful v2 read stored a word of a file it opened. *)
Lemma cgroup2_sched_read_inv
  (h : Host) (cgroup_path : option string) (cg_key cg_file_name : string)
  (std std' : info) (st st' : state) :
  cgroup2_sched_read h cgroup_path cg_key cg_file_name std st = (Ok std', st') ->
  exists path text word,
    open_read h path = Some text
    /\ nth_error (PyStr.split_ws (PyStr.strip text)) (v2_list_index cg_key)
       = Some word
    /\ std' = kset (Some cg_key) (VStr word) std.
Proof.
  unfold cgroup2_sched_read. intro H.
  apply bind_Ok_inv in H as (cg_dir & st1 & _ & H).
  apply bind_Ok_inv in H as (path & st2 & _ & H).
  apply bind_Ok_inv in H as (text & st3 & Hopen & H).
  apply orraise_Ok_inv in Hopen as [Hopen _].
  apply bind_Ok_inv in H as (word & st4 & Hword & H).
  apply orraise_Ok_inv in Hword as [Hword _].
  apply ret_Ok_inv in H as [<- _].
  exists path, text, word. repeat split; assumption.
Qed.

Lemma cgroup2_schedinfo_entries (h : Host) (vm_pid : string)
  (st st' : state) (r : info) :
  __get_standardized_cgroup2_info h vm_pid (Some "schedinfo") st = (Ok r, st') ->
  Forall (v2_sched_entry_of h) r.
Proof.
  unfold __get_standardized_cgroup2_info. intro H.
  apply bind_Ok_inv in H as (cgroup_path & st1 & _ & H).
  cbn [cmd_is String.eqb Ascii.eqb Bool.eqb] in H.
  apply bind_Ok_inv in H as (vcpu_dirs & st3 & _ & H).
  apply bind_Ok_inv in H as (iothread_dirs & st4 & _ & H).
  revert H. apply for_each_inv with (P := Forall (v2_sched_entry_of h));
    [|constructor].
  intros [cg_key cg_file_name] s0 st0 s0' st0' _ Hs Hentry.
  unfold cgroup2_sched_entry in Hentry.
  apply bind_Ok_inv in Hentry as ([name|] & st5 & _ & Hentry).
  - apply cgroup2_sched_read_inv in Hentry as (path & text & word & Ho & Hw & ->).
    apply Forall_dict_set_kv; [exact key_eqb_spec | | exact Hs].
    exists cg_key, path, text, word. repeat split; assumption.
  - apply ret_Ok_inv in Hentry as [<- _]. exact Hs.
Qed.

(** C4 (as amended): on cgroup v2, for a file holding the two words
    [quota period], a key whose name contains [period] receives the word at
    index 1 and every other key the word at index 0, each stored as read:
    the v2 reader rewrites no sentinel, so a quota word [-1] stays [-1].
    Every entry of a map that the reader returns is such a word of a file
    it opened.  In particular [max 100000] gives global_period 100000 and
    global_quota max. *)
Theorem cgroup2_sched_read_tokens
  (h : Host) (cgroup_path cg_key cg_file_name text quota period : string)
  (std : info) (st : state) :
  open_read h (v2_file_path cg_key cgroup_path cg_file_name) = Some text ->
  PyStr.split_ws (PyStr.strip text) = [quota; period] ->
  cgroup2_sched_read h (Some cgroup_path) cg_key cg_file_name std st
  = (Ok (kset (Some cg_key)
           (VStr (if PyStr.contains "period" cg_key then period else quota))
           std), st)
  /\ (forall vm_pid st0 st1 r key val,
         __get_standardized_cgroup2_info h vm_pid (Some "schedinfo") st0
         = (Ok r, st1) ->
         kget (Some key) r = Some val ->
         exists path content word,
           open_read h path = Some content
           /\ nth_error (PyStr.split_ws (PyStr.strip content))
                (if PyStr.contains "period" key then 1 else 0) = Some word
           /\ val = VStr word)
  /\ fst (__get_standardized_cgroup2_info (host_v2_sched ("max 100000" ++ nl))
            "4242" (Some "schedinfo") initial_state)
     = Ok [ (Some "cpu_shares", VStr "100");
            (Some "vcpu_period", VStr "100000");
            (Some "vcpu_quota", VStr "20000");
            (Some "emulator_period", VStr "50000");
            (Some "emulator_quota", VStr "max");
            (Some "global_period", VStr "100000");
            (Some "global_quota", VStr "max") ].
Proof.
  intros Hopen Htok. split; [|split; [|vm_compute; reflexivity]].
  - rewrite (cgroup2_sched_read_open _ _ _ _ _ _ _ Hopen), Htok.
    unfold v2_list_index.
    destruct (PyStr.contains "period" cg_key); reflexivity.
  - intros vm_pid st0 st1 r key val Hrun Hget.
    apply cgroup2_schedinfo_entries in Hrun.
    pose proof (Forall_dict_get_kv _ _ _ key_eqb_spec _ _ _ _ Hrun Hget)
      as (k' & path & content & word & Hk & Ho & Hw & Hv).
    cbn [fst snd] in Hk, Hv. inversion Hk; subst k'.
    exists path, content, word. repeat split; assumption.
Qed.

Lemma cgroup2_sched_read_tokens_witness :
  cgroup2_sched_read (host_v2_sched ("max 100000" ++ nl))
    (Some "/sys/fs/cgroup/vm.scope/libvirt/emulator/..")
    "global_period" "cpu.max" [] initial_state
  = (Ok [(Some "global_period", VStr "100000")], initial_state).
Proof.
  exact (proj1 (@cgroup2_sched_read_tokens (host_v2_sched ("max 100000" ++ nl))
                  "/sys/fs/cgroup/vm.scope/libvirt/emulator/.."
                  "global_period" "cpu.max" ("max 100000" ++ nl)
                  "max" "100000" [] initial_state eq_refl eq_refl)).
Defined.

(** C4, counterexample: with [-1 100000] in [cpu.max] the quota key keeps
    the numeric sentinel [-1]; it is not mapped to [max]. *)
Lemma cgroup2_quota_minus_one_kept :
  exists r,
    fst (__get_standardized_cgroup2_info (host_v2_sched ("-1 100000" ++ nl))
           "4242" (Some "schedinfo") initial_state) = Ok r
    /\ kget (Some "global_period") r = Some (VStr "100000")
    /\ kget (Some "global_quota") r = Some (VStr "-1")
    /\ kget (Some "global_quota") r <> Some (VStr "max").
Proof.
  eexists. split; [vm_compute; reflexivity|].
  repeat split; discriminate.
Qed.

(** ** The schedinfo report: quota values that are not integers *)

Lemma prefix_lower (p s : string) :
  prefix p s = true -> prefix (PyStr.lower p) (PyStr.lower s) = true.
Proof.
  revert s. induction p as [|a p IH]; intros s H.
  - destruct s; reflexivity.
  - destruct s as [|b s]; [discriminate|].
    cbn [prefix] in H. cbn [PyStr.lower prefix].
    destruct (ascii_dec a b) as [->|]; [|discriminate].
    destruct (ascii_dec (PyStr.lower_c b) (PyStr.lower_c b)); [|congruence].
    apply IH, H.
Qed.

Lemma contains_lower (p s : string) :
  PyStr.contains p s = true ->
  PyStr.contains (PyStr.lower p) (PyStr.lower s) = true.
Proof.
  induction s as [|b s IH]; intro H.
  - cbn [PyStr.contains] in H.
    destruct (prefix p "") eqn:E; [|discriminate].
    apply prefix_lower in E.
    cbn [PyStr.lower PyStr.contains] in *. rewrite E. reflexivity.
  - cbn [PyStr.contains] in H.
    destruct (prefix p (String b s)) eqn:E.
    + apply prefix_lower in E.
      cbn [PyStr.lower PyStr.contains] in *. rewrite E. reflexivity.
    + cbn [PyStr.lower PyStr.contains].
      destruct (prefix (PyStr.lower p) (String (PyStr.lower_c b) (PyStr.lower s)));
        [reflexivity | apply IH, H].
Qed.

Lemma quota_item_not_scheduler (item : string) :
  PyStr.contains "quota" item = true ->
  in_list (PyStr.lower item) ["scheduler"] = false.
Proof.
  intro H. apply contains_lower in H.
  cbn [in_list existsb]. rewrite orb_false_r.
  apply String.eqb_neq. intro E. rewrite E in H. discriminate H.
Qed.

(** One item of the schedinfo report either is handled or raises
    ValueError; the state is not touched. *)
Lemma virsh_sched_item_outcome (item : string * string) (std : info) (st : state) :
  (exists std', virsh_sched_item item std st = (Ok std', st))
  \/ virsh_sched_item item std st = (Raise ValueError, st).
Proof.
  destruct item as [k v]. unfold virsh_sched_item.
  destruct (in_list (PyStr.lower k) ["scheduler"]); [left; eexists; reflexivity|].
  unfold bind.
  destruct (PyStr.contains "quota" k).
  - destruct (in_list v ["18446744073709551"; "17592186044415"]).
    + left; eexists; reflexivity.
    + destruct (PyStr.int v) as [n|]; cbn.
      * destruct (Z.ltb n 0); left; eexists; reflexivity.
      * right; reflexivity.
  - left; eexists; reflexivity.
Qed.

Lemma virsh_sched_item_raises (k v : string) (std : info) (st : state) :
  PyStr.contains "quota" k = true ->
  in_list v ["18446744073709551"; "17592186044415"] = false ->
  PyStr.int v = None ->
  virsh_sched_item (k, v) std st = (Raise ValueError, st).
Proof.
  intros Hq Hs Hi. unfold virsh_sched_item, bind.
  rewrite (quota_item_not_scheduler _ Hq), Hq, Hs, Hi. reflexivity.
Qed.

Lemma virsh_sched_loop_raises (k v : string) (l : list (string * string)) :
  In (k, v) l ->
  PyStr.contains "quota" k = true ->
  in_list v ["18446744073709551"; "17592186044415"] = false ->
  PyStr.int v = None ->
  forall std st,
    for_each virsh_sched_item l std st = (Raise ValueError, st).
Proof.
  intros Hin Hq Hs Hi.
  induction l as [|it l IH]; [destruct Hin|]. intros std st.
  cbn [for_each]. unfold bind.
  destruct (virsh_sched_item_outcome it std st) as [[std' E]|E]; rewrite E.
  - destruct Hin as [->|Hin].
    + rewrite (virsh_sched_item_raises _ _ std st Hq Hs Hi) in E. discriminate.
    + apply IH, Hin.
  - reflexivity.
Qed.

(** C10: when the schedinfo report has a field whose name contains [quota]
    and whose value is neither of the two sentinel strings nor text that
    [int] accepts, the report parser raises ValueError and returns no map,
    whether it is given the field map or runs virsh itself. *)
Theorem schedinfo_quota_not_int_raises
  (h : Host) (virsh_dict : dict string string) (k v : string) (st : state) :
  In (k, v) virsh_dict ->
  PyStr.contains "quota" k = true ->
  in_list v ["18446744073709551"; "17592186044415"] = false ->
  PyStr.int v = None ->
  get_standardized_virsh_info h (Some "schedinfo") (Some virsh_dict) st
  = (Raise ValueError, st)
  /\ (forall vm_name,
         convert_virsh_output_to_dict (virsh h "schedinfo" vm_name) = virsh_dict ->
         get_standardized_virsh_output_by_name h vm_name (Some "schedinfo") st
         = (Raise ValueError, st)).
Proof.
  intros Hin Hq Hs Hi.
  assert (Hmain : get_standardized_virsh_info h (Some "schedinfo")
                    (Some virsh_dict) st = (Raise ValueError, st)).
  { unfold get_standardized_virsh_info.
    cbn [cmd_is String.eqb Ascii.eqb Bool.eqb].
    unfold bind at 1. cbn [items orraise ret].
    unfold bind. rewrite (virsh_sched_loop_raises _ _ _ Hin Hq Hs Hi).
    reflexivity. }
  split; [exact Hmain|].
  intros vm_name Hconv.
  unfold get_standardized_virsh_output_by_name, get_virsh_output_dict.
  cbn [in_list existsb String.eqb Ascii.eqb Bool.eqb orb].
  unfold bind at 1. cbn [ret]. rewrite Hconv. exact Hmain.
Qed.

Lemma schedinfo_quota_not_int_raises_witness :
  get_standardized_virsh_info host_v1_bare (Some "schedinfo")
    (Some (convert_virsh_output_to_dict schedinfo_report_max)) initial_state
  = (Raise ValueError, initial_state).
Proof.
  refine (proj1 (schedinfo_quota_not_int_raises host_v1_bare
                   (convert_virsh_output_to_dict schedinfo_report_max)
                   "vcpu_quota" "max" initial_state _ eq_refl eq_refl eq_refl)).
  vm_compute. right; right; right; left. reflexivity.
Defined.

(** ** Digits, [int] and [str] *)

Lemma isdecimal_c_facts (c : ascii) :
  PyStr.isdecimal_c c = true ->
  PyStr.isdigit_c c = true
  /\ PyStr.isspace_ascii c = false
  /\ PyStr.int_blank c = c
  /\ Ascii.eqb c "_" = false
  /\ (PyStr.digit_val c <=? 9)%N = true.
Proof.
  destruct c as [[] [] [] [] [] [] [] []]; cbv; intro H;
    try discriminate H; repeat split; reflexivity.
Qed.

Lemma all_decimal_isdigit (s : string) :
  PyStr.isdecimal s = true -> PyStr.isdigit s = true.
Proof.
  destruct s as [|c s]; [discriminate|].
  unfold PyStr.isdecimal, PyStr.isdigit. generalize (String c s). clear.
  intro s. induction s as [|a s IH]; cbn [PyStr.all_chars]; [reflexivity|].
  intro H. apply andb_true_iff in H as [Ha Hs].
  rewrite (proj1 (isdecimal_c_facts a Ha)), (IH Hs). reflexivity.
Qed.

Lemma count_all_decimal (s : string) :
  PyStr.all_chars PyStr.isdecimal_c s = true ->
  PyStr.count_chars PyStr.isdecimal_c s = String.length s.
Proof.
  induction s as [|c s IH]; cbn [PyStr.all_chars PyStr.count_chars String.length];
    [reflexivity|].
  intro H. apply andb_true_iff in H as [Hc Hs]. rewrite Hc, (IH Hs). reflexivity.
Qed.

Lemma int_blank_decimal (s : string) :
  PyStr.all_chars PyStr.isdecimal_c s = true ->
  PyStr.map_chars PyStr.int_blank s = s.
Proof.
  induction s as [|c s IH]; cbn [PyStr.all_chars PyStr.map_chars]; [reflexivity|].
  intro H. apply andb_true_iff in H as [Hc Hs].
  destruct (isdecimal_c_facts c Hc) as (_ & _ & Hb & _).
  rewrite Hb, (IH Hs). reflexivity.
Qed.

Lemma rstrip_decimal (s : string) :
  PyStr.all_chars PyStr.isdecimal_c s = true ->
  PyStr.rstrip_by PyStr.isspace_ascii s = s.
Proof.
  induction s as [|c s IH]; cbn [PyStr.all_chars PyStr.rstrip_by]; intro H.
  - reflexivity.
  - apply andb_true_iff in H as [Hc Hs]. rewrite (IH Hs).
    destruct s; [|reflexivity].
    destruct (isdecimal_c_facts c Hc) as (_ & Hsp & _).
    rewrite Hsp. reflexivity.
Qed.

Lemma strip_ascii_decimal (s : string) :
  PyStr.all_chars PyStr.isdecimal_c s = true ->
  PyStr.strip_by PyStr.isspace_ascii s = s.
Proof.
  intro H. unfold PyStr.strip_by.
  destruct s as [|c s]; [reflexivity|].
  pose proof H as H'. cbn [PyStr.all_chars] in H'.
  apply andb_true_iff in H' as [Hc _].
  destruct (isdecimal_c_facts c Hc) as (_ & Hsp & _).
  cbn [PyStr.lstrip_by]. rewrite Hsp. apply rstrip_decimal, H.
Qed.

Lemma digits_val_total (s : string) :
  PyStr.all_chars PyStr.isdecimal_c s = true ->
  forall acc, exists n, PyStr.digits_val s acc false = Some n.
Proof.
  induction s as [|c s IH]; cbn [PyStr.all_chars PyStr.digits_val]; intros H acc.
  - eexists; reflexivity.
  - apply andb_true_iff in H as [Hc Hs]. rewrite Hc. apply IH, Hs.
Qed.

(** The number that [digits_val] reads lies between the accumulator
    followed by zeros and the accumulator followed by nines. *)
Lemma digits_val_bounds (s : string) :
  forall (acc : N) (f : bool) (r : N),
    PyStr.digits_val s acc f = Some r ->
    (acc * 10 ^ N.of_nat (PyStr.count_chars PyStr.isdecimal_c s) <= r
     /\ r < (acc + 1) * 10 ^ N.of_nat (PyStr.count_chars PyStr.isdecimal_c s))%N.
Proof.
  induction s as [|c s IH]; intros acc f r H.
  - cbn [PyStr.digits_val] in H. destruct f; [discriminate|].
    inversion H; subst r. cbn. lia.
  - cbn [PyStr.digits_val PyStr.count_chars] in *.
    destruct (PyStr.isdecimal_c c) eqn:Ec.
    + destruct (isdecimal_c_facts c Ec) as (_ & _ & _ & _ & Hd).
      apply N.leb_le in Hd.
      apply IH in H. rewrite Nat2N.inj_succ, N.pow_succ_r'.
      set (X := (10 ^ N.of_nat (PyStr.count_chars PyStr.isdecimal_c s))%N) in *.
      nia.
    + destruct (Ascii.eqb c "_"); [|discriminate].
      destruct f; [discriminate|]. exact (IH _ _ _ H).
Qed.

Lemma unsigned_val_bound (s : string) (r : N) :
  PyStr.unsigned_val s = Some r ->
  (r < 10 ^ N.of_nat PyStr.int_max_str_digits)%N.
Proof.
  destruct s as [|c s]; [discriminate|]. cbn [PyStr.unsigned_val].
  destruct (PyStr.isdecimal_c c) eqn:Ec; [|discriminate].
  destruct (_ <=? _)%nat eqn:El; [|discriminate]. intro H.
  apply Nat.leb_le in El. cbn [PyStr.count_chars] in El. rewrite Ec in El.
  destruct (isdecimal_c_facts c Ec) as (_ & _ & _ & _ & Hd).
  apply N.leb_le in Hd.
  apply digits_val_bounds in H as [_ H].
  apply N.lt_le_trans
    with (m := (10 ^ N.of_nat (S (PyStr.count_chars PyStr.isdecimal_c s)))%N).
  - rewrite Nat2N.inj_succ, N.pow_succ_r'.
    set (X := (10 ^ N.of_nat (PyStr.count_chars PyStr.isdecimal_c s))%N) in *.
    nia.
  - apply N.pow_le_mono_r; lia.
Qed.

(** The number that [int] reads has at most [int_max_str_digits] digits. *)
Lemma int_bound (s : string) (z : Z) :
  PyStr.int s = Some z ->
  (Z.abs z < 10 ^ Z.of_nat PyStr.int_max_str_digits)%Z.
Proof.
  assert (Hu : forall t r, PyStr.unsigned_val t = Some r ->
                 (Z.of_N r < 10 ^ Z.of_nat PyStr.int_max_str_digits)%Z).
  { intros t r H. apply unsigned_val_bound in H.
    apply N2Z.inj_lt in H. rewrite N2Z.inj_pow, nat_N_Z in H. exact H. }
  unfold PyStr.int.
  destruct (PyStr.strip_by PyStr.isspace_ascii (PyStr.map_chars PyStr.int_blank s))
    as [|c t].
  - discriminate.
  - assert (Hgen : forall u (g : N -> Z),
               (forall n, Z.abs (g n) = Z.of_N n) ->
               option_map g (PyStr.unsigned_val u) = Some z ->
               (Z.abs z < 10 ^ Z.of_nat PyStr.int_max_str_digits)%Z).
    { intros u g Hg H. destruct (PyStr.unsigned_val u) as [r|] eqn:E;
        [|discriminate]. inversion H; subst z. rewrite Hg. exact (Hu _ _ E). }
    destruct c as [[] [] [] [] [] [] [] []];
      first [ apply Hgen; intro n; lia ].
Qed.

Lemma string_of_uint_decimal (d : Decimal.uint) :
  PyStr.all_chars PyStr.isdecimal_c (NilEmpty.string_of_uint d) = true.
Proof. induction d; cbn; auto. Qed.

(** The decimal text of a number that is not negative is a digit string. *)
Lemma str_text_nonneg_decimal (z : Z) :
  (0 <= z)%Z -> PyStr.isdecimal (PyStr.str_text z) = true.
Proof.
  intro H. unfold PyStr.str_text.
  assert (Hu : forall u, PyStr.isdecimal (NilZero.string_of_uint u) = true).
  { intro u. pose proof (string_of_uint_decimal u) as Hd.
    destruct u; try reflexivity; exact Hd. }
  destruct z as [|p|p]; cbn [Z.to_int NilZero.string_of_int].
  - apply Hu.
  - apply Hu.
  - lia.
Qed.

Lemma digits_of_uint_acc (d : Decimal.uint) :
  forall acc : positive,
    PyStr.digits_val (NilEmpty.string_of_uint d) (Npos acc) false
    = Some (Npos (Pos.of_uint_acc d acc)).
Proof.
  induction d; intro acc; cbn [NilEmpty.string_of_uint Pos.of_uint_acc];
    try reflexivity;
    cbn [PyStr.digits_val];
    match goal with
    | |- context [PyStr.isdecimal_c ?c] =>
        change (PyStr.isdecimal_c c) with true; cbv iota
    end;
    match goal with
    | |- PyStr.digits_val _ ?a false = Some (Npos (Pos.of_uint_acc _ ?b)) =>
        replace a with (Npos b)
          by (match goal with
              | |- context [PyStr.digit_val ?c] =>
                  let v := eval vm_compute in (PyStr.digit_val c) in
                  change (PyStr.digit_val c) with v
              end; lia)
    end;
    apply IHd.
Qed.

Lemma digits_of_uint (d : Decimal.uint) :
  PyStr.digits_val (NilEmpty.string_of_uint d) 0 false = Some (Pos.of_uint d).
Proof.
  induction d; cbn [NilEmpty.string_of_uint Pos.of_uint];
    try reflexivity;
    cbn [PyStr.digits_val];
    match goal with
    | |- context [PyStr.isdecimal_c ?c] =>
        change (PyStr.isdecimal_c c) with true; cbv iota
    end;
    try exact IHd;
    match goal with
    | |- PyStr.digits_val _ ?a false = Some (Npos (Pos.of_uint_acc _ ?b)) =>
        change a with (Npos b)
    end;
    apply digits_of_uint_acc.
Qed.

(** The decimal text of a positive number does not start with a zero. *)
Lemma to_uint_head (p : positive) :
  match Pos.to_uint p with
  | Decimal.Nil | Decimal.D0 _ => False
  | _ => True
  end.
Proof.
  pose proof (DecimalPos.Unsigned.to_of (Pos.to_uint p)) as H.
  rewrite DecimalPos.Unsigned.of_to in H. cbn [N.to_uint] in H.
  pose proof (DecimalPos.Unsigned.to_uint_nonzero p) as Hz.
  pose proof (DecimalPos.Unsigned.to_uint_nonnil p) as Hn.
  destruct (Pos.to_uint p) as [|u| | | | | | | | |] eqn:E; try exact I.
  - apply Hn. reflexivity.
  - unfold Decimal.unorm in H. cbn [Decimal.nzhead] in H.
    destruct (Decimal.nzhead u) eqn:En.
    + apply Hz. exact H.
    + exact (DecimalFacts.nzhead_nonzero u _ (eq_trans En (eq_sym H))).
    + discriminate H.
    + discriminate H.
    + discriminate H.
    + discriminate H.
    + discriminate H.
    + discriminate H.
    + discriminate H.
    + discriminate H.
    + discriminate H.
Qed.

(** A number below [10 ^ k] has at most [k] digits. *)
Lemma str_text_length (z : Z) (k : nat) :
  (0 <= z < 10 ^ Z.of_nat k)%Z ->
  (String.length (PyStr.str_text z) <= Nat.max 1 k)%nat.
Proof.
  intros [Hz Hk].
  destruct z as [|p|p];
    [change (String.length (PyStr.str_text 0)) with 1%nat; lia| |lia].
  unfold PyStr.str_text. cbn [Z.to_int NilZero.string_of_int].
  pose proof (to_uint_head p) as Hh.
  pose proof (digits_of_uint (Pos.to_uint p)) as Hv.
  rewrite DecimalPos.Unsigned.of_to in Hv.
  pose proof (string_of_uint_decimal (Pos.to_uint p)) as Hd.
  assert (Ht : NilZero.string_of_uint (Pos.to_uint p)
               = NilEmpty.string_of_uint (Pos.to_uint p)).
  { destruct (Pos.to_uint p); [destruct Hh | reflexivity ..]. }
  rewrite Ht.
  destruct (NilEmpty.string_of_uint (Pos.to_uint p)) as [|c t] eqn:Et.
  { cbn. lia. }
  assert (Hc1 : (1 <= PyStr.digit_val c)%N).
  { destruct (Pos.to_uint p); try destruct Hh; cbn in Et; inversion Et;
      cbv; discriminate. }
  cbn [PyStr.all_chars] in Hd. apply andb_true_iff in Hd as [Hc Hd].
  cbn [PyStr.digits_val] in Hv. rewrite Hc in Hv.
  apply digits_val_bounds in Hv as [Hlo _].
  rewrite (count_all_decimal _ Hd) in Hlo.
  cbn [String.length].
  assert (Hlt : (10 ^ N.of_nat (String.length t) < 10 ^ N.of_nat k)%N).
  { apply N.le_lt_trans with (m := Npos p).
    - set (X := (10 ^ N.of_nat (String.length t))%N) in *. nia.
    - apply N2Z.inj_lt. rewrite N2Z.inj_pow, nat_N_Z. exact Hk. }
  apply N.pow_lt_mono_r_iff in Hlt; lia.
Qed.

(** [str] writes every number below ten to the power [int_max_str_digits]. *)
Lemma str_small (z : Z) :
  (Z.abs z < 10 ^ Z.of_nat PyStr.int_max_str_digits)%Z ->
  PyStr.str z = Some (PyStr.str_text z).
Proof.
  intro H. unfold PyStr.str.
  assert (Hl : (String.length (PyStr.str_text (Z.abs z))
                <= PyStr.int_max_str_digits)%nat).
  { pose proof (str_text_length (Z.abs z) PyStr.int_max_str_digits
                  (conj (Z.abs_nonneg z) H)) as Hl.
    unfold PyStr.int_max_str_digits in *. lia. }
  apply Nat.leb_le in Hl. rewrite Hl. reflexivity.
Qed.

(** What [str] returns is the decimal text. *)
Lemma str_Some (z : Z) (t : string) :
  PyStr.str z = Some t -> t = PyStr.str_text z.
Proof.
  unfold PyStr.str. destruct (_ <=? _)%nat; intro H; inversion H. reflexivity.
Qed.

(** On a string of at most [int_max_str_digits] decimal digits [int] needs
    no sign and no trimming. *)
Lemma int_of_decimal (s : string) :
  PyStr.isdecimal s = true ->
  (String.length s <= PyStr.int_max_str_digits)%nat ->
  exists n : N, PyStr.int s = Some (Z.of_N n)
                /\ (n < 10 ^ N.of_nat (String.length s))%N.
Proof.
  intros H Hl. destruct s as [|c s]; [discriminate|].
  unfold PyStr.isdecimal in H. unfold PyStr.int.
  rewrite (int_blank_decimal _ H), (strip_ascii_decimal _ H).
  pose proof H as H'. cbn [PyStr.all_chars] in H'.
  apply andb_true_iff in H' as [Hc Hs].
  destruct (digits_val_total s Hs (PyStr.digit_val c)) as [n Hn].
  assert (Hu : PyStr.unsigned_val (String c s) = Some n).
  { cbn [PyStr.unsigned_val]. rewrite Hc, (count_all_decimal _ H).
    apply Nat.leb_le in Hl. rewrite Hl. exact Hn. }
  exists n. split.
  - destruct c as [[] [] [] [] [] [] [] []];
      try discriminate Hc; rewrite Hu; reflexivity.
  - apply digits_val_bounds in Hn as [_ Hn].
    rewrite (count_all_decimal _ Hs) in Hn.
    destruct (isdecimal_c_facts c Hc) as (_ & _ & _ & _ & Hd).
    apply N.leb_le in Hd.
    cbn [String.length]. rewrite Nat2N.inj_succ, N.pow_succ_r'.
    set (X := (10 ^ N.of_nat (String.length s))%N) in *. nia.
Qed.

Lemma lt_pow2_lor (a b n : N) :
  (a < 2 ^ n -> b < 2 ^ n -> N.lor a b < 2 ^ n)%N.
Proof.
  intros Ha Hb.
  destruct (N.eq_dec a 0) as [->|Ea]; [rewrite N.lor_0_l; exact Hb|].
  destruct (N.eq_dec b 0) as [->|Eb]; [rewrite N.lor_0_r; exact Ha|].
  assert (Hpos : (0 < N.lor a b)%N).
  { destruct (N.eq_dec (N.lor a b) 0) as [E|E]; [|lia].
    apply N.lor_eq_0_iff in E. lia. }
  apply (proj2 (N.log2_lt_pow2 _ n Hpos)).
  rewrite N.log2_lor. apply N.max_lub_lt.
  - apply (proj1 (N.log2_lt_pow2 a n ltac:(lia)) Ha).
  - apply (proj1 (N.log2_lt_pow2 b n ltac:(lia)) Hb).
Qed.

Lemma land_lt_pow2 (a m n : N) : (m < 2 ^ n -> N.land a m < 2 ^ n)%N.
Proof.
  intro Hm.
  destruct (N.eq_dec (N.land a m) 0) as [E|E].
  - rewrite E. apply N.neq_0_lt_0, N.pow_nonzero. discriminate.
  - assert (Hm0 : (0 < m)%N).
    { destruct m; [|lia]. rewrite N.land_0_r in E. congruence. }
    assert (Hpos : (0 < N.land a m)%N) by lia.
    apply (proj2 (N.log2_lt_pow2 _ n Hpos)).
    apply N.le_lt_trans with (m := N.log2 m).
    + pose proof (N.log2_land a m) as H. lia.
    + apply (proj1 (N.log2_lt_pow2 m n Hm0) Hm).
Qed.

(** The two parts of a device number are below [2 ^ 32], so that [str]
    writes them. *)
Lemma str_major_minor (st_rdev : N) :
  PyStr.str (Z.of_N (os_major st_rdev))
  = Some (PyStr.str_text (Z.of_N (os_major st_rdev)))
  /\ PyStr.str (Z.of_N (os_minor st_rdev))
     = Some (PyStr.str_text (Z.of_N (os_minor st_rdev))).
Proof.
  assert (Hs : forall x : N, (x < 2 ^ 32)%N ->
                 PyStr.str (Z.of_N x) = Some (PyStr.str_text (Z.of_N x))).
  { intros x Hx. apply str_small. rewrite Z.abs_eq by lia.
    apply Z.lt_le_trans with (m := (2 ^ 32)%Z).
    - apply N2Z.inj_lt in Hx. rewrite N2Z.inj_pow in Hx. exact Hx.
    - vm_compute. discriminate. }
  split; apply Hs; unfold os_major, os_minor;
    apply lt_pow2_lor; apply land_lt_pow2; vm_compute; reflexivity.
Qed.

Lemma get_dev_major_minor_spec (h : Host) (dev_path : string) (st : state) :
  __get_dev_major_minor h dev_path st
  = if negb (path_exists h dev_path)
    then (Ok None, log_add st DEBUG ("device '" ++ dev_path ++ "' not existing"))
    else match stat_rdev h dev_path with
         | Some st_rdev => (Ok (Some (major_minor st_rdev)), st)
         | None => (Raise OSError, st)
         end.
Proof.
  unfold __get_dev_major_minor.
  destruct (negb (path_exists h dev_path)); [reflexivity|].
  unfold bind at 1. destruct (stat_rdev h dev_path) as [r|]; [|reflexivity].
  cbn [orraise ret]. destruct (str_major_minor r) as [H1 H2].
  unfold bind. rewrite H1. cbn [orraise ret]. rewrite H2. reflexivity.
Qed.

(** ** The memtune report *)

Example int_limits :
  PyStr.int (nines 4300) <> None
  /\ PyStr.int (nines 4301) = None
  /\ PyStr.isdigit superscript_two = true
  /\ PyStr.int superscript_two = None
  /\ PyStr.int (String (ascii_of_N 28) "5") = None
  /\ PyStr.int (String (ascii_of_N 160) "5") = Some 5%Z
  /\ PyStr.str (10 ^ 4300 - 1) <> None
  /\ PyStr.str (10 ^ 4300) = None.
Proof. vm_compute. repeat split; discriminate. Qed.

Lemma last_value_cons (p k v : string) (l : list (string * string))
  (init : option string) :
  last_value p ((k, v) :: l) init
  = last_value p l (if String.eqb p k then Some v else init).
Proof. reflexivity. Qed.

Lemma last_value_init (p : string) (l : list (string * string))
  (init : option string) :
  last_value p l init
  = match last_value p l None with Some v => Some v | None => init end.
Proof.
  revert init. induction l as [|[k v] l IH]; intro init.
  - reflexivity.
  - rewrite !last_value_cons, IH.
    rewrite (IH (if String.eqb p k then Some v else None)).
    destruct (last_value p l None); [reflexivity|].
    destruct (String.eqb p k); reflexivity.
Qed.

Lemma last_value_in (p v : string) (l : list (string * string)) :
  last_value p l None = Some v -> In (p, v) l.
Proof.
  induction l as [|[k x] l IH]; [discriminate|].
  rewrite last_value_cons, last_value_init.
  destruct (last_value p l None) as [y|].
  - intro H. inversion H; subst y. right. apply IH. reflexivity.
  - destruct (String.eqb p k) eqn:E; [|discriminate].
    apply String.eqb_eq in E. subst k. intro H. inversion H. left. reflexivity.
Qed.

Lemma last_value_nodup (p v : string) (l : list (string * string)) :
  NoDup (dict_keys l) -> In (p, v) l -> last_value p l None = Some v.
Proof.
  induction l as [|[k x] l IH]; [intros _ []|].
  cbn [dict_keys map fst]. intros Hnd Hin. inversion Hnd as [|? ? Hk Hl]; subst.
  rewrite last_value_cons, last_value_init.
  destruct Hin as [E|Hin].
  - inversion E; subst k x.
    destruct (last_value p l None) as [y|] eqn:Ey.
    + exfalso. apply Hk. apply last_value_in in Ey.
      apply (in_map fst) in Ey. exact Ey.
    + rewrite String.eqb_refl. reflexivity.
  - rewrite (IH Hl Hin). reflexivity.
Qed.

(** One field of the memtune report. *)
Lemma virsh_mem_item_spec (k v : string) (std : info) (st : state) :
  virsh_mem_item (k, v) std st
  = match virsh_mem_value v with
    | Some s => (Ok (kset (Some k) (VStr s) std), virsh_mem_log k v st)
    | None => (Raise ValueError, st)
    end.
Proof.
  unfold virsh_mem_item, virsh_mem_value, virsh_mem_log.
  destruct (in_list v ["unlimited"]); [reflexivity|]. cbn [orb].
  destruct (PyStr.isdigit v).
  - unfold bind. destruct (PyStr.int v) as [n|]; [|reflexivity].
    cbn [orraise ret]. destruct (PyStr.str (n * 1024)); reflexivity.
  - reflexivity.
Qed.

(** The fields of the memtune report, one after the other: the loop raises
    ValueError at the first value without a canonical form, and otherwise
    leaves under every field name the canonical form of the last value of
    that field. *)
Lemma virsh_mem_loop_spec (l : list (string * string)) :
  forall (std : info) (st : state),
    match for_each virsh_mem_item l std st with
    | (Ok std', _) =>
        Forall (fun kv => virsh_mem_value (snd kv) <> None) l
        /\ kget None std' = kget None std
        /\ forall k,
             kget (Some k) std'
             = match last_value k l None with
               | Some v => option_map VStr (virsh_mem_value v)
               | None => kget (Some k) std
               end
    | (Raise e, _) =>
        e = ValueError
        /\ Exists (fun kv => virsh_mem_value (snd kv) = None) l
    end.
Proof.
  induction l as [|[k v] l IH]; intros std st.
  - cbn. repeat split. constructor.
  - cbn [for_each]. unfold bind. rewrite virsh_mem_item_spec.
    destruct (virsh_mem_value v) as [s|] eqn:Ev.
    + specialize (IH (kset (Some k) (VStr s) std) (virsh_mem_log k v st)).
      destruct (for_each virsh_mem_item l _ _) as [[std'|e] st'].
      * destruct IH as (Hall & Hnone & Hget). split; [|split].
        -- constructor; [cbn [snd]; rewrite Ev; discriminate | exact Hall].
        -- rewrite Hnone, kget_kset. reflexivity.
        -- intro k0. rewrite Hget, last_value_cons.
           rewrite (last_value_init k0 l (if String.eqb k0 k then Some v else None)).
           destruct (last_value k0 l None); [reflexivity|].
           rewrite kget_kset. cbn [key_eqb].
           destruct (String.eqb k0 k); [rewrite Ev|]; reflexivity.
      * destruct IH as (He & Hex). split; [exact He|].
        apply Exists_cons_tl, Hex.
    + split; [reflexivity|]. apply Exists_cons_hd. exact Ev.
Qed.

(** The memtune parser, from the field map to the outcome. *)
Lemma virsh_memtune_spec (h : Host) (l : dict string string) (st : state) :
  match get_standardized_virsh_info h (Some "memtune") (Some l) st with
  | (Ok (Some r), _) =>
      Forall (fun kv => virsh_mem_value (snd kv) <> None) l
      /\ kget None r = None
      /\ forall k,
           kget (Some k) r
           = match last_value k l None with
             | Some v => option_map VStr (virsh_mem_value v)
             | None => if in_list k memtune_keys then Some (VStr "max") else None
             end
  | (Ok None, _) => False
  | (Raise e, _) =>
      e = ValueError
      /\ Exists (fun kv => virsh_mem_value (snd kv) = None) l
  end.
Proof.
  unfold get_standardized_virsh_info.
  cbn [cmd_is String.eqb Ascii.eqb Bool.eqb].
  unfold bind at 1. cbn [items orraise ret]. unfold bind.
  match goal with
  | |- context [for_each virsh_mem_item l ?s st] =>
      pose proof (virsh_mem_loop_spec l s st) as H;
      destruct (for_each virsh_mem_item l s st) as [[r|e] st']
  end.
  - cbn [ret]. destruct H as (Hall & Hnone & Hget).
    split; [exact Hall|]. split; [exact Hnone|].
    intro k. rewrite Hget. destruct (last_value k l None); [reflexivity|].
    unfold kget, memtune_keys. cbn [dict_get key_eqb in_list existsb].
    destruct (String.eqb k "hard_limit"); [reflexivity|].
    destruct (String.eqb k "soft_limit"); [reflexivity|].
    destruct (String.eqb k "swap_hard_limit"); reflexivity.
  - exact H.
Qed.

Lemma isdigit_not_unlimited (v : string) :
  PyStr.isdigit v = true -> in_list v ["unlimited"] = false.
Proof.
  intro H. cbn [in_list existsb]. rewrite orb_false_r.
  apply String.eqb_neq. intro E. subst v. discriminate H.
Qed.

(** C2 (as amended): for every field of a memtune report whose value is a
    digit string, a map that the parser returns holds, under the field's
    own name (report fields are not renamed to canonical keys), the decimal
    text of the value times 1024: the value is one that [int] reads and
    the product one that [str] writes.  When [int] refuses the digit
    string or [str] the product (more than 4300 digits, or a digit
    character that is no decimal digit), the parser raises ValueError and
    returns no map.  In particular the report field [hard_limit: 2097152]
    gives hard_limit 2147483648, and [max_memory: unlimited] leaves
    hard_limit at its default max (and adds max_memory = max). *)
Theorem memtune_digits_times_1024
  (h : Host) (virsh_dict : dict string string) (st : state) :
  (forall r st' k v,
      NoDup (dict_keys virsh_dict) ->
      get_standardized_virsh_info h (Some "memtune") (Some virsh_dict) st
      = (Ok (Some r), st') ->
      In (k, v) virsh_dict ->
      PyStr.isdigit v = true ->
      exists n bytes,
        PyStr.int v = Some n
        /\ PyStr.str (n * 1024) = Some bytes
        /\ kget (Some k) r = Some (VStr bytes))
  /\ (forall k v,
         In (k, v) virsh_dict ->
         PyStr.isdigit v = true ->
         PyStr.int v = None
         \/ (exists n, PyStr.int v = Some n /\ PyStr.str (n * 1024) = None) ->
         fst (get_standardized_virsh_info h (Some "memtune") (Some virsh_dict) st)
         = Raise ValueError)
  /\ get_standardized_virsh_info h (Some "memtune")
       (Some (convert_virsh_output_to_dict memtune_report)) st
     = (Ok (Some [ (Some "hard_limit", VStr "2147483648");
                   (Some "soft_limit", VStr "max");
                   (Some "swap_hard_limit", VStr "max") ]), st)
  /\ get_standardized_virsh_info h (Some "memtune")
       (Some (convert_virsh_output_to_dict "max_memory: unlimited")) st
     = (Ok (Some [ (Some "hard_limit", VStr "max");
                   (Some "soft_limit", VStr "max");
                   (Some "swap_hard_limit", VStr "max");
                   (Some "max_memory", VStr "max") ]), st).
Proof.
  pose proof (virsh_memtune_spec h virsh_dict st) as Hspec.
  split; [|split; [|split; reflexivity]].
  - intros r st' k v Hnd Hrun Hin Hd. rewrite Hrun in Hspec.
    destruct Hspec as (Hall & _ & Hget).
    specialize (Hget k). rewrite (last_value_nodup _ _ _ Hnd Hin) in Hget.
    rewrite Forall_forall in Hall. specialize (Hall _ Hin). cbn [snd] in Hall.
    unfold virsh_mem_value in Hget, Hall.
    rewrite (isdigit_not_unlimited _ Hd), Hd in Hget, Hall.
    destruct (PyStr.int v) as [n|] eqn:En; [|congruence].
    destruct (PyStr.str (n * 1024)) as [bytes|] eqn:Eb; [|congruence].
    exists n, bytes. split; [reflexivity|]. split; [exact Eb | exact Hget].
  - intros k v Hin Hd Hbad.
    assert (Hv : virsh_mem_value v = None).
    { unfold virsh_mem_value. rewrite (isdigit_not_unlimited _ Hd), Hd.
      destruct Hbad as [->|(n & -> & ->)]; reflexivity. }
    destruct (get_standardized_virsh_info h (Some "memtune") (Some virsh_dict) st)
      as [[[r|]|e] st'].
    + destruct Hspec as (Hall & _). rewrite Forall_forall in Hall.
      destruct (Hall _ Hin Hv).
    + destruct Hspec.
    + destruct Hspec as [-> _]. reflexivity.
Qed.

Lemma memtune_digits_times_1024_witness :
  exists n bytes,
    PyStr.int "2097152" = Some n
    /\ PyStr.str (n * 1024) = Some bytes
    /\ kget (Some "hard_limit")
         [ (Some "hard_limit", VStr "2147483648");
           (Some "soft_limit", VStr "max");
           (Some "swap_hard_limit", VStr "max") ]
       = Some (VStr bytes).
Proof.
  refine (proj1 (memtune_digits_times_1024 host_v1_bare
                   (convert_virsh_output_to_dict memtune_report) initial_state)
            _ initial_state "hard_limit" "2097152" _ eq_refl _ eq_refl).
  - vm_compute. repeat constructor; simpl; intuition discriminate.
  - vm_compute. left. reflexivity.
Defined.

(** C2, counterexample: the report field [max_memory: 2097152] does not
    produce hard_limit 2147483648: hard_limit keeps its default and the
    product is filed under max_memory.  And not every digit string is
    multiplied: for a value of 4301 nines, or the superscript two (for
    which [isdigit] holds), the parser raises ValueError. *)
Lemma memtune_max_memory_not_hard_limit :
  (exists r,
      fst (get_standardized_virsh_info host_v1_bare (Some "memtune")
             (Some (convert_virsh_output_to_dict "max_memory: 2097152"))
             initial_state) = Ok (Some r)
      /\ kget (Some "hard_limit") r = Some (VStr "max")
      /\ kget (Some "max_memory") r = Some (VStr "2147483648")
      /\ kget (Some "hard_limit") r <> Some (VStr "2147483648"))
  /\ PyStr.isdigit (nines 4301) = true
  /\ fst (get_standardized_virsh_info host_v1_bare (Some "memtune")
            (Some [("hard_limit", nines 4301)]) initial_state)
     = Raise ValueError
  /\ PyStr.isdigit superscript_two = true
  /\ fst (get_standardized_virsh_info host_v1_bare (Some "memtune")
            (Some [("hard_limit", superscript_two)]) initial_state)
     = Raise ValueError.
Proof.
  split.
  - eexists. split; [vm_compute; reflexivity|].
    repeat split; discriminate.
  - vm_compute. repeat split.
Qed.

Lemma last_value_of_in (p v : string) (l : list (string * string)) :
  In (p, v) l -> exists v', last_value p l None = Some v'.
Proof.
  induction l as [|[k x] l IH]; [intros []|].
  intro Hin. rewrite last_value_cons, last_value_init.
  destruct (last_value p l None) as [y|] eqn:Ey; [eexists; reflexivity|].
  destruct Hin as [E|Hin].
  - inversion E; subst. rewrite String.eqb_refl. eexists; reflexivity.
  - destruct (IH Hin) as [v' Hv']. discriminate.
Qed.

Lemma virsh_mem_value_none (v : string) :
  virsh_mem_value v = None
  <-> PyStr.isdigit v = true
      /\ (PyStr.int v = None
          \/ exists n, PyStr.int v = Some n /\ PyStr.str (n * 1024) = None).
Proof.
  unfold virsh_mem_value.
  destruct (in_list v ["unlimited"]) eqn:Eu.
  - split; [discriminate|]. intros [Hd _].
    rewrite (isdigit_not_unlimited _ Hd) in Eu. discriminate.
  - destruct (PyStr.isdigit v).
    + destruct (PyStr.int v) as [n|].
      * split.
        -- intro H. split; [reflexivity|]. right. exists n. split; [reflexivity|exact H].
        -- intros [_ [H|(m & Hm & H)]]; [discriminate|]. inversion Hm; subst m. exact H.
      * split; [|reflexivity]. intros _. split; [reflexivity|]. left. reflexivity.
    + split; [discriminate|]. intros [H _]. discriminate.
Qed.

(** A value of at most 4296 decimal digits has a canonical form: the
    product by 1024 stays within 4300 digits. *)
Lemma virsh_mem_value_small (v : string) :
  PyStr.isdecimal v = true ->
  (String.length v <= 4296)%nat ->
  virsh_mem_value v <> None.
Proof.
  intros Hd Hl.
  assert (Hl' : (String.length v <= PyStr.int_max_str_digits)%nat)
    by (unfold PyStr.int_max_str_digits; lia).
  destruct (int_of_decimal v Hd Hl') as (n & Hn & Hb).
  unfold virsh_mem_value.
  destruct (in_list v ["unlimited"]); [discriminate|].
  rewrite (all_decimal_isdigit _ Hd), Hn.
  rewrite str_small; [discriminate|].
  assert (Hp : (n < 10 ^ 4296)%N).
  { apply N.lt_le_trans with (m := (10 ^ N.of_nat (String.length v))%N);
      [exact Hb|]. apply N.pow_le_mono_r; lia. }
  assert (E : (10 ^ Z.of_nat PyStr.int_max_str_digits = 10000 * 10 ^ 4296)%Z)
    by (vm_compute; reflexivity).
  rewrite E. apply N2Z.inj_lt in Hp. rewrite N2Z.inj_pow in Hp.
  change (Z.of_N 10) with 10%Z in Hp. change (Z.of_N 4296) with 4296%Z in Hp.
  set (X := (10 ^ 4296)%Z) in *. lia.
Qed.

(** ** Assignments in a per-device entry *)

Lemma contains_char_cons (c a : ascii) (s : string) :
  PyStr.contains (String c "") (String a s)
  = (Ascii.eqb a c || PyStr.contains (String c "") s)%bool.
Proof.
  cbn [PyStr.contains]. rewrite prefix_char.
  destruct (Ascii.eqb a c); reflexivity.
Qed.

Lemma set_dev_attr_inv (dev : option string) (k v : string)
  (std std' : info) (st st' : state) :
  set_dev_attr dev k v std st = (Ok std', st') ->
  exists d, kget dev std = Some (VDict d)
            /\ std' = kset dev (VDict (sset k v d)) std.
Proof.
  unfold set_dev_attr.
  destruct (kget dev std) as [[x| |d]|]; cbn; intro H; inversion H.
  exists d. split; reflexivity.
Qed.

(** ** Properties of all values of a dictionary *)

Section DictForall.
Variables K V : Type.
Variable eqb : K -> K -> bool.
Variable Q : V -> Prop.

Lemma Forall_dict_set (k : K) (v : V) (d : dict K V) :
  Q v -> Forall (fun kv => Q (snd kv)) d ->
  Forall (fun kv => Q (snd kv)) (dict_set eqb k v d).
Proof.
  intros Hv Hd. induction Hd as [|[k0 v0] d H0 Hd IH]; cbn [dict_set].
  - constructor; [exact Hv | constructor].
  - destruct (eqb k k0); constructor; auto.
Qed.

Lemma Forall_dict_get (k : K) (v : V) (d : dict K V) :
  Forall (fun kv => Q (snd kv)) d -> dict_get eqb k d = Some v -> Q v.
Proof.
  intros Hd. induction Hd as [|[k0 v0] d H0 Hd IH]; cbn [dict_get].
  - discriminate.
  - destruct (eqb k k0); [intro E; inversion E; subst; exact H0 | exact IH].
Qed.
End DictForall.

Lemma has_key_sset_iff (d : dict string string) (k v k' : string) :
  has_key (sset k v d) k' = true <-> k' = k \/ has_key d k' = true.
Proof.
  unfold has_key. rewrite sget_sset.
  destruct (String.eqb k' k) eqn:E.
  - apply String.eqb_eq in E. tauto.
  - apply String.eqb_neq in E. tauto.
Qed.

(** ** Digit runs *)

Lemma take_digits_all (s : string) :
  PyStr.all_chars PyStr.isdecimal_c (take_digits s) = true.
Proof.
  induction s as [|c s IH]; cbn [take_digits]; [reflexivity|].
  destruct (PyStr.isdecimal_c c) eqn:E; [|reflexivity].
  cbn [PyStr.all_chars]. rewrite E, IH. reflexivity.
Qed.

Lemma search_digits_isdecimal (text g : string) :
  search_digits text = Some g -> PyStr.isdecimal g = true.
Proof.
  induction text as [|c s IH]; cbn [search_digits]; [discriminate|].
  destruct (PyStr.isdecimal_c c) eqn:E; [|exact IH].
  intro H. inversion H; subst g. pose proof (take_digits_all (String c s)) as Hd.
  cbn [take_digits] in *. rewrite E in *. exact Hd.
Qed.

(** * Further properties *)

(** ** Subdirectory discovery *)

Lemma insert_sorted_perm (x : string) (l : list string) :
  Permutation (insert_sorted x l) (x :: l).
Proof.
  induction l as [|y l IH]; cbn [insert_sorted].
  - apply Permutation_refl.
  - destruct (String.leb x y).
    + apply Permutation_refl.
    + eapply Permutation_trans; [apply perm_skip, IH | apply perm_swap].
Qed.

Lemma sorted_perm (l : list string) : Permutation (sorted l) l.
Proof.
  induction l as [|x l IH]; cbn [sorted fold_right].
  - apply Permutation_refl.
  - eapply Permutation_trans; [apply insert_sorted_perm | apply perm_skip, IH].
Qed.

Lemma insert_sorted_Sorted (x : string) (l : list string) :
  Sorted str_le l -> Sorted str_le (insert_sorted x l).
Proof.
  induction 1 as [|y l Hs IH Hhd]; cbn [insert_sorted].
  - repeat constructor.
  - destruct (String.leb x y) eqn:E.
    + constructor; [constructor; assumption | constructor; exact E].
    + constructor; [exact IH|].
      assert (Hyx : str_le y x).
      { destruct (String.leb_total x y) as [H|H]; [congruence | exact H]. }
      destruct l as [|z l]; cbn [insert_sorted].
      * constructor; exact Hyx.
      * destruct (String.leb x z); constructor;
          [exact Hyx | inversion Hhd; assumption].
Qed.

Lemma sorted_Sorted (l : list string) : Sorted str_le (sorted l).
Proof.
  induction l as [|x l IH]; cbn [sorted fold_right].
  - constructor.
  - apply insert_sorted_Sorted, IH.
Qed.

(** X1: when subdirectory discovery returns a list, the list holds exactly
    the children whose name contains the keyword, in ascending string
    order, and nothing is logged; the empty list is returned only for a
    keyword without [iothread].  It returns [None] only for a keyword that
    contains [iothread] when no child matches, and then logs one debug
    line. *)
Theorem get_cpu_subdirs_result
  (h : Host) (controller_path : option string) (dir_keyword : string)
  (st st' : state) (res : option (list string)) :
  __get_cpu_subdirs h controller_path dir_keyword st = (Ok res, st') ->
  exists names,
    listdir h controller_path = Some names
    /\ match res with
       | Some dirs =>
           Sorted str_le dirs
           /\ Permutation dirs (filter (PyStr.contains dir_keyword) names)
           /\ (forall d, In d dirs
                         <-> In d names /\ PyStr.contains dir_keyword d = true)
           /\ (dirs = [] -> PyStr.contains "iothread" dir_keyword = false)
           /\ st' = st
       | None =>
           filter (PyStr.contains dir_keyword) names = []
           /\ PyStr.contains "iothread" dir_keyword = true
           /\ st' = log_add st DEBUG
                      ("No sub dirs found with keyword: '" ++ dir_keyword
                       ++ "'. Pls check if you've executed virsh cmd 'iothreadadd'.")
       end.
Proof.
  unfold __get_cpu_subdirs. intro H.
  apply bind_Ok_inv in H as (names & st1 & Hls & H).
  apply orraise_Ok_inv in Hls as [Hls <-].
  exists names. split; [exact Hls|].
  assert (Hsome : forall dirs,
             dirs = sorted (filter (PyStr.contains dir_keyword) names) ->
             Sorted str_le dirs
             /\ Permutation dirs (filter (PyStr.contains dir_keyword) names)
             /\ (forall d, In d dirs
                           <-> In d names /\ PyStr.contains dir_keyword d = true)).
  { intros dirs ->. split; [apply sorted_Sorted|].
    split; [apply sorted_perm|]. intro d. rewrite <- filter_In.
    split; apply Permutation_in;
      [apply sorted_perm | apply Permutation_sym, sorted_perm]. }
  destruct (filter (PyStr.contains dir_keyword) names) as [|x l] eqn:Ef.
  - destruct (PyStr.contains "iothread" dir_keyword) eqn:Eio.
    + cbv [bind LOG ret] in H. inversion H; subst.
      repeat split; reflexivity.
    + apply ret_Ok_inv in H as [<- <-].
      destruct (Hsome _ eq_refl) as (H1 & H2 & H3).
      split; [exact H1|]. split; [exact H2|]. split; [exact H3|].
      split; [intros _; reflexivity | reflexivity].
  - apply ret_Ok_inv in H as [<- <-].
    destruct (Hsome _ eq_refl) as (H1 & H2 & H3).
    split; [exact H1|]. split; [exact H2|]. split; [exact H3|].
    split; [|reflexivity].
    intro E. rewrite E in H2. apply Permutation_nil in H2. discriminate.
Qed.

Lemma get_cpu_subdirs_result_witness :
  exists names,
    listdir host_v1_sched (Some "/cg/cpu/vm.scope/libvirt/emulator/..") = Some names
    /\ Sorted str_le ["vcpu0"; "vcpu1"]
    /\ Permutation ["vcpu0"; "vcpu1"] (filter (PyStr.contains "vcpu") names)
    /\ (forall d, In d ["vcpu0"; "vcpu1"]
                  <-> In d names /\ PyStr.contains "vcpu" d = true)
    /\ (["vcpu0"; "vcpu1"] = [] -> PyStr.contains "iothread" "vcpu" = false)
    /\ initial_state = initial_state.
Proof.
  exact (get_cpu_subdirs_result host_v1_sched
           (Some "/cg/cpu/vm.scope/libvirt/emulator/..") "vcpu"
           initial_state initial_state (Some ["vcpu0"; "vcpu1"]) eq_refl).
Defined.

(** ** Scheduling keys and the sibling directories *)

Lemma get_cpu_subdirs_inv (h : Host) (p : option string) (kw : string)
  (st st' : state) (res : option (list string)) :
  __get_cpu_subdirs h p kw st = (Ok res, st') ->
  exists names,
    listdir h p = Some names
    /\ res = match filter (PyStr.contains kw) names with
             | [] => if PyStr.contains "iothread" kw then None else Some []
             | l => Some (sorted l)
             end.
Proof.
  unfold __get_cpu_subdirs. intro H.
  apply bind_Ok_inv in H as (names & st1 & Hls & H).
  apply orraise_Ok_inv in Hls as [Hls <-].
  exists names. split; [exact Hls|].
  destruct (filter (PyStr.contains kw) names) as [|x l].
  - destruct (PyStr.contains "iothread" kw).
    + cbv [bind LOG ret] in H. inversion H. reflexivity.
    + apply ret_Ok_inv in H as [<- _]. reflexivity.
  - apply ret_Ok_inv in H as [<- _]. reflexivity.
Qed.

Lemma sorted_not_nil (l : list string) : l <> [] -> sorted l <> [].
Proof.
  intros Hl E. pose proof (sorted_perm l) as Hp. rewrite E in Hp.
  apply Permutation_nil in Hp. contradiction.
Qed.

Lemma subst_placeholders_skip (vd id : option (list string)) (name : string)
  (st : state) :
  PyStr.contains "<vcpuX>" name = false ->
  PyStr.contains "<iothreadX>" name = true ->
  truthy_dirs id = false ->
  subst_placeholders vd id name st = (Ok None, st).
Proof.
  intros H1 H2 H3. unfold subst_placeholders, bind. rewrite H1. cbn [ret].
  rewrite H2, H3. reflexivity.
Qed.

Lemma subst_placeholders_no_skip (vd id : option (list string)) (name : string)
  (st st' : state) (res : option string) :
  truthy_dirs id = true ->
  subst_placeholders vd id name st = (Ok res, st') ->
  exists name', res = Some name'.
Proof.
  intros Hid. unfold subst_placeholders. intro H.
  apply bind_Ok_inv in H as (name1 & st1 & _ & H).
  destruct (PyStr.contains "<iothreadX>" name1).
  - rewrite Hid in H. apply bind_Ok_inv in H as (d & st2 & _ & H).
    apply ret_Ok_inv in H as [<- _]. eexists; reflexivity.
  - apply ret_Ok_inv in H as [<- _]. eexists; reflexivity.
Qed.

(** An entry of the v1 loop leaves the map as it is or sets its own key. *)
Lemma cgroup1_sched_entry_shape (h : Host) (cp : string)
  (vd id : option (list string)) (k name : string)
  (std std' : info) (st st' : state) :
  cgroup1_sched_entry h cp vd id (k, name) std st = (Ok std', st') ->
  (std' = std /\ subst_placeholders vd id name st = (Ok None, st'))
  \/ exists v, std' = kset (Some k) v std.
Proof.
  unfold cgroup1_sched_entry. intro H.
  apply bind_Ok_inv in H as ([name'|] & st1 & Hs & H).
  - right. apply cgroup1_sched_read_inv in H as (text & _ & ->).
    eexists; reflexivity.
  - left. apply ret_Ok_inv in H as [<- <-]. split; [reflexivity | exact Hs].
Qed.

Lemma cgroup2_sched_entry_shape (h : Host) (cp : option string)
  (vd id : option (list string)) (k name : string)
  (std std' : info) (st st' : state) :
  cgroup2_sched_entry h cp vd id (k, name) std st = (Ok std', st') ->
  (std' = std /\ subst_placeholders vd id name st = (Ok None, st'))
  \/ exists v, std' = kset (Some k) v std.
Proof.
  unfold cgroup2_sched_entry. intro H.
  apply bind_Ok_inv in H as ([name'|] & st1 & Hs & H).
  - right. apply cgroup2_sched_read_inv in H as (path & text & word & _ & _ & ->).
    eexists; reflexivity.
  - left. apply ret_Ok_inv in H as [<- <-]. split; [reflexivity | exact Hs].
Qed.

Lemma sched_tables_kind :
  forallb sched_entry_kind CGROUP_V1_SCHEDINFO_FILE_MAPPING = true
  /\ forallb sched_entry_kind CGROUP_V2_SCHEDINFO_FILE_MAPPING = true.
Proof. split; vm_compute; reflexivity. Qed.

Lemma kget_other_key (kind_ok : bool) (k : string) (v : value) (std : info) :
  (negb (String.eqb "iothread_period" k)
   && negb (String.eqb "iothread_quota" k))%bool = true ->
  kget iothread_period std = None /\ kget iothread_quota std = None ->
  kget iothread_period (kset (Some k) v std) = None
  /\ kget iothread_quota (kset (Some k) v std) = None.
Proof.
  intros Hk Hs. apply andb_true_iff in Hk as [H1 H2].
  apply negb_true_iff in H1, H2.
  unfold iothread_period, iothread_quota. rewrite !kget_kset.
  cbn [key_eqb]. rewrite H1, H2. exact Hs.
Qed.

(** The step of the v1 loop when there is no iothread directory. *)
Lemma cgroup1_step_without_iothreads (h : Host) (cp : string)
  (vd : option (list string)) (entry : string * string)
  (std std' : info) (st st' : state) :
  sched_entry_kind entry = true ->
  cgroup1_sched_entry h cp vd None entry std st = (Ok std', st') ->
  kget iothread_period std = None /\ kget iothread_quota std = None ->
  kget iothread_period std' = None /\ kget iothread_quota std' = None.
Proof.
  destruct entry as [k name]. cbn [sched_entry_kind].
  intros Hkind H Hs. apply orb_true_iff in Hkind as [Hk|Hk].
  - apply cgroup1_sched_entry_shape in H as [[-> _]|[v ->]]; [exact Hs|].
    apply (kget_other_key true); assumption.
  - apply andb_true_iff in Hk as [H1 H2]. apply negb_true_iff in H1.
    unfold cgroup1_sched_entry, bind in H.
    rewrite (subst_placeholders_skip vd None name st H1 H2 eq_refl) in H.
    apply ret_Ok_inv in H as [<- _]. exact Hs.
Qed.

(** The step of the v2 loop when there is no iothread directory. *)
Lemma cgroup2_step_without_iothreads (h : Host) (cp : option string)
  (vd : option (list string)) (entry : string * string)
  (std std' : info) (st st' : state) :
  sched_entry_kind entry = true ->
  cgroup2_sched_entry h cp vd None entry std st = (Ok std', st') ->
  kget iothread_period std = None /\ kget iothread_quota std = None ->
  kget iothread_period std' = None /\ kget iothread_quota std' = None.
Proof.
  destruct entry as [k name]. cbn [sched_entry_kind].
  intros Hkind H Hs. apply orb_true_iff in Hkind as [Hk|Hk].
  - apply cgroup2_sched_entry_shape in H as [[-> _]|[v ->]]; [exact Hs|].
    apply (kget_other_key true); assumption.
  - apply andb_true_iff in Hk as [H1 H2]. apply negb_true_iff in H1.
    unfold cgroup2_sched_entry, bind in H.
    rewrite (subst_placeholders_skip vd None name st H1 H2 eq_refl) in H.
    apply ret_Ok_inv in H as [<- _]. exact Hs.
Qed.

Lemma kget_kset_keeps (k k' : option string) (v : value) (std : info) :
  kget k std <> None -> kget k (kset k' v std) <> None.
Proof.
  intro H. rewrite kget_kset. destruct (key_eqb k k'); [discriminate | exact H].
Qed.

(** The step of the v1 loop for an iothread key when iothread directories
    exist. *)
Lemma cgroup1_step_with_iothreads (h : Host) (cp : string)
  (vd id : option (list string)) (k name : string)
  (std std' : info) (st st' : state) :
  truthy_dirs id = true ->
  cgroup1_sched_entry h cp vd id (k, name) std st = (Ok std', st') ->
  kget (Some k) std' <> None.
Proof.
  intros Hid H.
  pose proof H as H'. apply cgroup1_sched_entry_shape in H' as [[_ Hs]|[v ->]].
  - apply (subst_placeholders_no_skip _ _ _ _ _ _ Hid) in Hs as [n Hn].
    discriminate.
  - rewrite kget_kset. cbn [key_eqb]. rewrite String.eqb_refl. discriminate.
Qed.

Lemma cgroup2_step_with_iothreads (h : Host) (cp : option string)
  (vd id : option (list string)) (k name : string)
  (std std' : info) (st st' : state) :
  truthy_dirs id = true ->
  cgroup2_sched_entry h cp vd id (k, name) std st = (Ok std', st') ->
  kget (Some k) std' <> None.
Proof.
  intros Hid H.
  pose proof H as H'. apply cgroup2_sched_entry_shape in H' as [[_ Hs]|[v ->]].
  - apply (subst_placeholders_no_skip _ _ _ _ _ _ Hid) in Hs as [n Hn].
    discriminate.
  - rewrite kget_kset. cbn [key_eqb]. rewrite String.eqb_refl. discriminate.
Qed.

Lemma cgroup1_step_keeps (h : Host) (cp : string)
  (vd id : option (list string)) (entry : string * string) (key : option string)
  (std std' : info) (st st' : state) :
  cgroup1_sched_entry h cp vd id entry std st = (Ok std', st') ->
  kget key std <> None -> kget key std' <> None.
Proof.
  destruct entry as [k name]. intros H Hs.
  apply cgroup1_sched_entry_shape in H as [[-> _]|[v ->]]; [exact Hs|].
  apply kget_kset_keeps, Hs.
Qed.

Lemma cgroup2_step_keeps (h : Host) (cp : option string)
  (vd id : option (list string)) (entry : string * string) (key : option string)
  (std std' : info) (st st' : state) :
  cgroup2_sched_entry h cp vd id entry std st = (Ok std', st') ->
  kget key std <> None -> kget key std' <> None.
Proof.
  destruct entry as [k name]. intros H Hs.
  apply cgroup2_sched_entry_shape in H as [[-> _]|[v ->]]; [exact Hs|].
  apply kget_kset_keeps, Hs.
Qed.

(** The runs of the two schedinfo readers, opened up. *)
Lemma cgroup1_schedinfo_inv (h : Host) (vm_pid : string)
  (st st' : state) (r : info) :
  __get_standardized_cgroup1_info h vm_pid (Some "schedinfo") st = (Ok r, st') ->
  exists cp vd id st1 st2 st3,
    __get_cpu_subdirs h (Some cp) "vcpu" st1 = (Ok vd, st2)
    /\ __get_cpu_subdirs h (Some cp) "iothread" st2 = (Ok id, st3)
    /\ for_each (cgroup1_sched_entry h cp vd id)
         CGROUP_V1_SCHEDINFO_FILE_MAPPING [] st3 = (Ok r, st').
Proof.
  unfold __get_standardized_cgroup1_info.
  cbn [cmd_is String.eqb Ascii.eqb Bool.eqb]. intro H.
  apply bind_Ok_inv in H as (p & st1 & _ & H).
  apply bind_Ok_inv in H as (cp & st2 & _ & H).
  apply bind_Ok_inv in H as (vd & st3 & Hvd & H).
  apply bind_Ok_inv in H as (id & st4 & Hid & H).
  exists cp, vd, id, st2, st3, st4. repeat split; assumption.
Qed.

Lemma cgroup2_schedinfo_inv (h : Host) (vm_pid : string)
  (st st' : state) (r : info) :
  __get_standardized_cgroup2_info h vm_pid (Some "schedinfo") st = (Ok r, st') ->
  exists cp vd id st1 st2 st3,
    __get_cpu_subdirs h cp "vcpu" st1 = (Ok vd, st2)
    /\ __get_cpu_subdirs h cp "iothread" st2 = (Ok id, st3)
    /\ for_each (cgroup2_sched_entry h cp vd id)
         CGROUP_V2_SCHEDINFO_FILE_MAPPING [] st3 = (Ok r, st').
Proof.
  unfold __get_standardized_cgroup2_info. intro H.
  apply bind_Ok_inv in H as (cp & st1 & _ & H).
  cbn [cmd_is String.eqb Ascii.eqb Bool.eqb] in H.
  apply bind_Ok_inv in H as (vd & st3 & Hvd & H).
  apply bind_Ok_inv in H as (id & st4 & Hid & H).
  exists cp, vd, id, st1, st3, st4. repeat split; assumption.
Qed.

Lemma no_child_dirs (h : Host) (kw : string) (p : option string)
  (st st' : state) (res : option (list string)) :
  no_child_with h kw ->
  __get_cpu_subdirs h p kw st = (Ok res, st') ->
  res = if PyStr.contains "iothread" kw then None else Some [].
Proof.
  intros Hno H. apply get_cpu_subdirs_inv in H as (names & Hls & ->).
  rewrite (Hno _ _ Hls). reflexivity.
Qed.

Lemma some_child_dirs (h : Host) (kw : string) (p : option string)
  (st st' : state) (res : option (list string)) :
  some_child_with h kw ->
  __get_cpu_subdirs h p kw st = (Ok res, st') ->
  truthy_dirs res = true.
Proof.
  intros Hsome H. apply get_cpu_subdirs_inv in H as (names & Hls & ->).
  specialize (Hsome _ _ Hls).
  destruct (filter (PyStr.contains kw) names) as [|x l] eqn:E; [contradiction|].
  assert (Hn : sorted (x :: l) <> []) by (apply sorted_not_nil; discriminate).
  destruct (sorted (x :: l)); [contradiction | reflexivity].
Qed.

(** X2: when no directory of the host has an iothread child, a map
    returned by the v1 or the v2 scheduling reader has neither the key
    iothread_period nor the key iothread_quota (the entries are skipped, not
    defaulted); when every listed directory has one, a returned map has
    both. *)
Theorem schedinfo_iothread_keys
  (h : Host) (vm_pid : string) (st st' : state) (r : info) :
  __get_standardized_cgroup1_info h vm_pid (Some "schedinfo") st = (Ok r, st')
  \/ __get_standardized_cgroup2_info h vm_pid (Some "schedinfo") st = (Ok r, st') ->
  (no_child_with h "iothread" ->
   kget iothread_period r = None /\ kget iothread_quota r = None)
  /\ (some_child_with h "iothread" ->
      kget iothread_period r <> None /\ kget iothread_quota r <> None).
Proof.
  destruct sched_tables_kind as [K1 K2].
  rewrite forallb_forall in K1, K2.
  intros [H|H].
  - apply cgroup1_schedinfo_inv in H as (cp & vd & id & s1 & s2 & s3 & _ & Hid & H).
    split.
    + intro Hno.
      assert (E : id = None) by exact (no_child_dirs _ _ _ _ _ _ Hno Hid).
      subst id. revert H.
      apply for_each_inv
        with (P := fun s => kget iothread_period s = None
                            /\ kget iothread_quota s = None);
        [|split; reflexivity].
      intros e s0 t0 s0' t0' Hin Hs He.
      exact (cgroup1_step_without_iothreads _ _ _ _ _ _ _ _ (K1 _ Hin) He Hs).
    + intro Hsome. pose proof (some_child_dirs _ _ _ _ _ _ Hsome Hid) as Ht.
      split.
      * revert H. apply for_each_reach
          with (P := fun s => kget iothread_period s <> None)
               (a0 := ("iothread_period", "<iothreadX>/cpu.cfs_period_us")).
        -- intros a s0 t0 s0' t0'. apply cgroup1_step_keeps.
        -- intros s0 t0 s0' t0'. apply cgroup1_step_with_iothreads, Ht.
        -- cbn. tauto.
      * revert H. apply for_each_reach
          with (P := fun s => kget iothread_quota s <> None)
               (a0 := ("iothread_quota", "<iothreadX>/cpu.cfs_quota_us")).
        -- intros a s0 t0 s0' t0'. apply cgroup1_step_keeps.
        -- intros s0 t0 s0' t0'. apply cgroup1_step_with_iothreads, Ht.
        -- cbn. tauto.
  - apply cgroup2_schedinfo_inv in H as (cp & vd & id & s1 & s2 & s3 & _ & Hid & H).
    split.
    + intro Hno.
      assert (E : id = None) by exact (no_child_dirs _ _ _ _ _ _ Hno Hid).
      subst id. revert H.
      apply for_each_inv
        with (P := fun s => kget iothread_period s = None
                            /\ kget iothread_quota s = None);
        [|split; reflexivity].
      intros e s0 t0 s0' t0' Hin Hs He.
      exact (cgroup2_step_without_iothreads _ _ _ _ _ _ _ _ (K2 _ Hin) He Hs).
    + intro Hsome. pose proof (some_child_dirs _ _ _ _ _ _ Hsome Hid) as Ht.
      split.
      * revert H. apply for_each_reach
          with (P := fun s => kget iothread_period s <> None)
               (a0 := ("iothread_period", "<iothreadX>/cpu.max")).
        -- intros a s0 t0 s0' t0'. apply cgroup2_step_keeps.
        -- intros s0 t0 s0' t0'. apply cgroup2_step_with_iothreads, Ht.
        -- cbn. tauto.
      * revert H. apply for_each_reach
          with (P := fun s => kget iothread_quota s <> None)
               (a0 := ("iothread_quota", "<iothreadX>/cpu.max")).
        -- intros a s0 t0 s0' t0'. apply cgroup2_step_keeps.
        -- intros s0 t0 s0' t0'. apply cgroup2_step_with_iothreads, Ht.
        -- cbn. tauto.
Qed.

Lemma host_v1_sched_no_iothread : no_child_with host_v1_sched "iothread".
Proof.
  intros [p|] names; cbn [listdir host_v1_sched mk_host]; [|discriminate].
  unfold sget. cbn [dict_get].
  repeat match goal with
         | |- context [String.eqb p ?s] => destruct (String.eqb p s)
         end; intro H; inversion H; reflexivity.
Qed.

Lemma schedinfo_iothread_keys_witness :
  kget iothread_period
    [ (Some "cpu_shares", VStr "1024");
      (Some "vcpu_period", VStr "100000");
      (Some "vcpu_quota", VStr "max");
      (Some "emulator_period", VStr "18446744073709551");
      (Some "emulator_quota", VStr "50000");
      (Some "global_period", VStr "max");
      (Some "global_quota", VStr "max") ] = None
  /\ kget iothread_quota
       [ (Some "cpu_shares", VStr "1024");
         (Some "vcpu_period", VStr "100000");
         (Some "vcpu_quota", VStr "max");
         (Some "emulator_period", VStr "18446744073709551");
         (Some "emulator_quota", VStr "50000");
         (Some "global_period", VStr "max");
         (Some "global_quota", VStr "max") ] = None.
Proof.
  refine (proj1 (schedinfo_iothread_keys host_v1_sched "4242" initial_state
                   (snd (__get_standardized_cgroup1_info host_v1_sched "4242"
                           (Some "schedinfo") initial_state))
                   _ (or_introl _)) host_v1_sched_no_iothread).
  vm_compute. reflexivity.
Defined.

Lemma subst_placeholders_no_vcpu (id : option (list string)) (name : string)
  (st : state) :
  PyStr.contains "<vcpuX>" name = true ->
  subst_placeholders (Some []) id name st = (Raise IndexError, st).
Proof.
  intro H. unfold subst_placeholders, bind. rewrite H. reflexivity.
Qed.

(** X3: on a host where no directory has a vcpu child, the v1 and the v2
    scheduling readers never return a map: discovery gives the empty list
    for the keyword vcpu and the first vcpu entry of the table indexes it. *)
Theorem schedinfo_without_vcpus_raises
  (h : Host) (vm_pid : string) (st : state) :
  no_child_with h "vcpu" ->
  (exists e st',
      __get_standardized_cgroup1_info h vm_pid (Some "schedinfo") st
      = (Raise e, st'))
  /\ (exists e st',
         __get_standardized_cgroup2_info h vm_pid (Some "schedinfo") st
         = (Raise e, st')).
Proof.
  intro Hno. split.
  - destruct (__get_standardized_cgroup1_info h vm_pid (Some "schedinfo") st)
      as [[r|e] st'] eqn:H; [exfalso | exists e, st'; reflexivity].
    apply cgroup1_schedinfo_inv in H as (cp & vd & id & s1 & s2 & s3 & Hvd & _ & H).
    assert (E : vd = Some []) by exact (no_child_dirs _ _ _ _ _ _ Hno Hvd).
    subst vd. cbn [for_each CGROUP_V1_SCHEDINFO_FILE_MAPPING] in H.
    apply bind_Ok_inv in H as (r1 & t1 & _ & H).
    apply bind_Ok_inv in H as (r2 & t2 & H & _).
    unfold cgroup1_sched_entry, bind in H.
    rewrite (subst_placeholders_no_vcpu id "<vcpuX>/cpu.cfs_period_us" t1 eq_refl)
      in H.
    discriminate.
  - destruct (__get_standardized_cgroup2_info h vm_pid (Some "schedinfo") st)
      as [[r|e] st'] eqn:H; [exfalso | exists e, st'; reflexivity].
    apply cgroup2_schedinfo_inv in H as (cp & vd & id & s1 & s2 & s3 & Hvd & _ & H).
    assert (E : vd = Some []) by exact (no_child_dirs _ _ _ _ _ _ Hno Hvd).
    subst vd. cbn [for_each CGROUP_V2_SCHEDINFO_FILE_MAPPING] in H.
    apply bind_Ok_inv in H as (r1 & t1 & _ & H).
    apply bind_Ok_inv in H as (r2 & t2 & H & _).
    unfold cgroup2_sched_entry, bind in H.
    rewrite (subst_placeholders_no_vcpu id "<vcpuX>/cpu.max" t1 eq_refl) in H.
    discriminate.
Qed.

Lemma host_v1_no_vcpu_spec : no_child_with host_v1_no_vcpu "vcpu".
Proof.
  intros [p|] names; cbn [listdir host_v1_no_vcpu mk_host]; [|discriminate].
  unfold sget. cbn [dict_get].
  repeat match goal with
         | |- context [String.eqb p ?s] => destruct (String.eqb p s)
         end; intro H; inversion H; reflexivity.
Qed.

Lemma schedinfo_without_vcpus_raises_witness :
  exists e st',
    __get_standardized_cgroup1_info host_v1_no_vcpu "4242" (Some "schedinfo")
      initial_state = (Raise e, st').
Proof.
  exact (proj1 (schedinfo_without_vcpus_raises host_v1_no_vcpu "4242"
                  initial_state host_v1_no_vcpu_spec)).
Defined.

Example schedinfo_without_vcpus_run :
  fst (__get_standardized_cgroup1_info host_v1_no_vcpu "4242" (Some "schedinfo")
         initial_state) = Raise IndexError.
Proof. vm_compute. reflexivity. Qed.

(** ** The module-level v1 blkio table *)

Lemma pure_ret {A} (a : A) : pure_M (ret a).
Proof. intro st. reflexivity. Qed.

Lemma pure_raise {A} (e : exn) : pure_M (@raise A e).
Proof. intro st. reflexivity. Qed.

Lemma pure_orraise {A} (e : exn) (o : option A) : pure_M (orraise e o).
Proof. destruct o; [apply pure_ret | apply pure_raise]. Qed.

Lemma pure_bind {A B} (c : M A) (k : A -> M B) :
  pure_M c -> (forall a, pure_M (k a)) -> pure_M (bind c k).
Proof.
  intros Hc Hk st. unfold bind. specialize (Hc st).
  destruct (c st) as [[a|e] st1]; cbn [snd] in Hc; subst st1.
  - apply Hk.
  - reflexivity.
Qed.

Lemma pure_for_each {A S} (body : A -> S -> M S) (l : list A) :
  (forall a s, pure_M (body a s)) -> forall s, pure_M (for_each body l s).
Proof.
  intro Hb. induction l as [|a l IH]; intro s; cbn [for_each].
  - apply pure_ret.
  - apply pure_bind; [apply Hb | exact IH].
Qed.

Lemma pure_keeps_table {A} (c : M A) : pure_M c -> keeps_table c.
Proof. intros H st. rewrite H. reflexivity. Qed.

Lemma keeps_table_bind {A B} (c : M A) (k : A -> M B) :
  keeps_table c -> (forall a, keeps_table (k a)) -> keeps_table (bind c k).
Proof.
  intros Hc Hk st. unfold bind. specialize (Hc st).
  destruct (c st) as [[a|e] st1]; cbn [snd] in Hc.
  - rewrite Hk. exact Hc.
  - exact Hc.
Qed.

Lemma keeps_table_LOG (l : level) (msg : string) : keeps_table (LOG l msg).
Proof. intro st. reflexivity. Qed.

Lemma pure_set_dev_attr dev k v std : pure_M (set_dev_attr dev k v std).
Proof.
  unfold set_dev_attr. destruct (kget dev std) as [[x| |d]|];
    first [apply pure_ret | apply pure_raise].
Qed.

Lemma pure_get_cg_file_path k p name : pure_M (__get_cg_file_path k p name).
Proof.
  unfold __get_cg_file_path. destruct p as [p|]; [|apply pure_raise].
  destruct (in_list k ["weight"; "cpu_shares"] && PyStr.contains "libvirt" p)%bool;
    apply pure_ret.
Qed.

Lemma pure_cgroup1_blkio_line k line acc : pure_M (cgroup1_blkio_line k line acc).
Proof.
  destruct acc as [std dl]. unfold cgroup1_blkio_line.
  apply pure_bind; [apply pure_orraise|]. intro dev.
  apply pure_bind; [apply pure_orraise|]. intro v.
  apply pure_bind; [apply pure_set_dev_attr|]. intro s. apply pure_ret.
Qed.

Lemma pure_cgroup1_blkio_entry h p entry acc :
  pure_M (cgroup1_blkio_entry h p entry acc).
Proof.
  destruct entry as [k name]. unfold cgroup1_blkio_entry.
  apply pure_bind; [apply pure_get_cg_file_path|]. intro path.
  apply pure_bind; [apply pure_orraise|]. intro text.
  destruct (in_list k ["rbps"; "wbps"; "riops"; "wiops"; "weight_device"]).
  - apply pure_for_each. intros l a. apply pure_cgroup1_blkio_line.
  - apply pure_ret.
Qed.

(** Path resolution logs at most; it never touches the table. *)
Lemma get_cgroup_path_keeps_table h vm_pid controller :
  keeps_table (get_cgroup_path h vm_pid controller).
Proof.
  unfold get_cgroup_path. apply keeps_table_bind.
  - apply pure_keeps_table.
    destruct (is_cgroup_v2_enabled h).
    + apply pure_bind; [apply pure_orraise|]. intro mnts.
      apply pure_bind; [apply pure_orraise|]. intro cg.
      apply pure_bind; [apply pure_orraise|]. intro mp.
      apply pure_bind; [apply pure_orraise|]. intro sc.
      match goal with |- pure_M (if ?b then _ else _) => destruct b end;
        apply pure_ret.
    + apply pure_bind; [apply pure_orraise|]. intro n. apply pure_orraise.
  - intro p. destruct (negb (path_exists h p)).
    + apply keeps_table_bind; [apply keeps_table_LOG|].
      intro u. apply pure_keeps_table, pure_ret.
    + apply pure_keeps_table, pure_ret.
Qed.

Lemma sset_same {V} (k : string) (v : V) (d : dict string V) :
  sget k d = Some v -> sset k v d = d.
Proof.
  unfold sget, sset. induction d as [|[k0 v0] d IH]; cbn [dict_get dict_set].
  - discriminate.
  - destruct (String.eqb k k0).
    + intro H. inversion H. reflexivity.
    + intro H. rewrite (IH H). reflexivity.
Qed.

Lemma patch_v1_blkio_lookup (table : dict string string) :
  sget "weight" (patch_v1_blkio table) = Some "blkio.weight"
  /\ sget "weight_device" (patch_v1_blkio table) = Some "blkio.weight_device"
  /\ forall k, k <> "weight" -> k <> "weight_device" ->
               sget k (patch_v1_blkio table) = sget k table.
Proof.
  unfold patch_v1_blkio. repeat split.
  - rewrite !sget_sset. reflexivity.
  - rewrite sget_sset. reflexivity.
  - intros k H1 H2. rewrite !sget_sset.
    apply String.eqb_neq in H1, H2. rewrite H1, H2. reflexivity.
Qed.

Lemma patch_v1_blkio_idem (table : dict string string) :
  patch_v1_blkio (patch_v1_blkio table) = patch_v1_blkio table.
Proof.
  destruct (patch_v1_blkio_lookup table) as (Hw & Hd & _).
  unfold patch_v1_blkio at 1.
  rewrite (sset_same _ _ _ Hw). apply sset_same, Hd.
Qed.

(** X4: the v1 block-I/O reader patches the module-level table in place
    when the first line of the scheduler file does not contain [bfq], and
    never restores it: after a read whose path resolution and scheduler
    read succeed, the table is the patched one (weight file blkio.weight,
    new key weight_device) on a non-bfq host and the table of before on a
    bfq host, whether the read then returns or raises.  The patch changes
    no other key, applying it again changes nothing, and on v1 the table
    lookup for blkiotune hands callers this table. *)
Theorem v1_blkio_table_patch
  (h : Host) (vm_pid : string) (st st1 : state) (p : option string)
  (iosche : string) :
  get_cgroup_path h vm_pid (Some "blkio") st = (Ok p, st1) ->
  open_read h (schedulerfd h) = Some iosche ->
  let st2 := snd (__get_standardized_cgroup1_info h vm_pid (Some "blkiotune") st) in
  v1_blkio_mapping st2
  = (if PyStr.contains "bfq" (readline iosche)
     then v1_blkio_mapping st
     else patch_v1_blkio (v1_blkio_mapping st))
  /\ patch_v1_blkio (patch_v1_blkio (v1_blkio_mapping st))
     = patch_v1_blkio (v1_blkio_mapping st)
  /\ (forall k, k <> "weight" -> k <> "weight_device" ->
                sget k (patch_v1_blkio (v1_blkio_mapping st))
                = sget k (v1_blkio_mapping st))
  /\ (is_cgroup_v2_enabled h = false ->
      get_cgroup_file_mapping h (Some "blkiotune") st2
      = (Ok (Some (v1_blkio_mapping st2)), st2)).
Proof.
  intros Hpath Hopen st2.
  split; [|split; [apply patch_v1_blkio_idem|split]].
  - pose proof (get_cgroup_path_keeps_table h vm_pid (Some "blkio") st) as Ht.
    rewrite Hpath in Ht. cbn [snd] in Ht. rewrite <- Ht.
    subst st2. unfold __get_standardized_cgroup1_info.
    cbn [cmd_is String.eqb Ascii.eqb Bool.eqb].
    unfold bind at 1. rewrite Hpath.
    unfold bind at 1. unfold is_bfq at 1. unfold bind at 1.
    fold (schedulerfd h). rewrite Hopen. cbn [orraise ret].
    assert (Hrest : forall st0,
               snd ((table <- get_v1_blkio ;;
                     r <- for_each (cgroup1_blkio_entry h p) table ([], []) ;;
                     ret (fst r)) st0) = st0).
    { apply pure_bind; [intro s; reflexivity|]. intro table.
      apply pure_bind; [|intro r; apply pure_ret].
      apply pure_for_each. intros e a. apply pure_cgroup1_blkio_entry. }
    destruct (PyStr.contains "bfq" (readline iosche)); cbn [negb].
    + unfold bind at 1. cbn [ret]. rewrite Hrest. reflexivity.
    + unfold bind at 1. unfold bind at 1. cbn [set_v1_blkio].
      rewrite Hrest. reflexivity.
  - apply patch_v1_blkio_lookup.
  - intro Hv1. unfold get_cgroup_file_mapping. rewrite Hv1.
    reflexivity.
Qed.

Lemma v1_blkio_table_patch_witness :
  v1_blkio_mapping
    (snd (__get_standardized_cgroup1_info host_v1_cfq "4242" (Some "blkiotune")
            initial_state))
  = [ ("weight", "blkio.weight");
      ("wiops", "blkio.throttle.write_iops_device");
      ("riops", "blkio.throttle.read_iops_device");
      ("rbps", "blkio.throttle.read_bps_device");
      ("wbps", "blkio.throttle.write_bps_device");
      ("weight_device", "blkio.weight_device") ].
Proof.
  exact (proj1 (v1_blkio_table_patch host_v1_cfq "4242" initial_state
                  initial_state (Some "/cg/blkio/vm.scope/libvirt")
                  ("noop deadline [cfq]" ++ nl) eq_refl eq_refl)).
Defined.

(** ** The memory readers *)

Lemma join_opt_inv (p : option string) (name path : string) (st st' : state) :
  join_opt p name st = (Ok path, st') ->
  exists p', p = Some p' /\ path = path_join p' name /\ st' = st.
Proof.
  destruct p as [p'|]; cbn; intro H; inversion H.
  exists p'. repeat split.
Qed.

Lemma cgroup1_mem_entry_inv (h : Host) (p : option string) (mx k name : string)
  (std std' : info) (st st' : state) :
  cgroup1_mem_entry h p mx (k, name) std st = (Ok std', st') ->
  exists p' c,
    p = Some p' /\ open_read h (path_join p' name) = Some c
    /\ std' = kset (Some k)
                (VStr (if String.eqb (PyStr.strip c) mx then "max"
                       else PyStr.strip c)) std
    /\ st' = st.
Proof.
  unfold cgroup1_mem_entry. intro H.
  apply bind_Ok_inv in H as (path & st1 & Hj & H).
  apply join_opt_inv in Hj as (p' & -> & -> & ->).
  apply bind_Ok_inv in H as (c & st2 & Ho & H).
  apply orraise_Ok_inv in Ho as [Ho <-].
  apply ret_Ok_inv in H as [<- <-].
  exists p', c. repeat split. exact Ho.
Qed.

Lemma cgroup2_mem_entry_inv (h : Host) (p : option string) (k name : string)
  (std std' : info) (st st' : state) :
  cgroup2_mem_entry h p (k, name) std st = (Ok std', st') ->
  exists p' c,
    p = Some p' /\ open_read h (path_join p' name) = Some c
    /\ std' = kset (Some k) (VStr (PyStr.strip c)) std
    /\ st' = st.
Proof.
  unfold cgroup2_mem_entry. intro H.
  apply bind_Ok_inv in H as (path & st1 & Hj & H).
  apply join_opt_inv in Hj as (p' & -> & -> & ->).
  apply bind_Ok_inv in H as (c & st2 & Ho & H).
  apply orraise_Ok_inv in Ho as [Ho <-].
  apply ret_Ok_inv in H as [<- <-].
  exists p', c. repeat split. exact Ho.
Qed.

Lemma v1_mem_value_max (page_size : Z) (content : string) :
  v1_mem_value page_size content = "max"
  <-> PyStr.strip content = "max"
      \/ PyStr.strip content = v1_max_mem_value page_size.
Proof.
  unfold v1_mem_value.
  destruct (String.eqb (PyStr.strip content) (v1_max_mem_value page_size)) eqn:E.
  - apply String.eqb_eq in E. tauto.
  - apply String.eqb_neq in E. tauto.
Qed.

(** X5: a map that a memory reader returns has exactly the keys
    hard_limit, soft_limit and swap_hard_limit, in this order, each with the
    trimmed content of its file under the directory that the path
    resolution returned: the memory controller's on v1, the unified one on
    v2 (there is no partial map).  On v2 the content is stored as it is; on
    v1 a content equal to the no-limit byte count of the host's page size
    (one constant for 65536, another for every other size) is stored as
    [max], and the constant of the other page size is not translated. *)
Theorem memtune_reader_maps
  (h : Host) (vm_pid : string) (st st' : state) (r : info) :
  (__get_standardized_cgroup1_info h vm_pid (Some "memtune") st = (Ok r, st') ->
   exists n p st1 c1 c2 c3,
     get_cgroup_path h vm_pid (Some "memory") st = (Ok (Some p), st1)
     /\ PyStr.int (PyStr.strip (getconf_page_size h)) = Some n
     /\ open_read h (path_join p "memory.limit_in_bytes") = Some c1
     /\ open_read h (path_join p "memory.soft_limit_in_bytes") = Some c2
     /\ open_read h (path_join p "memory.memsw.limit_in_bytes") = Some c3
     /\ r = [ (Some "hard_limit", VStr (v1_mem_value n c1));
              (Some "soft_limit", VStr (v1_mem_value n c2));
              (Some "swap_hard_limit", VStr (v1_mem_value n c3)) ])
  /\ (__get_standardized_cgroup2_info h vm_pid (Some "memtune") st = (Ok r, st') ->
      exists p st1 c1 c2 c3,
        get_cgroup_path h vm_pid None st = (Ok (Some p), st1)
        /\ open_read h (path_join p "memory.max") = Some c1
        /\ open_read h (path_join p "memory.high") = Some c2
        /\ open_read h (path_join p "memory.swap.max") = Some c3
        /\ r = [ (Some "hard_limit", VStr (PyStr.strip c1));
                 (Some "soft_limit", VStr (PyStr.strip c2));
                 (Some "swap_hard_limit", VStr (PyStr.strip c3)) ])
  /\ (forall n c, v1_mem_value n c = "max"
                  <-> PyStr.strip c = "max"
                      \/ PyStr.strip c = v1_max_mem_value n)
  /\ (forall n, v1_max_mem_value n
                = if Z.eqb n 65536 then "9223372036854710272"
                  else "9223372036854771712").
Proof.
  split; [|split; [|split; [exact v1_mem_value_max | reflexivity]]].
  - unfold __get_standardized_cgroup1_info.
    cbn [cmd_is String.eqb Ascii.eqb Bool.eqb]. intro H.
    apply bind_Ok_inv in H as (p0 & st1 & Hp & H).
    apply bind_Ok_inv in H as (n & st2 & Hn & H).
    apply orraise_Ok_inv in Hn as [Hn _].
    apply bind_Ok_inv in H as (d & st2' & _ & H).
    apply bind_Ok_inv in H as (u1 & st3 & _ & H).
    apply bind_Ok_inv in H as (u2 & st4 & _ & H).
    cbn [for_each CGROUP_V1_MEM_FILE_MAPPING] in H.
    apply bind_Ok_inv in H as (r1 & t1 & H1 & H).
    apply bind_Ok_inv in H as (r2 & t2 & H2 & H).
    apply bind_Ok_inv in H as (r3 & t3 & H3 & H).
    apply ret_Ok_inv in H as [<- _].
    apply cgroup1_mem_entry_inv in H1 as (p & c1 & -> & Ho1 & -> & _).
    apply cgroup1_mem_entry_inv in H2 as (p2 & c2 & E2 & Ho2 & -> & _).
    apply cgroup1_mem_entry_inv in H3 as (p3 & c3 & E3 & Ho3 & -> & _).
    inversion E2; subst p2. inversion E3; subst p3.
    exists n, p, st1, c1, c2, c3. repeat split; assumption.
  - unfold __get_standardized_cgroup2_info. intro H.
    apply bind_Ok_inv in H as (p0 & st1 & Hp & H).
    cbn [cmd_is String.eqb Ascii.eqb Bool.eqb] in H.
    cbn [for_each CGROUP_V2_MEM_FILE_MAPPING] in H.
    apply bind_Ok_inv in H as (r1 & t1 & H1 & H).
    apply bind_Ok_inv in H as (r2 & t2 & H2 & H).
    apply bind_Ok_inv in H as (r3 & t3 & H3 & H).
    apply ret_Ok_inv in H as [<- _].
    apply cgroup2_mem_entry_inv in H1 as (p & c1 & -> & Ho1 & -> & _).
    apply cgroup2_mem_entry_inv in H2 as (p2 & c2 & E2 & Ho2 & -> & _).
    apply cgroup2_mem_entry_inv in H3 as (p3 & c3 & E3 & Ho3 & -> & _).
    inversion E2; subst p2. inversion E3; subst p3.
    exists p, st1, c1, c2, c3. repeat split; assumption.
Qed.

(** On a host with 4 KiB pages the hard limit file holds the no-limit
    constant of 64 KiB pages: it is not translated, the soft limit is. *)
Example memtune_reader_4k_run :
  fst (__get_standardized_cgroup1_info
         (host_v1_mem ("4096" ++ nl) ("9223372036854710272" ++ nl)) "4242"
         (Some "memtune") initial_state)
  = Ok [ (Some "hard_limit", VStr "9223372036854710272");
         (Some "soft_limit", VStr "max");
         (Some "swap_hard_limit", VStr "4294967296") ].
Proof. vm_compute. reflexivity. Qed.

Lemma memtune_reader_maps_witness :
  exists n p st1 c1 c2 c3,
    get_cgroup_path (host_v1_mem ("65536" ++ nl) ("9223372036854710272" ++ nl))
      "4242" (Some "memory") initial_state = (Ok (Some p), st1)
    /\ PyStr.int (PyStr.strip
                    (getconf_page_size
                       (host_v1_mem ("65536" ++ nl) ("9223372036854710272" ++ nl))))
       = Some n
    /\ open_read (host_v1_mem ("65536" ++ nl) ("9223372036854710272" ++ nl))
         (path_join p "memory.limit_in_bytes") = Some c1
    /\ open_read (host_v1_mem ("65536" ++ nl) ("9223372036854710272" ++ nl))
         (path_join p "memory.soft_limit_in_bytes") = Some c2
    /\ open_read (host_v1_mem ("65536" ++ nl) ("9223372036854710272" ++ nl))
         (path_join p "memory.memsw.limit_in_bytes") = Some c3
    /\ [ (Some "hard_limit", VStr "max");
         (Some "soft_limit", VStr "9223372036854771712");
         (Some "swap_hard_limit", VStr "4294967296") ]
       = [ (Some "hard_limit", VStr (v1_mem_value n c1));
           (Some "soft_limit", VStr (v1_mem_value n c2));
           (Some "swap_hard_limit", VStr (v1_mem_value n c3)) ].
Proof.
  refine (proj1 (memtune_reader_maps
                   (host_v1_mem ("65536" ++ nl) ("9223372036854710272" ++ nl))
                   "4242" initial_state
                   (snd (__get_standardized_cgroup1_info
                           (host_v1_mem ("65536" ++ nl)
                              ("9223372036854710272" ++ nl))
                           "4242" (Some "memtune") initial_state))
                   _) _).
  vm_compute. reflexivity.
Defined.

(** ** The outcomes of the memtune parser *)

(** X6: given a field map, the memtune parser returns a map or raises
    ValueError, nothing else.  It raises exactly when the value of some
    field is a digit string that [int] refuses or whose product by 1024
    [str] refuses; it returns whenever every value that is a digit string
    is made of at most 4296 decimal digits.  A returned map has the keys
    hard_limit, soft_limit and swap_hard_limit whatever the report holds,
    and a key for every field of the report. *)
Theorem memtune_parser_outcome
  (h : Host) (virsh_dict : dict string string) (st : state) :
  ((exists r st',
       get_standardized_virsh_info h (Some "memtune") (Some virsh_dict) st
       = (Ok (Some r), st')
       /\ kget (Some "hard_limit") r <> None
       /\ kget (Some "soft_limit") r <> None
       /\ kget (Some "swap_hard_limit") r <> None
       /\ (forall k v, In (k, v) virsh_dict -> kget (Some k) r <> None))
   \/ (exists st',
         get_standardized_virsh_info h (Some "memtune") (Some virsh_dict) st
         = (Raise ValueError, st')))
  /\ (fst (get_standardized_virsh_info h (Some "memtune") (Some virsh_dict) st)
      = Raise ValueError
      <-> exists k v,
            In (k, v) virsh_dict
            /\ PyStr.isdigit v = true
            /\ (PyStr.int v = None
                \/ exists n, PyStr.int v = Some n
                             /\ PyStr.str (n * 1024) = None))
  /\ ((forall k v,
          In (k, v) virsh_dict -> PyStr.isdigit v = true ->
          PyStr.isdecimal v = true /\ (String.length v <= 4296)%nat) ->
      exists r st',
        get_standardized_virsh_info h (Some "memtune") (Some virsh_dict) st
        = (Ok (Some r), st')).
Proof.
  pose proof (virsh_memtune_spec h virsh_dict st) as Hspec.
  destruct (get_standardized_virsh_info h (Some "memtune") (Some virsh_dict) st)
    as [[[r|]|e] st'].
  - destruct Hspec as (Hall & _ & Hget). rewrite Forall_forall in Hall.
    assert (Hkey : forall k,
               (in_list k memtune_keys = true \/ exists v, In (k, v) virsh_dict) ->
               kget (Some k) r <> None).
    { intros k Hk. rewrite Hget.
      destruct (last_value k virsh_dict None) as [v'|] eqn:El.
      - pose proof (Hall _ (last_value_in _ _ _ El)) as Hv. cbn [snd] in Hv.
        destruct (virsh_mem_value v'); [discriminate | congruence].
      - destruct Hk as [->|[v Hin]]; [discriminate|].
        destruct (last_value_of_in _ _ _ Hin) as [v' Hv']. congruence. }
    split; [|split].
    + left. exists r, st'. split; [reflexivity|].
      repeat split; try (apply Hkey; left; reflexivity).
      intros k v Hin. apply Hkey. right. exists v. exact Hin.
    + cbn [fst]. split; [discriminate|].
      intros (k & v & Hin & Hbad). exfalso.
      apply (Hall _ Hin). cbn [snd]. apply virsh_mem_value_none. exact Hbad.
    + intros _. exists r, st'. reflexivity.
  - destruct Hspec.
  - destruct Hspec as (-> & Hex). apply Exists_exists in Hex as ([k v] & Hin & Hv).
    cbn [snd] in Hv. split; [|split].
    + right. exists st'. reflexivity.
    + cbn [fst]. split; [|reflexivity]. intros _.
      exists k, v. split; [exact Hin|]. apply virsh_mem_value_none, Hv.
    + intro Hsmall. exfalso.
      pose proof (proj1 (virsh_mem_value_none v) Hv) as [Hd _].
      destruct (Hsmall _ _ Hin Hd) as [Hdec Hlen].
      exact (virsh_mem_value_small _ Hdec Hlen Hv).
Qed.

Lemma memtune_parser_outcome_witness :
  exists r st',
    get_standardized_virsh_info host_v1_bare (Some "memtune")
      (Some (convert_virsh_output_to_dict memtune_report)) initial_state
    = (Ok (Some r), st').
Proof.
  refine (proj2 (proj2 (memtune_parser_outcome host_v1_bare
                          (convert_virsh_output_to_dict memtune_report)
                          initial_state)) _).
  intros k v Hin Hd. vm_compute in Hin.
  destruct Hin as [E|[E|[E|[]]]]; inversion E; subst k v;
    try discriminate Hd.
  split; [reflexivity | cbn; lia].
Defined.

(** ** The schedinfo parser *)

Lemma virsh_sched_item_inv (k v : string) (std std' : info) (st st' : state) :
  virsh_sched_item (k, v) std st = (Ok std', st') ->
  (in_list (PyStr.lower k) ["scheduler"] = true /\ std' = std)
  \/ (in_list (PyStr.lower k) ["scheduler"] = false
      /\ std' = kset (Some k) (VStr (virsh_sched_value k v)) std).
Proof.
  unfold virsh_sched_item, virsh_sched_value.
  destruct (in_list (PyStr.lower k) ["scheduler"]).
  - intro H. apply ret_Ok_inv in H as [<- _]. left. split; reflexivity.
  - intro H. right. split; [reflexivity|].
    apply bind_Ok_inv in H as (is_max & st1 & Hm & H).
    destruct (PyStr.contains "quota" k); cbn [andb].
    + destruct (in_list v ["18446744073709551"; "17592186044415"]); cbn [orb].
      * apply ret_Ok_inv in Hm as [<- _]. apply ret_Ok_inv in H as [<- _].
        reflexivity.
      * apply bind_Ok_inv in Hm as (n & st2 & Hn & Hm).
        apply orraise_Ok_inv in Hn as [Hn _]. rewrite Hn.
        apply ret_Ok_inv in Hm as [<- _].
        destruct (Z.ltb n 0); apply ret_Ok_inv in H as [<- _]; reflexivity.
    + apply ret_Ok_inv in Hm as [<- _]. apply ret_Ok_inv in H as [<- _].
      reflexivity.
Qed.

Lemma pure_virsh_sched_item item std : pure_M (virsh_sched_item item std).
Proof.
  intro st. destruct (virsh_sched_item_outcome item std st) as [[s E]|E];
    rewrite E; reflexivity.
Qed.

Lemma virsh_sched_value_cases (field v : string) :
  (PyStr.contains "quota" field = false -> virsh_sched_value field v = v)
  /\ (PyStr.contains "quota" field = true ->
      forall n, PyStr.int v = Some n ->
                in_list v ["18446744073709551"; "17592186044415"] = false ->
                virsh_sched_value field v = if Z.ltb n 0 then "max" else v)
  /\ (PyStr.contains "quota" field = true ->
      in_list v ["18446744073709551"; "17592186044415"] = true ->
      virsh_sched_value field v = "max").
Proof.
  unfold virsh_sched_value. repeat split.
  - intros ->. reflexivity.
  - intros -> n -> ->. reflexivity.
  - intros -> ->. reflexivity.
Qed.

(** X7: a map that the schedinfo parser returns holds, for every report
    field that it keeps, the field's value made canonical: under a field
    whose name contains [quota], a negative integer and the two large
    sentinels become [max]; every other value is stored unchanged.  The
    field whose name is [scheduler] in any letter case is dropped, every
    other field of the report has its key in the map, and the parser logs
    nothing. *)
Theorem schedinfo_parser_values
  (h : Host) (virsh_dict : dict string string) (st st' : state) (r : info) :
  get_standardized_virsh_info h (Some "schedinfo") (Some virsh_dict) st
  = (Ok (Some r), st') ->
  st' = st
  /\ (forall key val,
         kget key r = Some val ->
         exists k v,
           key = Some k /\ In (k, v) virsh_dict
           /\ PyStr.lower k <> "scheduler"
           /\ val = VStr (virsh_sched_value k v))
  /\ (forall k v,
         In (k, v) virsh_dict -> PyStr.lower k <> "scheduler" ->
         kget (Some k) r <> None)
  /\ (forall field v,
         (PyStr.contains "quota" field = false -> virsh_sched_value field v = v)
         /\ (PyStr.contains "quota" field = true ->
             forall n, PyStr.int v = Some n ->
                       in_list v ["18446744073709551"; "17592186044415"] = false ->
                       virsh_sched_value field v = if Z.ltb n 0 then "max" else v)
         /\ (PyStr.contains "quota" field = true ->
             in_list v ["18446744073709551"; "17592186044415"] = true ->
             virsh_sched_value field v = "max")).
Proof.
  unfold get_standardized_virsh_info.
  cbn [cmd_is String.eqb Ascii.eqb Bool.eqb]. intro H.
  apply bind_Ok_inv in H as (l & st1 & Hl & H).
  apply orraise_Ok_inv in Hl as [Hl <-]. inversion Hl; subst l.
  apply bind_Ok_inv in H as (r0 & st2 & Hloop & H).
  apply ret_Ok_inv in H as [E <-]. inversion E; subst r0.
  assert (Hne : forall k, in_list (PyStr.lower k) ["scheduler"] = false
                          <-> PyStr.lower k <> "scheduler").
  { intro k. cbn [in_list existsb]. rewrite orb_false_r. apply String.eqb_neq. }
  split; [|split; [|split; [|exact virsh_sched_value_cases]]].
  - pose proof (pure_for_each virsh_sched_item virsh_dict
                  pure_virsh_sched_item [] st) as Hp.
    rewrite Hloop in Hp. exact Hp.
  - assert (Hall : Forall (virsh_sched_entry_of virsh_dict) r).
    { revert Hloop.
      apply for_each_inv with (P := Forall (virsh_sched_entry_of virsh_dict));
        [|constructor].
      intros [k v] s0 t0 s0' t0' Hin Hs Hit.
      apply virsh_sched_item_inv in Hit as [[_ ->]|[Hk ->]]; [exact Hs|].
      apply Forall_dict_set_kv; [exact key_eqb_spec | | exact Hs].
      exists k, v. repeat split; assumption. }
    intros key val Hget.
    pose proof (Forall_dict_get_kv _ _ _ key_eqb_spec _ _ _ _ Hall Hget)
      as (k & v & Hk & Hin & Hs & Hv).
    cbn [fst snd] in Hk, Hv. exists k, v.
    repeat split; try assumption. apply Hne, Hs.
  - intros k v Hin Hk. revert Hloop.
    apply for_each_reach with (P := fun s => kget (Some k) s <> None)
                              (a0 := (k, v)); [| |exact Hin].
    + intros [k0 v0] s0 t0 s0' t0' Hit Hs.
      apply virsh_sched_item_inv in Hit as [[_ ->]|[_ ->]]; [exact Hs|].
      apply kget_kset_keeps, Hs.
    + intros s0 t0 s0' t0' Hit.
      apply virsh_sched_item_inv in Hit as [[Hs _]|[_ ->]].
      * apply Hne in Hk. congruence.
      * rewrite kget_kset. cbn [key_eqb]. rewrite String.eqb_refl. discriminate.
Qed.

Example schedinfo_parser_run :
  fst (get_standardized_virsh_info host_v1_bare (Some "schedinfo")
         (Some (convert_virsh_output_to_dict schedinfo_report)) initial_state)
  = Ok (Some [ (Some "cpu_shares", VStr "1024");
               (Some "vcpu_period", VStr "100000");
               (Some "vcpu_quota", VStr "max");
               (Some "emulator_quota", VStr "max");
               (Some "global_quota", VStr "50000") ]).
Proof. vm_compute. reflexivity. Qed.

Lemma schedinfo_parser_values_witness :
  exists k v,
    Some "vcpu_quota" = Some k
    /\ In (k, v) (convert_virsh_output_to_dict schedinfo_report)
    /\ PyStr.lower k <> "scheduler"
    /\ VStr "max" = VStr (virsh_sched_value k v).
Proof.
  refine (proj1 (proj2 (schedinfo_parser_values host_v1_bare
                          (convert_virsh_output_to_dict schedinfo_report)
                          initial_state initial_state
                          [ (Some "cpu_shares", VStr "1024");
                            (Some "vcpu_period", VStr "100000");
                            (Some "vcpu_quota", VStr "max");
                            (Some "emulator_quota", VStr "max");
                            (Some "global_quota", VStr "50000") ] _))
            (Some "vcpu_quota") (VStr "max") eq_refl).
  vm_compute. reflexivity.
Defined.

(** ** A device without a value in the blkiotune report *)

Lemma virsh_blkio_values_dangling (h : Host) (mapping : dict string string)
  (io_item : string) (l : list string) :
  l <> [] ->
  PyStr.contains "dev" (last l "") = true ->
  forall acc st acc' st',
    virsh_blkio_values h mapping io_item l acc st <> (Ok acc', st').
Proof.
  induction l as [|w rest IH]; intros Hne Hlast acc st acc' st' H;
    [contradiction|].
  cbn [virsh_blkio_values] in H.
  apply bind_Ok_inv in H as (acc1 & st1 & Hstep & H).
  destruct rest as [|x rest'].
  - cbn [last] in Hlast. rewrite Hlast in Hstep.
    destruct acc as [std dl].
    apply bind_Ok_inv in Hstep as (dev & st2 & _ & Hstep).
    destruct (negb (existsb (key_eqb dev) dl));
      apply bind_Ok_inv in Hstep as (next & st3 & Hn & _);
      apply orraise_Ok_inv in Hn as [Hn _]; discriminate Hn.
  - apply (IH ltac:(discriminate) Hlast acc1 st1 acc' st' H).
Qed.

Lemma for_each_never_ok {A S} (body : A -> S -> M S) (a0 : A) (l : list A) :
  In a0 l ->
  (forall s st s' st', body a0 s st <> (Ok s', st')) ->
  forall s st s' st', for_each body l s st <> (Ok s', st').
Proof.
  intros Hin Hbad s st s' st' H. revert H.
  apply for_each_reach with (P := fun _ : S => False) (a0 := a0);
    [tauto | | exact Hin].
  intros s0 t0 s0' t0' Hb. exact (Hbad _ _ _ _ Hb).
Qed.

(** X8: when a per-device field of the blkiotune report ends in a word
    that names a device (a word containing [dev]) with no value after it,
    the parser never returns a map: it raises. *)
Theorem blkiotune_dangling_device_raises
  (h : Host) (virsh_dict : dict string string) (field key v : string)
  (st : state) :
  In (field, v) virsh_dict ->
  In (field, key) device_fields ->
  PyStr.contains "dev" (last (PyStr.split_char "," v) "") = true ->
  exists e st',
    get_standardized_virsh_info h (Some "blkiotune") (Some virsh_dict) st
    = (Raise e, st').
Proof.
  intros Hin Hf Hlast.
  destruct (get_standardized_virsh_info h (Some "blkiotune") (Some virsh_dict) st)
    as [[r|e] st'] eqn:H; [exfalso | exists e, st'; reflexivity].
  unfold get_standardized_virsh_info in H.
  cbn [cmd_is String.eqb Ascii.eqb Bool.eqb] in H.
  apply bind_Ok_inv in H as (l & st1 & Hl & H).
  apply orraise_Ok_inv in Hl as [Hl _]. inversion Hl; subst l.
  apply bind_Ok_inv in H as (acc & st2 & Hloop & _).
  revert Hloop. apply for_each_never_ok with (a0 := (field, v)); [exact Hin|].
  intros s0 t0 s0' t0' Hit.
  assert (Hv : String.eqb v "" = false).
  { destruct v; [discriminate Hlast | reflexivity]. }
  unfold device_fields in Hf. cbn [tl VIRSH_BLKIOTUNE_OUTPUT_MAPPING In] in Hf.
  unfold virsh_blkio_item in Hit. rewrite Hv in Hit.
  destruct Hf as [E|[E|[E|[E|[]]]]]; inversion E; subst field key;
    cbn [in_list existsb String.eqb Ascii.eqb Bool.eqb orb andb negb dict_keys
           map fst VIRSH_BLKIOTUNE_OUTPUT_MAPPING] in Hit;
    revert Hit; apply virsh_blkio_values_dangling;
    try exact Hlast; apply split_char_not_nil.
Qed.

Lemma blkiotune_dangling_device_raises_witness :
  exists e st',
    get_standardized_virsh_info host_one_disk (Some "blkiotune")
      (Some (convert_virsh_output_to_dict
               "device_read_iops_sec: /dev/sda,500,/dev/sda"))
      initial_state
    = (Raise e, st').
Proof.
  refine (blkiotune_dangling_device_raises host_one_disk
            (convert_virsh_output_to_dict
               "device_read_iops_sec: /dev/sda,500,/dev/sda")
            "device_read_iops_sec" "riops" "/dev/sda,500,/dev/sda"
            initial_state _ _ eq_refl).
  - vm_compute. left. reflexivity.
  - left. reflexivity.
Defined.

(** ** The field map of the first stage *)

Section DictKeys.
Variables K V : Type.
Variable eqb : K -> K -> bool.
Hypothesis eqb_spec : forall a b, eqb a b = true <-> a = b.

Lemma dict_set_keys_in (k x : K) (v : V) (d : dict K V) :
  In x (dict_keys (dict_set eqb k v d)) -> x = k \/ In x (dict_keys d).
Proof.
  induction d as [|[k0 v0] d IH]; cbn [dict_set dict_keys map fst In].
  - intros [<-|[]]. left; reflexivity.
  - destruct (eqb k k0); cbn [map fst In].
    + tauto.
    + intros [<-|H]; [right; left; reflexivity|].
      destruct (IH H) as [->|Hd]; [left; reflexivity | right; right; exact Hd].
Qed.

Lemma dict_set_keys_nodup (k : K) (v : V) (d : dict K V) :
  NoDup (dict_keys d) -> NoDup (dict_keys (dict_set eqb k v d)).
Proof.
  induction d as [|[k0 v0] d IH]; cbn [dict_set dict_keys map fst]; intro H.
  - constructor; [intros [] | constructor].
  - destruct (eqb k k0) eqn:E; cbn [map fst]; [exact H|].
    inversion H as [|x l Hnin Hnd]; subst. constructor.
    + intro Hin. apply dict_set_keys_in in Hin as [->|Hin]; [|contradiction].
      assert (Ek : eqb k k = true) by (apply eqb_spec; reflexivity).
      congruence.
    + apply IH, Hnd.
Qed.

(** With distinct keys, an entry of the list is what the lookup finds. *)
Lemma dict_get_of_in (k : K) (v : V) (d : dict K V) :
  NoDup (dict_keys d) -> In (k, v) d -> dict_get eqb k d = Some v.
Proof.
  induction d as [|[k0 v0] d IH]; cbn [dict_keys map fst In dict_get].
  - intros _ [].
  - intros Hnd [E|Hin].
    + inversion E; subst. assert (Ek : eqb k k = true) by (apply eqb_spec; reflexivity).
      rewrite Ek. reflexivity.
    + inversion Hnd as [|x l Hnin Hnd']; subst.
      destruct (eqb k k0) eqn:E.
      * apply eqb_spec in E. subst k0. exfalso. apply Hnin.
        change (In (fst (k, v)) (map fst d)). apply in_map, Hin.
      * apply IH; assumption.
Qed.
End DictKeys.

Lemma rstrip_by_idem (p : ascii -> bool) (s : string) :
  PyStr.rstrip_by p (PyStr.rstrip_by p s) = PyStr.rstrip_by p s.
Proof.
  induction s as [|c s IH]; cbn [PyStr.rstrip_by]; [reflexivity|].
  destruct (PyStr.rstrip_by p s) as [|a r] eqn:E.
  - destruct (p c) eqn:Ep; cbn [PyStr.rstrip_by]; [reflexivity|].
    rewrite Ep. reflexivity.
  - cbn [PyStr.rstrip_by] in *. rewrite IH. reflexivity.
Qed.

Lemma lstrip_by_head (p : ascii -> bool) (s : string) :
  PyStr.lstrip_by p s = ""
  \/ exists c t, PyStr.lstrip_by p s = String c t /\ p c = false.
Proof.
  induction s as [|c s IH]; cbn [PyStr.lstrip_by]; [left; reflexivity|].
  destruct (p c) eqn:E; [exact IH|]. right. exists c, s. split; [reflexivity | exact E].
Qed.

Lemma strip_by_idem (p : ascii -> bool) (s : string) :
  PyStr.strip_by p (PyStr.strip_by p s) = PyStr.strip_by p s.
Proof.
  unfold PyStr.strip_by.
  assert (Hl : PyStr.lstrip_by p (PyStr.rstrip_by p (PyStr.lstrip_by p s))
               = PyStr.rstrip_by p (PyStr.lstrip_by p s)).
  { destruct (lstrip_by_head p s) as [->|(c & t & -> & Hc)]; [reflexivity|].
    cbn [PyStr.rstrip_by]. rewrite Hc.
    destruct (PyStr.rstrip_by p t); cbn [PyStr.lstrip_by]; rewrite Hc; reflexivity. }
  rewrite Hl. apply rstrip_by_idem.
Qed.

Lemma all_chars_lstrip (q p : ascii -> bool) (s : string) :
  PyStr.all_chars q s = true -> PyStr.all_chars q (PyStr.lstrip_by p s) = true.
Proof.
  induction s as [|c s IH]; cbn [PyStr.lstrip_by PyStr.all_chars]; [auto|].
  intro H. apply andb_true_iff in H as [Hc Hs].
  destruct (p c); [apply IH, Hs|]. cbn [PyStr.all_chars]. rewrite Hc, Hs. reflexivity.
Qed.

Lemma all_chars_rstrip (q p : ascii -> bool) (s : string) :
  PyStr.all_chars q s = true -> PyStr.all_chars q (PyStr.rstrip_by p s) = true.
Proof.
  induction s as [|c s IH]; cbn [PyStr.rstrip_by PyStr.all_chars]; [auto|].
  intro H. apply andb_true_iff in H as [Hc Hs]. specialize (IH Hs).
  destruct (PyStr.rstrip_by p s) as [|a r].
  - destruct (p c); cbn [PyStr.all_chars]; [reflexivity|]. rewrite Hc. reflexivity.
  - cbn [PyStr.all_chars] in *. rewrite Hc, IH. reflexivity.
Qed.

Lemma no_colon_iff (s : string) :
  PyStr.contains ":" s = false <-> PyStr.all_chars not_colon s = true.
Proof.
  induction s as [|a s IH].
  - cbn. tauto.
  - rewrite contains_char_cons. cbn [PyStr.all_chars]. unfold not_colon at 1.
    destruct (Ascii.eqb a ":"); cbn [orb negb andb]; [split; discriminate | exact IH].
Qed.

Lemma before_first_no_colon (s : string) :
  PyStr.all_chars not_colon (PyStr.before_first ":" s) = true.
Proof.
  induction s as [|a s IH]; [reflexivity|].
  cbn [PyStr.before_first]. rewrite prefix_char.
  destruct (Ascii.eqb a ":") eqn:E; [reflexivity|].
  cbn [PyStr.all_chars]. unfold not_colon at 1. rewrite E, IH. reflexivity.
Qed.

Lemma clean_strip_before_first (s : string) :
  clean_text (PyStr.strip (PyStr.before_first ":" s)).
Proof.
  split.
  - apply strip_by_idem.
  - apply no_colon_iff. unfold PyStr.strip, PyStr.strip_by.
    apply all_chars_rstrip, all_chars_lstrip, before_first_no_colon.
Qed.

Lemma convert_line_clean (line : string) :
  clean_text (fst (convert_line line)) /\ clean_text (snd (convert_line line)).
Proof.
  rewrite convert_line_fields. cbn [fst snd]. split.
  - apply clean_strip_before_first.
  - destruct (PyStr.contains ":" line).
    + apply clean_strip_before_first.
    + split; reflexivity.
Qed.

Lemma convert_fold_wellformed (lines : list string) :
  forall d : dict string string,
    NoDup (dict_keys d) ->
    Forall (fun kv => clean_text (fst kv) /\ clean_text (snd kv)) d ->
    let d' := fold_left (fun output_dict output_line =>
                           let '(output_param, output_value) :=
                             convert_line output_line in
                           sset output_param output_value output_dict)
                        lines d in
    NoDup (dict_keys d')
    /\ Forall (fun kv => clean_text (fst kv) /\ clean_text (snd kv)) d'.
Proof.
  induction lines as [|l lines IH]; intros d Hnd Hall; cbn [fold_left].
  - split; assumption.
  - pose proof (convert_line_clean l) as Hc.
    destruct (convert_line l) as [k v]. apply IH.
    + apply dict_set_keys_nodup; [exact String.eqb_eq | exact Hnd].
    + apply Forall_dict_set_kv; [exact String.eqb_eq | exact Hc | exact Hall].
Qed.

(** X9: the field map that the first stage builds has no field name
    twice, so an entry of the map is what a lookup of its name finds; every
    name and every value in it is trimmed and holds no colon; a report that
    is blank gives the empty map. *)
Theorem convert_virsh_output_to_dict_wellformed (stdout_text : string) :
  NoDup (dict_keys (convert_virsh_output_to_dict stdout_text))
  /\ (forall k v,
         In (k, v) (convert_virsh_output_to_dict stdout_text) ->
         sget k (convert_virsh_output_to_dict stdout_text) = Some v
         /\ PyStr.strip k = k /\ PyStr.strip v = v
         /\ PyStr.contains ":" k = false /\ PyStr.contains ":" v = false)
  /\ (PyStr.strip stdout_text = "" ->
      convert_virsh_output_to_dict stdout_text = []).
Proof.
  destruct (convert_fold_wellformed
              (PyStr.splitlines (PyStr.strip stdout_text)) []
              (NoDup_nil _) (Forall_nil _)) as [Hnd Hall].
  fold (convert_virsh_output_to_dict stdout_text) in Hnd, Hall.
  split; [exact Hnd|]. split.
  - intros k v Hin. split.
    + apply dict_get_of_in; [exact String.eqb_eq | exact Hnd | exact Hin].
    + rewrite Forall_forall in Hall.
      destruct (Hall _ Hin) as [[H1 H2] [H3 H4]]. cbn [fst snd] in *.
      repeat split; assumption.
  - intro H. unfold convert_virsh_output_to_dict. rewrite H. reflexivity.
Qed.

(** ** The exact keys of a per-device entry *)

Lemma sset_keys_in {V} (k : string) (v : V) (d : dict string V) :
  In k (dict_keys d) -> dict_keys (sset k v d) = dict_keys d.
Proof.
  unfold sset. induction d as [|[k0 v0] d IH]; cbn [dict_keys map fst In dict_set].
  - intros [].
  - destruct (String.eqb k k0) eqn:E; cbn [map fst]; [reflexivity|].
    intros [H|H].
    + subst k0. rewrite String.eqb_refl in E. discriminate.
    + f_equal. apply IH, H.
Qed.

Lemma sset_keys_new {V} (k : string) (v : V) (d : dict string V) :
  ~ In k (dict_keys d) -> dict_keys (sset k v d) = (dict_keys d ++ [k])%list.
Proof.
  unfold sset. induction d as [|[k0 v0] d IH]; cbn [dict_keys map fst In dict_set].
  - reflexivity.
  - intro H. destruct (String.eqb k k0) eqn:E.
    + apply String.eqb_eq in E. subst k0. tauto.
    + cbn [map fst app]. f_equal. apply IH. tauto.
Qed.

Lemma set_dev_attr_four (dev : option string) (k v : string)
  (std std' : info) (st st' : state) :
  In k four_keys ->
  entries_four std ->
  set_dev_attr dev k v std st = (Ok std', st') ->
  entries_four std'.
Proof.
  intros Hk Hs H. apply set_dev_attr_inv in H as (d & Hget & ->).
  pose proof (Forall_dict_get _ _ _ keys_four _ _ _ Hs Hget) as Hd.
  cbn [keys_four] in Hd.
  apply Forall_dict_set; [|exact Hs].
  cbn [keys_four]. rewrite sset_keys_in; [exact Hd | rewrite Hd; exact Hk].
Qed.

Lemma set_dev_attr_four_or_five (dev : option string) (k v : string)
  (std std' : info) (st st' : state) :
  In k five_keys ->
  entries_four_or_five std ->
  set_dev_attr dev k v std st = (Ok std', st') ->
  entries_four_or_five std'.
Proof.
  intros Hk Hs H. apply set_dev_attr_inv in H as (d & Hget & ->).
  pose proof (Forall_dict_get _ _ _ keys_four_or_five _ _ _ Hs Hget) as Hd.
  cbn [keys_four_or_five] in Hd.
  apply Forall_dict_set; [|exact Hs].
  cbn [keys_four_or_five]. destruct Hd as [Hd|Hd].
  - destruct (in_dec string_dec k four_keys) as [Hin|Hnin].
    + left. rewrite sset_keys_in; [exact Hd | rewrite Hd; exact Hin].
    + right. rewrite sset_keys_new; [|rewrite Hd; exact Hnin].
      rewrite Hd. unfold five_keys in *. apply in_app_or in Hk as [Hk|Hk];
        [contradiction|]. destruct Hk as [<-|[]]. reflexivity.
  - right. rewrite sset_keys_in; [exact Hd | rewrite Hd; exact Hk].
Qed.

Lemma in_list_In (x : string) (l : list string) :
  in_list x l = true -> In x l.
Proof.
  unfold in_list. intro H. apply existsb_exists in H as (y & Hy & E).
  apply String.eqb_eq in E. subst y. exact Hy.
Qed.

Lemma cgroup1_blkio_line_keys (cg_key line : string)
  (acc acc' : info * list string) (st st' : state) :
  In cg_key five_keys ->
  entries_four_or_five (fst acc) ->
  cgroup1_blkio_line cg_key line acc st = (Ok acc', st') ->
  entries_four_or_five (fst acc').
Proof.
  destruct acc as [std dev_list]. cbn [fst]. intros Hk Hs H.
  unfold cgroup1_blkio_line in H.
  apply bind_Ok_inv in H as (dev_num & st1 & _ & H).
  apply bind_Ok_inv in H as (dev_cg_value & st2 & _ & H).
  apply bind_Ok_inv in H as (std2 & st3 & Hset & H).
  apply ret_Ok_inv in H as [<- _]. cbn [fst].
  apply (set_dev_attr_four_or_five _ _ _ _ _ _ _ Hk) with (2 := Hset).
  destruct (negb (in_list dev_num dev_list)); [|exact Hs].
  apply Forall_dict_set; [left; reflexivity | exact Hs].
Qed.

Lemma cgroup1_blkio_entry_keys (h : Host) (cgroup_path : option string)
  (entry : string * string) (acc acc' : info * list string) (st st' : state) :
  entries_four_or_five (fst acc) ->
  cgroup1_blkio_entry h cgroup_path entry acc st = (Ok acc', st') ->
  entries_four_or_five (fst acc').
Proof.
  destruct entry as [cg_key cg_file_name]. intros Hs H.
  unfold cgroup1_blkio_entry in H.
  apply bind_Ok_inv in H as (cg_file_path & st1 & _ & H).
  apply bind_Ok_inv in H as (cg_file & st2 & _ & H).
  match type of H with
  | (if _ then for_each _ _ ?a else _) _ = _ =>
      assert (Ha : entries_four_or_five (fst a))
  end.
  { destruct (in_list cg_key ["weight"]); [|exact Hs].
    cbn [fst]. apply Forall_dict_set; [exact I | exact Hs]. }
  destruct (in_list cg_key ["rbps"; "wbps"; "riops"; "wiops"; "weight_device"])
    eqn:Ek.
  - apply in_list_In in Ek. revert H.
    apply for_each_inv with (P := fun a => entries_four_or_five (fst a));
      [|exact Ha].
    intros l s0 st0 s0' st0' _. apply cgroup1_blkio_line_keys. exact Ek.
  - apply ret_Ok_inv in H as [<- _]. exact Ha.
Qed.

Lemma virsh_blkio_values_keys (h : Host) (mapping : dict string string)
  (io_item : string) (l : list string) :
  (forall k, sget io_item mapping = Some k -> In k four_keys) ->
  forall (acc acc' : info * list (option string)) (st st' : state),
    entries_four (fst acc) ->
    virsh_blkio_values h mapping io_item l acc st = (Ok acc', st') ->
    entries_four (fst acc').
Proof.
  intro Hmap.
  induction l as [|word rest IH]; intros acc acc' st st' Hs H.
  - apply ret_Ok_inv in H as [<- _]. exact Hs.
  - cbn [virsh_blkio_values] in H.
    apply bind_Ok_inv in H as (acc1 & st1 & Hstep & H).
    apply (IH acc1 acc' st1 st'); [|exact H].
    destruct (PyStr.contains "dev" word).
    + destruct acc as [std dev_list]. cbn [fst] in Hs.
      apply bind_Ok_inv in Hstep as (dev_num & st2 & _ & Hstep).
      destruct (negb (existsb (key_eqb dev_num) dev_list));
        apply bind_Ok_inv in Hstep as (next & st3 & _ & Hstep);
        apply bind_Ok_inv in Hstep as (k & st4 & Hk & Hstep);
        apply orraise_Ok_inv in Hk as [Hk _];
        apply bind_Ok_inv in Hstep as (std2 & st5 & Hset & Hstep);
        apply ret_Ok_inv in Hstep as [<- _]; cbn [fst];
        apply (set_dev_attr_four _ _ _ _ _ _ _ (Hmap _ Hk)) with (2 := Hset).
      * apply Forall_dict_set; [reflexivity | exact Hs].
      * exact Hs.
    + apply ret_Ok_inv in Hstep as [<- _]. exact Hs.
Qed.

Lemma virsh_mapping_device_key (io_item k : string) :
  in_list io_item ["weight"] = false ->
  sget io_item VIRSH_BLKIOTUNE_OUTPUT_MAPPING = Some k ->
  In k four_keys.
Proof.
  cbn [in_list existsb]. rewrite orb_false_r. intro Hw.
  unfold sget, VIRSH_BLKIOTUNE_OUTPUT_MAPPING. cbn [dict_get]. rewrite Hw.
  repeat match goal with
         | |- context [String.eqb io_item ?s] => destruct (String.eqb io_item s)
         end; intro H; inversion H; cbn; tauto.
Qed.

Lemma virsh_blkio_item_keys (h : Host) (item : string * string)
  (acc acc' : info * list (option string)) (st st' : state) :
  entries_four (fst acc) ->
  virsh_blkio_item h VIRSH_BLKIOTUNE_OUTPUT_MAPPING item acc st = (Ok acc', st') ->
  entries_four (fst acc').
Proof.
  destruct item as [io_item io_item_value]. intros Hs H.
  unfold virsh_blkio_item in H.
  destruct (in_list io_item ["weight"]) eqn:Ew.
  - apply ret_Ok_inv in H as [<- _]. cbn [fst].
    apply Forall_dict_set; [exact I | exact Hs].
  - destruct (in_list io_item (dict_keys VIRSH_BLKIOTUNE_OUTPUT_MAPPING)
              && negb (String.eqb io_item_value ""))%bool.
    + revert H. apply virsh_blkio_values_keys; [|exact Hs].
      intro k. apply virsh_mapping_device_key, Ew.
    + apply ret_Ok_inv in H as [<- _]. exact Hs.
Qed.

(** X10: a per-device entry of a map that the blkiotune parser returns has
    exactly the keys rbps, wbps, riops and wiops, in this order; one of a
    map that the v1 reader returns has these four, followed by
    weight_device when a weight_device file named the device.  A device
    sub-map never gets any other key. *)
Theorem blkio_device_entry_keys
  (h : Host) (vm_pid : string) (st st' : state) (r : info)
  (key : option string) (d : dict string string) :
  kget key r = Some (VDict d) ->
  (forall virsh_dict,
      get_standardized_virsh_info h (Some "blkiotune") virsh_dict st
      = (Ok (Some r), st') ->
      dict_keys d = ["rbps"; "wbps"; "riops"; "wiops"])
  /\ (__get_standardized_cgroup1_info h vm_pid (Some "blkiotune") st = (Ok r, st') ->
      dict_keys d = ["rbps"; "wbps"; "riops"; "wiops"]
      \/ dict_keys d = ["rbps"; "wbps"; "riops"; "wiops"; "weight_device"]).
Proof.
  intro Hget. split.
  - intros virsh_dict H.
    assert (Hall : entries_four r).
    { unfold get_standardized_virsh_info in H.
      cbn [cmd_is String.eqb Ascii.eqb Bool.eqb] in H.
      apply bind_Ok_inv in H as (l & st1 & _ & H).
      apply bind_Ok_inv in H as (acc & st2 & Hloop & H).
      apply ret_Ok_inv in H as [E _]. inversion E; subst r.
      revert Hloop.
      apply for_each_inv with (P := fun a => entries_four (fst a)).
      - intros e s0 st0 s0' st0' _. apply virsh_blkio_item_keys.
      - constructor. }
    exact (Forall_dict_get _ _ _ keys_four _ _ _ Hall Hget).
  - intro H.
    assert (Hall : entries_four_or_five r).
    { unfold __get_standardized_cgroup1_info in H.
      cbn [cmd_is String.eqb Ascii.eqb Bool.eqb] in H.
      apply bind_Ok_inv in H as (cgroup_path & st1 & _ & H).
      apply bind_Ok_inv in H as (bfq & st2 & _ & H).
      apply bind_Ok_inv in H as (u & st3 & _ & H).
      apply bind_Ok_inv in H as (table & st4 & _ & H).
      apply bind_Ok_inv in H as (acc & st5 & Hloop & H).
      apply ret_Ok_inv in H as [<- _].
      revert Hloop.
      apply for_each_inv with (P := fun a => entries_four_or_five (fst a)).
      - intros e s0 st0 s0' st0' _. apply cgroup1_blkio_entry_keys.
      - constructor. }
    exact (Forall_dict_get _ _ _ keys_four_or_five _ _ _ Hall Hget).
Qed.

Example cgroup1_blkiotune_cfq_run :
  fst (__get_standardized_cgroup1_info host_v1_cfq "4242" (Some "blkiotune")
         initial_state)
  = Ok [ (Some "weight", VStr "500");
         (Some "8:0", VDict [("rbps", "max"); ("wbps", "max");
                             ("riops", "500"); ("wiops", "max");
                             ("weight_device", "300")]) ].
Proof. vm_compute. reflexivity. Qed.

Lemma blkio_device_entry_keys_witness :
  dict_keys [("rbps", "max"); ("wbps", "max"); ("riops", "500");
             ("wiops", "max"); ("weight_device", "300")]
  = ["rbps"; "wbps"; "riops"; "wiops"]
  \/ dict_keys [("rbps", "max"); ("wbps", "max"); ("riops", "500");
                ("wiops", "max"); ("weight_device", "300")]
     = ["rbps"; "wbps"; "riops"; "wiops"; "weight_device"].
Proof.
  refine (proj2 (blkio_device_entry_keys host_v1_cfq "4242" initial_state
                   (snd (__get_standardized_cgroup1_info host_v1_cfq "4242"
                           (Some "blkiotune") initial_state))
                   [ (Some "weight", VStr "500");
                     (Some "8:0", VDict [("rbps", "max"); ("wbps", "max");
                                         ("riops", "500"); ("wiops", "max");
                                         ("weight_device", "300")]) ]
                   (Some "8:0") _ eq_refl) _).
  vm_compute. reflexivity.
Defined.

(** ** What path resolution returns *)

(** X11: a path that the resolver returns exists, and nothing is logged;
    when it returns [None] it found a path that does not exist and logged
    one error that names it.  On v1 the path is the one the hierarchy walk
    gives for the process id read as an integer and the given controller;
    on v2 the controller plays no part. *)
Theorem get_cgroup_path_post
  (h : Host) (vm_pid : string) (controller : option string)
  (st st' : state) (res : option string) :
  get_cgroup_path h vm_pid controller st = (Ok res, st') ->
  match res with
  | Some p => path_exists h p = true /\ st' = st
  | None =>
      exists p, path_exists h p = false
                /\ st' = log_add st ERROR ("cgroup path '" ++ p ++ "' doesn't exist")
  end
  /\ (is_cgroup_v2_enabled h = false ->
      exists n p,
        PyStr.int vm_pid = Some n
        /\ resolve_task_cgroup_path h n controller = Some p
        /\ (res = Some p \/ (res = None /\ path_exists h p = false)))
  /\ (is_cgroup_v2_enabled h = true ->
      forall other,
        get_cgroup_path h vm_pid other st
        = get_cgroup_path h vm_pid controller st).
Proof.
  unfold get_cgroup_path at 1. intro H.
  apply bind_Ok_inv in H as (cp & st1 & Hres & H).
  assert (Hfin : (path_exists h cp = true /\ res = Some cp /\ st' = st1)
                 \/ (path_exists h cp = false /\ res = None
                     /\ st' = log_add st1 ERROR
                                ("cgroup path '" ++ cp ++ "' doesn't exist"))).
  { destruct (path_exists h cp); cbn [negb] in H.
    - left. apply ret_Ok_inv in H as [<- <-]. repeat split.
    - right. cbv [bind LOG ret] in H. inversion H. repeat split. }
  clear H.
  assert (Hst : st1 = st
                /\ (is_cgroup_v2_enabled h = false ->
                    exists n, PyStr.int vm_pid = Some n
                              /\ resolve_task_cgroup_path h n controller = Some cp)).
  { destruct (is_cgroup_v2_enabled h).
    - apply bind_Ok_inv in Hres as (mnts & s1 & H1 & Hres).
      apply orraise_Ok_inv in H1 as [_ <-].
      apply bind_Ok_inv in Hres as (cg & s2 & H2 & Hres).
      apply orraise_Ok_inv in H2 as [_ <-].
      apply bind_Ok_inv in Hres as (mp & s3 & H3 & Hres).
      apply orraise_Ok_inv in H3 as [_ <-].
      apply bind_Ok_inv in Hres as (sc & s4 & H4 & Hres).
      apply orraise_Ok_inv in H4 as [_ <-].
      split; [|discriminate].
      match type of Hres with
      | (if ?b then _ else _) _ = _ => destruct b
      end; apply ret_Ok_inv in Hres as [_ <-]; reflexivity.
    - apply bind_Ok_inv in Hres as (n & s1 & H1 & Hres).
      apply orraise_Ok_inv in H1 as [Hn <-].
      apply orraise_Ok_inv in Hres as [Hp <-].
      split; [reflexivity|]. intros _. exists n. split; assumption. }
  destruct Hst as [-> Hv1].
  split; [|split].
  - destruct Hfin as [(He & -> & ->)|(He & -> & ->)].
    + split; [exact He | reflexivity].
    + exists cp. split; [exact He | reflexivity].
  - intro Hv. destruct (Hv1 Hv) as (n & Hn & Hp). exists n, cp.
    split; [exact Hn|]. split; [exact Hp|].
    destruct Hfin as [(He & -> & _)|(He & -> & _)]; [left | right]; auto.
  - intros Hv other. unfold get_cgroup_path. rewrite Hv. reflexivity.
Qed.

Lemma get_cgroup_path_post_witness :
  path_exists host_v1_sched "/cg/cpu/vm.scope/libvirt/emulator" = true
  /\ initial_state = initial_state.
Proof.
  exact (proj1 (get_cgroup_path_post host_v1_sched "4242" (Some "cpu,cpuacct")
                  initial_state initial_state
                  (Some "/cg/cpu/vm.scope/libvirt/emulator") eq_refl)).
Defined.

(** ** A device on several lines of io.max *)

Lemma for_each_app {A S} (body : A -> S -> M S) (l1 l2 : list A) :
  forall s st s' st',
    for_each body (l1 ++ l2) s st = (Ok s', st') ->
    exists s1 st1,
      for_each body l1 s st = (Ok s1, st1)
      /\ for_each body l2 s1 st1 = (Ok s', st').
Proof.
  induction l1 as [|a l1 IH]; intros s st s' st' H.
  - exists s, st. split; [reflexivity | exact H].
  - cbn [app for_each] in H. apply bind_Ok_inv in H as (s0 & st0 & H0 & H).
    destruct (IH _ _ _ _ H) as (s1 & st1 & H1 & H2).
    exists s1, st1. split; [|exact H2].
    cbn [for_each]. unfold bind. rewrite H0. exact H1.
Qed.

Lemma cgroup2_iomax_word_pair (word : string) (d d' : dict string string)
  (st st' : state) :
  cgroup2_iomax_word word d st = (Ok d', st') ->
  d' = sset (PyStr.before_first "=" word) (after_first "=" word) d.
Proof.
  unfold cgroup2_iomax_word.
  rewrite (split_char_first "=" word).
  destruct (PyStr.contains "=" word); [|discriminate].
  destruct (PyStr.split_char "=" (after_first "=" word)) as [|value [|x l]] eqn:E;
    try discriminate.
  intro H. apply ret_Ok_inv in H as [<- _].
  apply split_char_single in E. rewrite E. reflexivity.
Qed.

Lemma cgroup2_iomax_words_fold (words : list string) :
  forall (d d' : dict string string) (st st' : state),
    for_each cgroup2_iomax_word words d st = (Ok d', st') ->
    d' = fold_left (fun d word =>
                      sset (PyStr.before_first "=" word) (after_first "=" word) d)
                   words d.
Proof.
  induction words as [|w words IH]; intros d d' st st' H.
  - apply ret_Ok_inv in H as [<- _]. reflexivity.
  - cbn [for_each] in H. apply bind_Ok_inv in H as (d1 & st1 & Hw & H).
    apply cgroup2_iomax_word_pair in Hw. subst d1.
    cbn [fold_left]. exact (IH _ _ _ _ H).
Qed.

Lemma cgroup2_iomax_line_entry (line : string) (std r : info) (st st' : state) :
  cgroup2_iomax_line line std st = (Ok r, st') ->
  exists dev,
    nth_error (iomax_words line) 0 = Some dev
    /\ r = kset (Some dev) (VDict (iomax_entry line)) std.
Proof.
  unfold cgroup2_iomax_line. intro H.
  apply bind_Ok_inv in H as (dev & st1 & Hdev & H).
  apply orraise_Ok_inv in Hdev as [Hdev _].
  apply bind_Ok_inv in H as (d & st2 & Hd & H).
  apply ret_Ok_inv in H as [<- _].
  apply cgroup2_iomax_words_fold in Hd. subst d.
  exists dev. split; [exact Hdev | reflexivity].
Qed.

(** X12: on v2 the entry of a device is the sub-map of the last line of
    [io.max] that names the device: an earlier line for the same device is
    replaced as a whole, its keys are not merged into the entry. *)
Theorem cgroup2_iomax_last_line_wins
  (h : Host) (vm_pid : string) (st st' : state) (r : info) :
  __get_standardized_cgroup2_info h vm_pid (Some "blkiotune") st = (Ok r, st') ->
  exists path iomax_file,
    open_read h path = Some iomax_file
    /\ forall pre line post dev,
         PyStr.readlines iomax_file = (pre ++ line :: post)%list ->
         nth_error (iomax_words line) 0 = Some dev ->
         (forall l, In l post -> nth_error (iomax_words l) 0 <> Some dev) ->
         kget (Some dev) r = Some (VDict (iomax_entry line)).
Proof.
  unfold __get_standardized_cgroup2_info. intro H.
  apply bind_Ok_inv in H as (cgroup_path & st1 & _ & H).
  cbn [cmd_is String.eqb Ascii.eqb Bool.eqb] in H.
  apply bind_Ok_inv in H as (wn & st2 & _ & H).
  apply bind_Ok_inv in H as (im & st3 & _ & H).
  apply bind_Ok_inv in H as (p & st4 & _ & H).
  apply bind_Ok_inv in H as (weight_file & st5 & _ & H).
  apply bind_Ok_inv in H as (iomax_file & st6 & Hopen & H).
  apply orraise_Ok_inv in Hopen as [Hopen _].
  exists (path_join p im), iomax_file. split; [exact Hopen|].
  intros pre line post dev Hlines Hdev Hpost.
  rewrite Hlines in H.
  apply for_each_app in H as (s1 & t1 & _ & H).
  cbn [for_each] in H. apply bind_Ok_inv in H as (s2 & t2 & Hline & H).
  apply cgroup2_iomax_line_entry in Hline as (dev' & Hdev' & ->).
  rewrite Hdev in Hdev'. inversion Hdev'; subst dev'.
  revert H.
  apply for_each_inv
    with (P := fun s => kget (Some dev) s = Some (VDict (iomax_entry line))).
  - intros l s0 t0 s0' t0' Hin Hs Hl.
    apply cgroup2_iomax_line_entry in Hl as (dev' & Hd' & ->).
    rewrite kget_kset. cbn [key_eqb].
    destruct (String.eqb dev dev') eqn:E; [|exact Hs].
    apply String.eqb_eq in E. subst dev'. destruct (Hpost _ Hin Hd').
  - rewrite kget_kset. cbn [key_eqb]. rewrite String.eqb_refl. reflexivity.
Qed.

Example cgroup2_two_lines_run :
  fst (__get_standardized_cgroup2_info host_v2_two_lines "4242"
         (Some "blkiotune") initial_state)
  = Ok [ (Some "weight", VStr "100");
         (Some "8:0", VDict [("riops", "200")]);
         (Some "8:16", VDict [("rbps", "max"); ("wbps", "max");
                              ("riops", "500"); ("wiops", "max")]) ].
Proof. vm_compute. reflexivity. Qed.

Lemma cgroup2_iomax_last_line_wins_witness :
  exists path iomax_file,
    open_read host_v2_two_lines path = Some iomax_file
    /\ forall pre line post dev,
         PyStr.readlines iomax_file = (pre ++ line :: post)%list ->
         nth_error (iomax_words line) 0 = Some dev ->
         (forall l, In l post -> nth_error (iomax_words l) 0 <> Some dev) ->
         kget (Some dev)
           [ (Some "weight", VStr "100");
             (Some "8:0", VDict [("riops", "200")]);
             (Some "8:16", VDict [("rbps", "max"); ("wbps", "max");
                                  ("riops", "500"); ("wiops", "max")]) ]
         = Some (VDict (iomax_entry line)).
Proof.
  refine (cgroup2_iomax_last_line_wins host_v2_two_lines "4242" initial_state
            (snd (__get_standardized_cgroup2_info host_v2_two_lines "4242"
                    (Some "blkiotune") initial_state))
            _ _).
  vm_compute. reflexivity.
Defined.

(** ** The directory above libvirt *)

Lemma prefix_cons (a b : ascii) (s t : string) :
  prefix (String a s) (String b t) = (Ascii.eqb a b && prefix s t)%bool.
Proof.
  cbn [prefix]. destruct (ascii_dec a b) as [->|N].
  - rewrite Ascii.eqb_refl. reflexivity.
  - apply Ascii.eqb_neq in N. rewrite N. reflexivity.
Qed.

Lemma prefix_nil (s : string) : prefix "" s = true.
Proof. destruct s; reflexivity. Qed.

Lemma prefix_trans (a b c : string) :
  prefix a b = true -> prefix b c = true -> prefix a c = true.
Proof.
  revert b c. induction a as [|x a IH]; intros b c Hab Hbc.
  - apply prefix_nil.
  - destruct b as [|y b]; [discriminate|]. destruct c as [|z c]; [discriminate|].
    rewrite prefix_cons in *.
    apply andb_true_iff in Hab as [E1 Hab]. apply andb_true_iff in Hbc as [E2 Hbc].
    apply Ascii.eqb_eq in E1, E2. subst y z. rewrite Ascii.eqb_refl.
    exact (IH _ _ Hab Hbc).
Qed.

Lemma before_first_prefix (sub s : string) :
  prefix (PyStr.before_first sub s) s = true.
Proof.
  induction s as [|c s IH]; cbn [PyStr.before_first].
  - destruct (prefix sub ""); reflexivity.
  - destruct (prefix sub (String c s)); [reflexivity|].
    rewrite prefix_cons, Ascii.eqb_refl. exact IH.
Qed.

(** The text before the first occurrence holds no occurrence. *)
Lemma before_first_no_sub (sub s : string) :
  sub <> "" -> PyStr.contains sub (PyStr.before_first sub s) = false.
Proof.
  intro Hne. induction s as [|c s IH]; cbn [PyStr.before_first].
  - destruct (prefix sub "") eqn:E; cbn [PyStr.contains].
    + destruct sub; [contradiction | reflexivity].
    + rewrite E. reflexivity.
  - destruct (prefix sub (String c s)) eqn:E.
    + cbn [PyStr.contains]. destruct sub; [contradiction | reflexivity].
    + cbn [PyStr.contains]. rewrite IH.
      destruct (prefix sub (String c (PyStr.before_first sub s))) eqn:E2;
        [|reflexivity].
      assert (Hp : prefix (String c (PyStr.before_first sub s)) (String c s) = true).
      { rewrite prefix_cons, Ascii.eqb_refl. apply before_first_prefix. }
      rewrite (prefix_trans _ _ _ E2 Hp) in E. discriminate.
Qed.

Lemma prefix_drop (sub s : string) :
  prefix sub s = true -> s = sub ++ drop (String.length sub) s.
Proof.
  revert s. induction sub as [|a sub IH]; intros s H.
  - reflexivity.
  - destruct s as [|b s]; [discriminate|]. rewrite prefix_cons in H.
    apply andb_true_iff in H as [E H]. apply Ascii.eqb_eq in E. subst b.
    cbn [String.length drop append]. f_equal. apply IH, H.
Qed.

(** A text with an occurrence is the text before it, the occurrence and
    the text after it. *)
Lemma split_around_first (sub s : string) :
  PyStr.contains sub s = true ->
  s = PyStr.before_first sub s ++ sub ++ after_first sub s.
Proof.
  induction s as [|c s IH]; cbn [PyStr.contains PyStr.before_first after_first].
  - destruct (prefix sub "") eqn:E; [|discriminate].
    intros _. cbn [append]. rewrite <- (prefix_drop _ _ E). reflexivity.
  - destruct (prefix sub (String c s)) eqn:E.
    + intros _. cbn [append]. apply prefix_drop, E.
    + intro H. cbn [append]. f_equal. apply IH, H.
Qed.

Lemma before_first_all (sub s : string) :
  PyStr.contains sub s = false -> PyStr.before_first sub s = s.
Proof.
  induction s as [|c s IH]; cbn [PyStr.contains PyStr.before_first].
  - destruct (prefix sub ""); [discriminate | reflexivity].
  - destruct (prefix sub (String c s)); [discriminate|].
    intro H. rewrite (IH H). reflexivity.
Qed.

(** X13: the file of the keys weight and cpu_shares is looked up in the
    directory text that precedes the first [libvirt] of the resolved path:
    the path is that text, [libvirt] and a remainder, and the text itself
    holds no [libvirt]; every other key, and every key when the path holds
    no [libvirt], uses the resolved path itself.  Without a resolved path
    the lookup raises TypeError. *)
Theorem get_cg_file_path_above_libvirt
  (cg_key cg_path cg_file_name : string) (st : state) :
  (exists cg_dir,
      __get_cg_file_path cg_key (Some cg_path) cg_file_name st
      = (Ok (path_join cg_dir cg_file_name), st)
      /\ (if (in_list cg_key ["weight"; "cpu_shares"]
              && PyStr.contains "libvirt" cg_path)%bool
          then PyStr.contains "libvirt" cg_dir = false
               /\ exists rest, cg_path = cg_dir ++ "libvirt" ++ rest
          else cg_dir = cg_path))
  /\ __get_cg_file_path cg_key None cg_file_name st = (Raise TypeError, st)
  /\ (PyStr.contains "libvirt" cg_path = false ->
      PyStr.before_first "libvirt" cg_path = cg_path).
Proof.
  split; [|split; [reflexivity | apply before_first_all]].
  unfold __get_cg_file_path.
  destruct (in_list cg_key ["weight"; "cpu_shares"]); cbn [andb].
  - destruct (PyStr.contains "libvirt" cg_path) eqn:E.
    + exists (PyStr.before_first "libvirt" cg_path). split; [reflexivity|].
      split; [apply before_first_no_sub; discriminate|].
      exists (after_first "libvirt" cg_path). apply split_around_first, E.
    + exists cg_path. split; reflexivity.
  - exists cg_path. split; reflexivity.
Qed.

(** * Block I/O entries and stored values *)

(** ** The values of the per-device entries *)

Lemma last_for_app (D : option string) (l1 l2 : list (option string * string))
  (init : option string) :
  last_for D (l1 ++ l2) init = last_for D l2 (last_for D l1 init).
Proof. apply fold_left_app. Qed.

Lemma last_for_notin (D : option string) (l : list (option string * string))
  (init : option string) :
  (forall v, ~ In (D, v) l) -> last_for D l init = init.
Proof.
  revert init. induction l as [|[D' v'] l IH]; intros init H; [reflexivity|].
  unfold last_for. cbn [fold_left fst snd]. fold (last_for D l).
  destruct (key_eqb D D') eqn:E.
  - apply key_eqb_spec in E. subst D'. destruct (H v'). left. reflexivity.
  - apply IH. intros v Hin. apply (H v). right. exact Hin.
Qed.

Lemma last_for_snoc_same (D : option string) (l : list (option string * string))
  (v : string) (init : option string) :
  last_for D (l ++ [(D, v)]) init = Some v.
Proof.
  rewrite last_for_app. unfold last_for at 1. cbn [fold_left fst snd].
  rewrite (proj2 (key_eqb_spec D D) eq_refl). reflexivity.
Qed.

Lemma last_for_snoc_other (D D' : option string)
  (l : list (option string * string)) (v : string) (init : option string) :
  key_eqb D D' = false ->
  last_for D (l ++ [(D', v)]) init = last_for D l init.
Proof.
  intro E. rewrite last_for_app. unfold last_for at 1. cbn [fold_left fst snd].
  rewrite E. reflexivity.
Qed.

Lemma dev_inv_ext (P P' : string -> list (option string * string))
  (std : info) (seen seen' : option string -> bool) :
  (forall k, P k = P' k) -> (forall D, seen D = seen' D) ->
  dev_inv P std seen -> dev_inv P' std seen'.
Proof.
  intros HP Hs (H1 & H2 & H3). split; [|split].
  - intro D. rewrite <- Hs. apply H1.
  - intro D. rewrite <- Hs, H2. split; intros (k & v & H); exists k, v.
    + rewrite <- HP. exact H.
    + rewrite HP. exact H.
  - intros D d Hd k. rewrite <- HP. apply H3, Hd.
Qed.

Lemma dev_inv_entries (P : string -> list (option string * string))
  (std : info) (seen : option string -> bool) :
  dev_inv P std seen -> dev_entries P std.
Proof.
  intros (H1 & H2 & H3). split; [|exact H3].
  intro D. rewrite <- H1. apply H2.
Qed.

(** One assignment [std[D][k0] = v], after the entry of a device not yet
    seen has been seeded with the defaults. *)
Lemma dev_inv_step (P : string -> list (option string * string))
  (std std' : info) (seen : option string -> bool)
  (D : option string) (k0 v : string) (st st' : state) :
  dev_inv P std seen ->
  set_dev_attr D k0 v
    (if negb (seen D) then kset D (VDict dev_init_dict) std else std) st
  = (Ok std', st') ->
  dev_inv (add_pairs P k0 [(D, v)]) std'
    (fun D' => (seen D' || key_eqb D' D)%bool).
Proof.
  intros (H1 & H2 & H3) Hset.
  apply set_dev_attr_inv in Hset as (d & Hd & ->).
  assert (Hdd : forall k, sget k d = last_for D (P k) (sget k dev_init_dict)).
  { destruct (seen D) eqn:Es; cbn [negb] in Hd.
    - intro k. apply H3, Hd.
    - rewrite kget_kset, (proj2 (key_eqb_spec D D) eq_refl) in Hd.
      inversion Hd; subst d. intro k. symmetry. apply last_for_notin.
      intros x Hin.
      assert (Hs : seen D = true) by (apply H2; exists k, x; exact Hin).
      congruence. }
  assert (Hget : forall D',
             kget D' (kset D (VDict (sset k0 v d))
                        (if negb (seen D) then kset D (VDict dev_init_dict) std
                         else std))
             = if key_eqb D' D then Some (VDict (sset k0 v d)) else kget D' std).
  { intro D'. rewrite kget_kset. destruct (key_eqb D' D) eqn:E; [reflexivity|].
    destruct (negb (seen D)); [|reflexivity]. rewrite kget_kset, E. reflexivity. }
  split; [|split].
  - intro D'. rewrite Hget. destruct (key_eqb D' D).
    + rewrite orb_true_r. split; [eexists; reflexivity | reflexivity].
    + rewrite orb_false_r. apply H1.
  - intro D'. unfold add_pairs. split.
    + intro Hs. apply orb_true_iff in Hs as [Hs|Hs].
      * apply H2 in Hs as (k & x & Hin). exists k, x.
        destruct (String.eqb k k0); [apply in_or_app; left|]; exact Hin.
      * apply key_eqb_spec in Hs. subst D'. exists k0, v.
        rewrite String.eqb_refl. apply in_or_app. right. left. reflexivity.
    + intros (k & x & Hin). apply orb_true_iff.
      destruct (String.eqb k k0).
      * apply in_app_or in Hin as [Hin|[E|[]]].
        -- left. apply H2. exists k, x. exact Hin.
        -- inversion E; subst. right. apply key_eqb_spec. reflexivity.
      * left. apply H2. exists k, x. exact Hin.
  - intros D' d' Hd' k. rewrite Hget in Hd'. unfold add_pairs.
    destruct (key_eqb D' D) eqn:E.
    + apply key_eqb_spec in E. subst D'. inversion Hd'; subst d'.
      rewrite sget_sset. destruct (String.eqb k k0) eqn:Ek.
      * rewrite last_for_snoc_same. reflexivity.
      * apply Hdd.
    + destruct (String.eqb k k0).
      * rewrite (last_for_snoc_other _ _ _ _ _ E). apply H3, Hd'.
      * apply H3, Hd'.
Qed.

Lemma add_pairs_nil (P : string -> list (option string * string)) (k0 : string) :
  forall k, add_pairs P k0 [] k = P k.
Proof.
  intro k. unfold add_pairs. destruct (String.eqb k k0); [apply app_nil_r|reflexivity].
Qed.

Lemma add_pairs_app (P : string -> list (option string * string)) (k0 : string)
  (l1 l2 : list (option string * string)) :
  forall k, add_pairs (add_pairs P k0 l1) k0 l2 k = add_pairs P k0 (l1 ++ l2) k.
Proof.
  intro k. unfold add_pairs. destruct (String.eqb k k0);
    [symmetry; apply app_assoc | reflexivity].
Qed.

(** *** The v1 reader *)

Lemma seen_v1_snoc (dev_list : list string) (dev : string) (D : option string) :
  seen_v1 (dev_list ++ [dev]) D
  = (seen_v1 dev_list D || key_eqb D (Some dev))%bool.
Proof.
  destruct D as [x|]; cbn [seen_v1 key_eqb]; [|reflexivity].
  unfold in_list. rewrite existsb_app. cbn [existsb].
  rewrite orb_false_r. reflexivity.
Qed.

Lemma cgroup1_blkio_line_inv (cg_key line : string)
  (P : string -> list (option string * string))
  (acc acc' : info * list string) (st st' : state) :
  cgroup1_blkio_line cg_key line acc st = (Ok acc', st') ->
  dev_inv P (fst acc) (seen_v1 (snd acc)) ->
  dev_inv (add_pairs P cg_key (v1_line_pair line)) (fst acc') (seen_v1 (snd acc')).
Proof.
  destruct acc as [std dl]. cbn [fst snd]. intros H Hinv.
  unfold cgroup1_blkio_line in H.
  apply bind_Ok_inv in H as (dev_num & st1 & H0 & H).
  apply orraise_Ok_inv in H0 as [H0 <-].
  apply bind_Ok_inv in H as (value & st2 & H1 & H).
  apply orraise_Ok_inv in H1 as [H1 <-].
  apply bind_Ok_inv in H as (std2 & st3 & Hset & H).
  apply ret_Ok_inv in H as [<- _]. cbn [fst snd].
  assert (Hp : v1_line_pair line = [(Some dev_num, value)]).
  { unfold v1_line_pair.
    destruct (PyStr.split_ws (PyStr.strip line)) as [|a [|b l]];
      cbn in H0, H1; try discriminate.
    inversion H0; inversion H1; subst. reflexivity. }
  rewrite Hp.
  apply dev_inv_ext
    with (P := add_pairs P cg_key [(Some dev_num, value)])
         (seen := fun D' => (seen_v1 dl D' || key_eqb D' (Some dev_num))%bool).
  - reflexivity.
  - intro D. symmetry. apply seen_v1_snoc.
  - exact (dev_inv_step _ _ _ (seen_v1 dl) _ _ _ _ _ Hinv Hset).
Qed.

Lemma cgroup1_blkio_lines_inv (cg_key : string) (lines : list string) :
  forall (P : string -> list (option string * string))
         (acc acc' : info * list string) (st st' : state),
    for_each (cgroup1_blkio_line cg_key) lines acc st = (Ok acc', st') ->
    dev_inv P (fst acc) (seen_v1 (snd acc)) ->
    dev_inv (add_pairs P cg_key (flat_map v1_line_pair lines))
      (fst acc') (seen_v1 (snd acc')).
Proof.
  induction lines as [|line lines IH]; intros P acc acc' st st' H Hinv.
  - apply ret_Ok_inv in H as [<- _]. cbn [flat_map].
    apply (dev_inv_ext P _ _ (seen_v1 (snd acc))); [|reflexivity|exact Hinv].
    intro k. symmetry. apply add_pairs_nil.
  - cbn [for_each] in H. apply bind_Ok_inv in H as (acc1 & st1 & H1 & H).
    pose proof (cgroup1_blkio_line_inv _ _ _ _ _ _ _ H1 Hinv) as Hinv1.
    pose proof (IH _ _ _ _ _ H Hinv1) as Hinv2.
    cbn [flat_map].
    apply (dev_inv_ext _ _ _ _ _ (add_pairs_app P cg_key _ _) (fun D => eq_refl)
             Hinv2).
Qed.

Lemma get_cg_file_path_plain (cg_key p cg_file_name : string) (st : state) :
  in_list cg_key ["weight"; "cpu_shares"] = false ->
  __get_cg_file_path cg_key (Some p) cg_file_name st
  = (Ok (path_join p cg_file_name), st).
Proof. intro H. unfold __get_cg_file_path. rewrite H. reflexivity. Qed.

Lemma per_device_key (cg_key : string) :
  in_list cg_key ["rbps"; "wbps"; "riops"; "wiops"; "weight_device"] = true ->
  in_list cg_key ["weight"; "cpu_shares"] = false
  /\ in_list cg_key ["weight"] = false.
Proof.
  intro H. apply in_list_In in H.
  cbn [In] in H. destruct H as [<-|[<-|[<-|[<-|[<-|[]]]]]]; split; reflexivity.
Qed.

Lemma cgroup1_blkio_entry_inv (h : Host) (p cg_key cg_file_name : string)
  (P : string -> list (option string * string))
  (acc acc' : info * list string) (st st' : state) :
  in_list cg_key ["rbps"; "wbps"; "riops"; "wiops"; "weight_device"] = true ->
  cgroup1_blkio_entry h (Some p) (cg_key, cg_file_name) acc st = (Ok acc', st') ->
  dev_inv P (fst acc) (seen_v1 (snd acc)) ->
  dev_inv (add_pairs P cg_key (v1_file_pairs h p cg_file_name))
    (fst acc') (seen_v1 (snd acc')).
Proof.
  intros Hk H Hinv. destruct (per_device_key _ Hk) as [Hw2 Hw1].
  unfold cgroup1_blkio_entry in H.
  unfold bind at 1 in H.
  rewrite (get_cg_file_path_plain _ _ _ _ Hw2) in H.
  apply bind_Ok_inv in H as (text & st1 & Ho & H).
  apply orraise_Ok_inv in Ho as [Ho <-].
  rewrite Hw1, Hk in H.
  unfold v1_file_pairs. rewrite Ho.
  exact (cgroup1_blkio_lines_inv _ _ _ _ _ _ _ H Hinv).
Qed.

Lemma cgroup1_blkio_entries_inv (h : Host) (p : string)
  (entries : list (string * string)) :
  forall (P : string -> list (option string * string))
         (acc acc' : info * list string) (st st' : state),
    Forall (fun e => in_list (fst e)
                       ["rbps"; "wbps"; "riops"; "wiops"; "weight_device"] = true)
           entries ->
    for_each (cgroup1_blkio_entry h (Some p)) entries acc st = (Ok acc', st') ->
    dev_inv P (fst acc) (seen_v1 (snd acc)) ->
    dev_inv (fun k => (P k ++ v1_key_pairs h p entries k)%list)
      (fst acc') (seen_v1 (snd acc')).
Proof.
  induction entries as [|[k0 f0] entries IH]; intros P acc acc' st st' Hall H Hinv.
  - apply ret_Ok_inv in H as [<- _].
    apply (dev_inv_ext P _ _ (seen_v1 (snd acc))); [|reflexivity|exact Hinv].
    intro k. cbn. symmetry. apply app_nil_r.
  - inversion Hall as [|? ? Hk Hrest]; subst. cbn [fst] in Hk.
    cbn [for_each] in H. apply bind_Ok_inv in H as (acc1 & st1 & H1 & H).
    pose proof (cgroup1_blkio_entry_inv _ _ _ _ _ _ _ _ _ Hk H1 Hinv) as Hinv1.
    pose proof (IH _ _ _ _ _ Hrest H Hinv1) as Hinv2.
    apply (dev_inv_ext _ _ _ _ (seen_v1 (snd acc')) ) with (3 := Hinv2);
      [|reflexivity].
    intro k. unfold add_pairs, v1_key_pairs. cbn [flat_map fst snd].
    destruct (String.eqb k k0); [rewrite app_assoc|]; reflexivity.
Qed.

Lemma get_cg_file_path_Ok (cg_key : string) (cg_path : option string)
  (cg_file_name path : string) (st st' : state) :
  __get_cg_file_path cg_key cg_path cg_file_name st = (Ok path, st') ->
  exists p, cg_path = Some p.
Proof.
  destruct cg_path as [p|]; [exists p; reflexivity | discriminate].
Qed.

Lemma dev_inv_start (s : string) :
  dev_inv (fun _ => []) [(Some "weight", VStr s)] (seen_v1 []).
Proof.
  split; [|split].
  - intro D. split.
    + destruct D; discriminate.
    + intros (d & Hd). unfold kget in Hd. cbn [dict_get] in Hd.
      destruct (key_eqb D (Some "weight")); discriminate.
  - intro D. split.
    + destruct D; discriminate.
    + intros (k & v & []).
  - intros D d Hd. unfold kget in Hd. cbn [dict_get] in Hd.
    destruct (key_eqb D (Some "weight")); discriminate.
Qed.

Lemma v1_table_after (table0 : dict string string) (bfq : bool) :
  v1_table_reachable table0 ->
  v1_table_reachable (if negb bfq then patch_v1_blkio table0 else table0).
Proof.
  intros [->| ->]; destruct bfq; cbn [negb].
  - left; reflexivity.
  - right; reflexivity.
  - right; reflexivity.
  - right. apply patch_v1_blkio_idem.
Qed.

(** The v1 reader of block I/O: the directory is the one that the path
    resolution returns for the controller blkio, and the per-device entries
    of the map hold the values of the lines of the per-device files. *)
Lemma cgroup1_blkiotune_values (h : Host) (vm_pid : string)
  (st st' : state) (r : info) :
  v1_table_reachable (v1_blkio_mapping st) ->
  __get_standardized_cgroup1_info h vm_pid (Some "blkiotune") st = (Ok r, st') ->
  exists p st1,
    get_cgroup_path h vm_pid (Some "blkio") st = (Ok (Some p), st1)
    /\ v1_table_reachable (v1_blkio_mapping st')
    /\ dev_entries (v1_key_pairs h p (tl (v1_blkio_mapping st'))) r.
Proof.
  intros Hreach H. unfold __get_standardized_cgroup1_info in H.
  cbn [cmd_is String.eqb Ascii.eqb Bool.eqb] in H.
  apply bind_Ok_inv in H as (cgroup_path & st1 & Hp & H).
  pose proof (get_cgroup_path_keeps_table h vm_pid (Some "blkio") st) as Ht.
  rewrite Hp in Ht. cbn [snd] in Ht.
  apply bind_Ok_inv in H as (bfq & st2 & Hb & H).
  assert (E2 : st2 = st1).
  { unfold is_bfq in Hb. apply bind_Ok_inv in Hb as (io & st0 & Ho & Hb).
    apply orraise_Ok_inv in Ho as [_ <-]. apply ret_Ok_inv in Hb as [_ <-].
    reflexivity. }
  subst st2.
  apply bind_Ok_inv in H as (u & st3 & Hpatch & H).
  assert (E3 : v1_blkio_mapping st3
               = if negb bfq then patch_v1_blkio (v1_blkio_mapping st)
                 else v1_blkio_mapping st).
  { rewrite <- Ht. destruct (negb bfq).
    - apply bind_Ok_inv in Hpatch as (u1 & st0 & Hs1 & Hs2).
      inversion Hs1; subst. inversion Hs2; subst. reflexivity.
    - apply ret_Ok_inv in Hpatch as [_ <-]. reflexivity. }
  apply bind_Ok_inv in H as (table & st4 & Hget & H).
  inversion Hget; subst table st4. clear Hget.
  apply bind_Ok_inv in H as (acc & st5 & Hloop & H).
  apply ret_Ok_inv in H as [<- <-].
  assert (E5 : st5 = st3).
  { pose proof (pure_for_each (cgroup1_blkio_entry h cgroup_path)
                  (v1_blkio_mapping st3)
                  (fun e a => pure_cgroup1_blkio_entry h cgroup_path e a)
                  ([], []) st3) as Hpure.
    rewrite Hloop in Hpure. exact Hpure. }
  subst st5.
  pose proof (v1_table_after _ bfq Hreach) as Hreach3. rewrite <- E3 in Hreach3.
  assert (Hmain : forall table,
             table = CGROUP_V1_BLKIO_FILE_MAPPING
             \/ table = patch_v1_blkio CGROUP_V1_BLKIO_FILE_MAPPING ->
             for_each (cgroup1_blkio_entry h cgroup_path) table ([], []) st3
             = (Ok acc, st3) ->
             exists p, cgroup_path = Some p
                       /\ dev_entries (v1_key_pairs h p (tl table)) (fst acc)).
  { intros table Htable Hrun.
    assert (Hshape : exists f rest,
               table = ("weight", f) :: rest
               /\ Forall (fun e => in_list (fst e)
                                     ["rbps"; "wbps"; "riops"; "wiops";
                                      "weight_device"] = true) rest).
    { destruct Htable as [->| ->]; eexists; eexists;
        (split; [reflexivity|]); repeat constructor. }
    destruct Hshape as (f & rest & -> & Hrest).
    cbn [for_each] in Hrun.
    apply bind_Ok_inv in Hrun as (acc1 & st6 & H1 & Hrun).
    unfold cgroup1_blkio_entry in H1.
    apply bind_Ok_inv in H1 as (path & st7 & Hpath & H1).
    destruct (get_cg_file_path_Ok _ _ _ _ _ _ Hpath) as [p ->].
    apply bind_Ok_inv in H1 as (text & st8 & Ho & H1).
    cbn [in_list existsb String.eqb Ascii.eqb Bool.eqb orb fst snd] in H1.
    apply ret_Ok_inv in H1 as [<- _].
    exists p. split; [reflexivity|]. cbn [tl].
    pose proof (cgroup1_blkio_entries_inv h p rest (fun _ => []) _ _ _ _
                  Hrest Hrun (dev_inv_start _)) as Hinv.
    apply dev_inv_entries in Hinv. exact Hinv. }
  destruct (Hmain _ Hreach3 Hloop) as (p & -> & Hent).
  exists p, st1. split; [exact Hp|]. split; [exact Hreach3 | exact Hent].
Qed.

(** *** The report parser *)

Lemma get_dev_major_minor_Ok (h : Host) (path : string)
  (dev : option string) (st st' : state) :
  __get_dev_major_minor h path st = (Ok dev, st') ->
  dev = dev_key h path
  /\ st' = (if path_exists h path then st
            else log_add st DEBUG ("device '" ++ path ++ "' not existing")).
Proof.
  rewrite get_dev_major_minor_spec. unfold dev_key.
  destruct (path_exists h path); cbn [negb].
  - destruct (stat_rdev h path); intro H; inversion H. split; reflexivity.
  - intro H; inversion H. split; reflexivity.
Qed.

Lemma dev_key_not_weight (h : Host) (path : string) :
  key_eqb (Some "weight") (dev_key h path) = false.
Proof.
  unfold dev_key. destruct (path_exists h path); [|reflexivity].
  destruct (stat_rdev h path) as [r|]; [|reflexivity].
  cbn [option_map key_eqb]. unfold major_minor.
  pose proof (str_text_nonneg_decimal (Z.of_N (os_major r)) (N2Z.is_nonneg _)) as H.
  destruct (PyStr.str_text (Z.of_N (os_major r))) as [|c t]; [discriminate|].
  unfold PyStr.isdecimal in H. cbn [PyStr.all_chars] in H.
  apply andb_true_iff in H as [Hc _].
  cbn [append String.eqb].
  destruct (Ascii.eqb "w" c) eqn:E; [|reflexivity].
  apply Ascii.eqb_eq in E. subst c. discriminate Hc.
Qed.

Lemma seen_virsh_snoc (dev_list : list (option string)) (D D' : option string) :
  seen_virsh (dev_list ++ [D]) D'
  = (seen_virsh dev_list D' || key_eqb D' D)%bool.
Proof.
  unfold seen_virsh. rewrite existsb_app. cbn [existsb].
  rewrite orb_false_r. reflexivity.
Qed.

Lemma seen_virsh_known (dev_list : list (option string)) (D D' : option string) :
  seen_virsh dev_list D = true ->
  seen_virsh dev_list D' = (seen_virsh dev_list D' || key_eqb D' D)%bool.
Proof.
  intro H. destruct (key_eqb D' D) eqn:E.
  - apply key_eqb_spec in E. subst D'. rewrite H. reflexivity.
  - rewrite orb_false_r. reflexivity.
Qed.

(** The words of one field. *)
Lemma virsh_blkio_values_inv (h : Host) (io_item k0 : string)
  (words : list string) :
  forall (P : string -> list (option string * string))
         (acc acc' : info * list (option string)) (st st' : state),
    sget io_item VIRSH_BLKIOTUNE_OUTPUT_MAPPING = Some k0 ->
    virsh_blkio_values h VIRSH_BLKIOTUNE_OUTPUT_MAPPING io_item words acc st
    = (Ok acc', st') ->
    dev_inv P (fst acc) (seen_virsh (snd acc)) ->
    seen_virsh (snd acc) (Some "weight") = false ->
    dev_inv (add_pairs P k0 (virsh_dev_pairs h words))
      (fst acc') (seen_virsh (snd acc'))
    /\ seen_virsh (snd acc') (Some "weight") = false.
Proof.
  induction words as [|word rest IH]; intros P acc acc' st st' Hk H Hinv Hw.
  - apply ret_Ok_inv in H as [<- _]. cbn [virsh_dev_pairs]. split; [|exact Hw].
    apply (dev_inv_ext P _ _ (seen_virsh (snd acc))); [|reflexivity|exact Hinv].
    intro k. symmetry. apply add_pairs_nil.
  - cbn [virsh_blkio_values] in H.
    apply bind_Ok_inv in H as (acc1 & st1 & Hstep & H).
    assert (Hone :
              dev_inv (add_pairs P k0
                         (if PyStr.contains "dev" word then
                            match rest with
                            | next :: _ => [(dev_key h word, next)]
                            | [] => []
                            end
                          else []))
                (fst acc1) (seen_virsh (snd acc1))
              /\ seen_virsh (snd acc1) (Some "weight") = false).
    { destruct (PyStr.contains "dev" word).
      - destruct acc as [std dl]. cbn [fst snd] in Hinv, Hw.
        apply bind_Ok_inv in Hstep as (dev_num & st2 & Hdev & Hstep).
        apply get_dev_major_minor_Ok in Hdev as [-> _].
        set (D := dev_key h word) in *.
        destruct (negb (existsb (key_eqb D) dl)) eqn:Enew;
          apply bind_Ok_inv in Hstep as (next & st3 & Hnext & Hstep);
          apply orraise_Ok_inv in Hnext as [Hnext <-];
          apply bind_Ok_inv in Hstep as (k & st4 & Hk' & Hstep);
          apply orraise_Ok_inv in Hk' as [Hk' <-];
          rewrite Hk in Hk'; inversion Hk'; subst k;
          apply bind_Ok_inv in Hstep as (std2 & st5 & Hset & Hstep);
          apply ret_Ok_inv in Hstep as [<- _]; cbn [fst snd];
          (destruct rest as [|next' rest']; [discriminate Hnext|]);
          cbn [nth_error] in Hnext; inversion Hnext; subst next'.
        + assert (Hset' : set_dev_attr D k0 next
                            (if negb (seen_virsh dl D)
                             then kset D (VDict dev_init_dict) std else std) st2
                          = (Ok std2, st5)).
          { unfold seen_virsh. rewrite Enew. exact Hset. }
          split.
          * apply (dev_inv_ext _ _ _ _ _ (fun k => eq_refl)
                     (fun D' => eq_sym (seen_virsh_snoc dl D D'))
                     (dev_inv_step _ _ _ _ _ _ _ _ _ Hinv Hset')).
          * rewrite seen_virsh_snoc, Hw. unfold D. apply dev_key_not_weight.
        + assert (Hs : seen_virsh dl D = true).
          { unfold seen_virsh. apply negb_false_iff, Enew. }
          assert (Hset' : set_dev_attr D k0 next
                            (if negb (seen_virsh dl D)
                             then kset D (VDict dev_init_dict) std else std) st2
                          = (Ok std2, st5)).
          { rewrite Hs. exact Hset. }
          split; [|exact Hw].
          apply (dev_inv_ext _ _ _ _ _ (fun k => eq_refl)
                   (fun D' => eq_sym (seen_virsh_known dl D D' Hs))
                   (dev_inv_step _ _ _ _ _ _ _ _ _ Hinv Hset')).
      - apply ret_Ok_inv in Hstep as [<- _]. split; [|exact Hw].
        apply (dev_inv_ext P _ _ (seen_virsh (snd acc))); [|reflexivity|exact Hinv].
        intro k. symmetry. apply add_pairs_nil. }
    destruct Hone as [Hinv1 Hw1].
    destruct (IH _ _ _ _ _ Hk H Hinv1 Hw1) as [Hinv2 Hw2].
    split; [|exact Hw2]. cbn [virsh_dev_pairs].
    exact (dev_inv_ext _ _ _ _ _ (add_pairs_app P k0 _ _) (fun D => eq_refl) Hinv2).
Qed.

Lemma in_keys_sget {V} (k : string) (d : dict string V) :
  in_list k (dict_keys d) = true -> exists v, sget k d = Some v.
Proof.
  unfold in_list, dict_keys, sget.
  induction d as [|[k0 v0] d IH]; cbn [map existsb fst dict_get]; [discriminate|].
  destruct (String.eqb k k0); [eexists; reflexivity | exact IH].
Qed.

Lemma dev_inv_kset_str (P : string -> list (option string * string))
  (std : info) (seen : option string -> bool) (key : option string) (s : string) :
  seen key = false ->
  dev_inv P std seen -> dev_inv P (kset key (VStr s) std) seen.
Proof.
  intros Hk (H1 & H2 & H3).
  assert (Hget : forall D d,
             kget D (kset key (VStr s) std) = Some (VDict d)
             <-> kget D std = Some (VDict d)).
  { intros D d. rewrite kget_kset. destruct (key_eqb D key) eqn:E; [|tauto].
    apply key_eqb_spec in E. subst D. split; [discriminate|].
    intro Hd. assert (Hs : seen key = true) by (apply H1; exists d; exact Hd).
    congruence. }
  split; [|split].
  - intro D. rewrite H1. split; intros (d & Hd); exists d; apply Hget, Hd.
  - exact H2.
  - intros D d Hd. apply H3, Hget, Hd.
Qed.

(** One field of the report. *)
Lemma virsh_blkio_item_inv (h : Host) (item : string * string)
  (P : string -> list (option string * string))
  (acc acc' : info * list (option string)) (st st' : state) :
  virsh_blkio_item h VIRSH_BLKIOTUNE_OUTPUT_MAPPING item acc st = (Ok acc', st') ->
  dev_inv P (fst acc) (seen_virsh (snd acc)) ->
  seen_virsh (snd acc) (Some "weight") = false ->
  dev_inv (fun k => (P k ++ virsh_field_pairs h k item)%list)
    (fst acc') (seen_virsh (snd acc'))
  /\ seen_virsh (snd acc') (Some "weight") = false.
Proof.
  destruct item as [io_item v]. intros H Hinv Hw.
  unfold virsh_blkio_item in H. unfold virsh_field_pairs.
  destruct (in_list io_item ["weight"]) eqn:Ew.
  - apply ret_Ok_inv in H as [<- _]. cbn [fst snd]. split; [|exact Hw].
    apply in_list_In in Ew. destruct Ew as [<-|[]].
    apply (dev_inv_ext P _ _ (seen_virsh (snd acc))); [|reflexivity|].
    + intro k. symmetry. apply app_nil_r.
    + apply dev_inv_kset_str; assumption.
  - destruct (in_list io_item (dict_keys VIRSH_BLKIOTUNE_OUTPUT_MAPPING)
              && negb (String.eqb v ""))%bool eqn:Ec.
    + apply andb_true_iff in Ec as [Ekeys _].
      destruct (in_keys_sget _ _ Ekeys) as [k0 Hk0]. rewrite Hk0.
      destruct (virsh_blkio_values_inv _ _ _ _ _ _ _ _ _ Hk0 H Hinv Hw)
        as [Hinv' Hw'].
      split; [|exact Hw'].
      apply (dev_inv_ext _ _ _ _ (seen_virsh (snd acc'))) with (3 := Hinv');
        [|reflexivity].
      intro k. unfold add_pairs. destruct (String.eqb k k0);
        [reflexivity | symmetry; apply app_nil_r].
    + apply ret_Ok_inv in H as [<- _]. split; [|exact Hw].
      apply (dev_inv_ext P _ _ (seen_virsh (snd acc))); [|reflexivity|exact Hinv].
      intro k. symmetry. apply app_nil_r.
Qed.

Lemma virsh_blkio_items_inv (h : Host) (l : list (string * string)) :
  forall (P : string -> list (option string * string))
         (acc acc' : info * list (option string)) (st st' : state),
    for_each (virsh_blkio_item h VIRSH_BLKIOTUNE_OUTPUT_MAPPING) l acc st
    = (Ok acc', st') ->
    dev_inv P (fst acc) (seen_virsh (snd acc)) ->
    seen_virsh (snd acc) (Some "weight") = false ->
    dev_inv (fun k => (P k ++ virsh_report_pairs h k l)%list)
      (fst acc') (seen_virsh (snd acc')).
Proof.
  induction l as [|item l IH]; intros P acc acc' st st' H Hinv Hw.
  - apply ret_Ok_inv in H as [<- _].
    apply (dev_inv_ext P _ _ (seen_virsh (snd acc))); [|reflexivity|exact Hinv].
    intro k. symmetry. apply app_nil_r.
  - cbn [for_each] in H. apply bind_Ok_inv in H as (acc1 & st1 & H1 & H).
    destruct (virsh_blkio_item_inv _ _ _ _ _ _ _ H1 Hinv Hw) as [Hinv1 Hw1].
    pose proof (IH _ _ _ _ _ H Hinv1 Hw1) as Hinv2.
    apply (dev_inv_ext _ _ _ _ (seen_virsh (snd acc'))) with (3 := Hinv2);
      [|reflexivity].
    intro k. unfold virsh_report_pairs. cbn [flat_map].
    symmetry. apply app_assoc.
Qed.

Lemma dev_inv_empty : dev_inv (fun _ => []) [] (seen_virsh []).
Proof.
  split; [|split].
  - intro D. split; [discriminate | intros (d & Hd); discriminate].
  - intro D. split; [discriminate | intros (k & v & [])].
  - intros D d Hd. discriminate.
Qed.

(** The report parser of block I/O: the per-device entries of the map hold
    the values that follow the device words of the report's fields. *)
Lemma virsh_blkiotune_values (h : Host) (l : dict string string)
  (st st' : state) (r : info) :
  get_standardized_virsh_info h (Some "blkiotune") (Some l) st
  = (Ok (Some r), st') ->
  dev_entries (fun k => virsh_report_pairs h k l) r.
Proof.
  unfold get_standardized_virsh_info.
  cbn [cmd_is String.eqb Ascii.eqb Bool.eqb]. intro H.
  apply bind_Ok_inv in H as (l' & st1 & Hl & H).
  apply orraise_Ok_inv in Hl as [Hl <-]. inversion Hl; subst l'.
  apply bind_Ok_inv in H as (acc & st2 & Hloop & H).
  apply ret_Ok_inv in H as [E _]. inversion E; subst r.
  pose proof (virsh_blkio_items_inv h l (fun _ => []) _ _ _ _ Hloop
                dev_inv_empty eq_refl) as Hinv.
  apply dev_inv_entries in Hinv. exact Hinv.
Qed.

(** In a run that returns, every device word has a value after it. *)
Lemma virsh_blkio_values_pairs (h : Host) (io_item : string)
  (words : list string) :
  forall (acc acc' : info * list (option string)) (st st' : state),
    virsh_blkio_values h VIRSH_BLKIOTUNE_OUTPUT_MAPPING io_item words acc st
    = (Ok acc', st') ->
    forall w, In w words -> PyStr.contains "dev" w = true ->
              exists next, In (dev_key h w, next) (virsh_dev_pairs h words).
Proof.
  induction words as [|word rest IH]; intros acc acc' st st' H w Hin Hdev.
  - destruct Hin.
  - cbn [virsh_blkio_values] in H.
    apply bind_Ok_inv in H as (acc1 & st1 & Hstep & H).
    cbn [virsh_dev_pairs]. destruct Hin as [->|Hin].
    + rewrite Hdev in *. destruct acc as [std dl].
      apply bind_Ok_inv in Hstep as (dev_num & st2 & _ & Hstep).
      destruct (negb (existsb (key_eqb dev_num) dl));
        apply bind_Ok_inv in Hstep as (next & st3 & Hnext & _);
        apply orraise_Ok_inv in Hnext as [Hnext _];
        (destruct rest as [|next' rest']; [discriminate Hnext|]);
        exists next'; left; reflexivity.
    + destruct (IH _ _ _ _ H w Hin Hdev) as [next Hn].
      exists next. apply in_or_app. right. exact Hn.
Qed.

(** The log of a computation that returns: what was there, and more. *)
Lemma virsh_blkio_values_log (h : Host) (io_item : string)
  (words : list string) :
  forall (acc acc' : info * list (option string)) (st st' : state),
    virsh_blkio_values h VIRSH_BLKIOTUNE_OUTPUT_MAPPING io_item words acc st
    = (Ok acc', st') ->
    exists more,
      log st' = (log st ++ more)%list
      /\ (forall w, In w words -> PyStr.contains "dev" w = true ->
                    path_exists h w = false ->
                    In (DEBUG, "device '" ++ w ++ "' not existing") more)
      /\ ((forall w, In w words -> PyStr.contains "dev" w = false) -> more = []).
Proof.
  induction words as [|word rest IH]; intros acc acc' st st' H.
  - apply ret_Ok_inv in H as [_ <-]. exists []. split; [|split].
    + symmetry. apply app_nil_r.
    + intros w [].
    + reflexivity.
  - cbn [virsh_blkio_values] in H.
    apply bind_Ok_inv in H as (acc1 & st1 & Hstep & H).
    destruct (IH _ _ _ _ H) as (more2 & Hlog2 & Hmiss2 & Hnone2).
    assert (Hone : exists more1,
               log st1 = (log st ++ more1)%list
               /\ (PyStr.contains "dev" word = true ->
                   path_exists h word = false ->
                   In (DEBUG, "device '" ++ word ++ "' not existing") more1)
               /\ (PyStr.contains "dev" word = false -> more1 = [])).
    { destruct (PyStr.contains "dev" word).
      - destruct acc as [std dl].
        apply bind_Ok_inv in Hstep as (dev_num & st2 & Hdev & Hstep).
        apply get_dev_major_minor_Ok in Hdev as [_ ->].
        assert (E : st1 = (if path_exists h word then st
                           else log_add st DEBUG
                                  ("device '" ++ word ++ "' not existing"))).
        { destruct (negb (existsb (key_eqb dev_num) dl));
            apply bind_Ok_inv in Hstep as (next & st3 & Hnext & Hstep);
            apply orraise_Ok_inv in Hnext as [_ <-];
            apply bind_Ok_inv in Hstep as (k & st4 & Hk' & Hstep);
            apply orraise_Ok_inv in Hk' as [_ <-];
            apply bind_Ok_inv in Hstep as (std2 & st5 & Hset & Hstep);
            apply ret_Ok_inv in Hstep as [_ <-];
            pose proof (pure_set_dev_attr dev_num k next) as Hp;
            match type of Hset with
            | set_dev_attr _ _ _ ?s ?t = _ =>
                specialize (Hp s t); rewrite Hset in Hp; cbn [snd] in Hp
            end; exact Hp. }
        subst st1. destruct (path_exists h word).
        + exists []. split; [symmetry; apply app_nil_r|].
          split; [discriminate | discriminate].
        + exists [(DEBUG, "device '" ++ word ++ "' not existing")].
          split; [reflexivity|]. split; [intros _ _; left; reflexivity|discriminate].
      - apply ret_Ok_inv in Hstep as [_ <-]. exists [].
        split; [symmetry; apply app_nil_r|]. split; [discriminate|reflexivity]. }
    destruct Hone as (more1 & Hlog1 & Hmiss1 & Hnone1).
    exists (more1 ++ more2)%list. split; [|split].
    + rewrite Hlog2, Hlog1. symmetry. apply app_assoc.
    + intros w [->|Hin] Hdev Hex; apply in_or_app.
      * left. exact (Hmiss1 Hdev Hex).
      * right. exact (Hmiss2 w Hin Hdev Hex).
    + intro Hno. rewrite (Hnone1 (Hno word (or_introl eq_refl))).
      rewrite Hnone2; [reflexivity|].
      intros w Hin. apply Hno. right. exact Hin.
Qed.

(** A field of the report that the table maps to a per-device key. *)
Lemma device_field_lookup (field key : string) :
  In (field, key) device_fields ->
  in_list field ["weight"] = false
  /\ in_list field (dict_keys VIRSH_BLKIOTUNE_OUTPUT_MAPPING) = true
  /\ sget field VIRSH_BLKIOTUNE_OUTPUT_MAPPING = Some key
  /\ In key four_keys.
Proof.
  unfold device_fields. cbn [tl VIRSH_BLKIOTUNE_OUTPUT_MAPPING In].
  intros [E|[E|[E|[E|[]]]]]; inversion E; subst;
    (split; [reflexivity|]); (split; [reflexivity|]); (split; [reflexivity|]);
    cbn; tauto.
Qed.

Lemma device_word_value (value w : string) :
  In w (PyStr.split_char "," value) -> PyStr.contains "dev" w = true ->
  String.eqb value "" = false.
Proof.
  intros Hin Hdev. destruct value; [|reflexivity].
  cbn in Hin. destruct Hin as [<-|[]]. discriminate Hdev.
Qed.

Lemma virsh_blkio_item_device (h : Host) (field key value : string)
  (acc : info * list (option string)) (st : state) :
  In (field, key) device_fields ->
  String.eqb value "" = false ->
  virsh_blkio_item h VIRSH_BLKIOTUNE_OUTPUT_MAPPING (field, value) acc st
  = virsh_blkio_values h VIRSH_BLKIOTUNE_OUTPUT_MAPPING field
      (PyStr.split_char "," value) acc st
  /\ virsh_field_pairs h key (field, value)
     = virsh_dev_pairs h (PyStr.split_char "," value).
Proof.
  intros Hf Hv. destruct (device_field_lookup _ _ Hf) as (Hw & Hk & Hs & _).
  unfold virsh_blkio_item, virsh_field_pairs.
  rewrite Hw, Hk, Hv, Hs, String.eqb_refl. split; reflexivity.
Qed.

(** The run of one element inside a loop that returns. *)
Lemma for_each_In {A S} (body : A -> S -> M S) (l : list A) (a : A) :
  In a l ->
  forall s st s' st',
    for_each body l s st = (Ok s', st') ->
    exists l1 l2 s0 st0 s1 st1,
      l = (l1 ++ a :: l2)%list
      /\ for_each body l1 s st = (Ok s0, st0)
      /\ body a s0 st0 = (Ok s1, st1)
      /\ for_each body l2 s1 st1 = (Ok s', st').
Proof.
  intros Hin s st s' st' H.
  apply in_split in Hin as (l1 & l2 & ->).
  apply for_each_app in H as (s0 & st0 & H1 & H2).
  cbn [for_each] in H2. apply bind_Ok_inv in H2 as (s1 & st1 & Ha & H2).
  exists l1, l2, s0, st0, s1, st1. repeat split; assumption.
Qed.

Lemma virsh_blkio_item_log (h : Host) (item : string * string)
  (acc acc' : info * list (option string)) (st st' : state) :
  virsh_blkio_item h VIRSH_BLKIOTUNE_OUTPUT_MAPPING item acc st = (Ok acc', st') ->
  exists more,
    log st' = (log st ++ more)%list
    /\ ((forall w, In w (PyStr.split_char "," (snd item)) ->
                   PyStr.contains "dev" w = false) -> more = []).
Proof.
  destruct item as [io_item v]. unfold virsh_blkio_item. cbn [snd]. intro H.
  destruct (in_list io_item ["weight"]).
  - apply ret_Ok_inv in H as [_ <-]. exists []. split; [|reflexivity].
    symmetry. apply app_nil_r.
  - destruct (in_list io_item (dict_keys VIRSH_BLKIOTUNE_OUTPUT_MAPPING)
              && negb (String.eqb v ""))%bool.
    + destruct (virsh_blkio_values_log _ _ _ _ _ _ _ H) as (more & Hl & _ & Hn).
      exists more. split; assumption.
    + apply ret_Ok_inv in H as [_ <-]. exists []. split; [|reflexivity].
      symmetry. apply app_nil_r.
Qed.

Lemma virsh_blkio_items_log (h : Host) (l : list (string * string)) :
  forall (acc acc' : info * list (option string)) (st st' : state),
    for_each (virsh_blkio_item h VIRSH_BLKIOTUNE_OUTPUT_MAPPING) l acc st
    = (Ok acc', st') ->
    exists more,
      log st' = (log st ++ more)%list
      /\ ((forall item w, In item l -> In w (PyStr.split_char "," (snd item)) ->
                          PyStr.contains "dev" w = false) -> more = []).
Proof.
  induction l as [|item l IH]; intros acc acc' st st' H.
  - apply ret_Ok_inv in H as [_ <-]. exists []. split; [|reflexivity].
    symmetry. apply app_nil_r.
  - cbn [for_each] in H. apply bind_Ok_inv in H as (acc1 & st1 & H1 & H).
    destruct (virsh_blkio_item_log _ _ _ _ _ _ H1) as (m1 & Hl1 & Hn1).
    destruct (IH _ _ _ _ H) as (m2 & Hl2 & Hn2).
    exists (m1 ++ m2)%list. split.
    + rewrite Hl2, Hl1. symmetry. apply app_assoc.
    + intro Hno. rewrite Hn1, Hn2; [reflexivity| |].
      * intros it w Hin. apply Hno. right. exact Hin.
      * intros w. apply Hno. left. reflexivity.
Qed.

(** What the parser's run on a report says of one device word of a
    per-device field: its value is among the pairs of the field's key, and
    a missing path has left its debug line in the log. *)
Lemma virsh_blkiotune_device_word (h : Host) (l : dict string string)
  (st st' : state) (r : info) (field key value w : string) :
  get_standardized_virsh_info h (Some "blkiotune") (Some l) st
  = (Ok (Some r), st') ->
  In (field, value) l ->
  In (field, key) device_fields ->
  In w (PyStr.split_char "," value) ->
  PyStr.contains "dev" w = true ->
  (exists next, In (dev_key h w, next) (virsh_report_pairs h key l))
  /\ (path_exists h w = false ->
      In (DEBUG, "device '" ++ w ++ "' not existing") (log st')).
Proof.
  unfold get_standardized_virsh_info.
  cbn [cmd_is String.eqb Ascii.eqb Bool.eqb]. intros H Hin Hf Hw Hdev.
  apply bind_Ok_inv in H as (l' & st1 & Hl & H).
  apply orraise_Ok_inv in Hl as [Hl <-]. inversion Hl; subst l'.
  apply bind_Ok_inv in H as (acc & st2 & Hloop & H).
  apply ret_Ok_inv in H as [_ <-].
  pose proof (device_word_value _ _ Hw Hdev) as Hv.
  destruct (for_each_In _ _ _ Hin _ _ _ _ Hloop)
    as (l1 & l2 & s0 & st0 & s1 & st1 & El & Hpre & Hitem & Hpost).
  destruct (virsh_blkio_item_device h field key value s0 st0 Hf Hv) as [Erun Epairs].
  rewrite Erun in Hitem. split.
  - destruct (virsh_blkio_values_pairs _ _ _ _ _ _ _ Hitem w Hw Hdev) as [next Hn].
    exists next. unfold virsh_report_pairs. apply in_flat_map.
    exists (field, value). split; [exact Hin|]. rewrite Epairs. exact Hn.
  - intro Hex.
    destruct (virsh_blkio_values_log _ _ _ _ _ _ _ Hitem) as (m & Hlog & Hmiss & _).
    destruct (virsh_blkio_items_log _ _ _ _ _ _ Hpost) as (m2 & Hlog2 & _).
    rewrite Hlog2, Hlog. apply in_or_app. left. apply in_or_app. right.
    exact (Hmiss w Hw Hdev Hex).
Qed.

(** A pair of the report comes from a device word of a per-device field. *)
Lemma virsh_dev_pairs_word (h : Host) (words : list string)
  (D : option string) (v : string) :
  In (D, v) (virsh_dev_pairs h words) ->
  exists w, In w words /\ PyStr.contains "dev" w = true /\ dev_key h w = D.
Proof.
  induction words as [|word rest IH]; [intros []|].
  cbn [virsh_dev_pairs]. intro H. apply in_app_or in H as [H|H].
  - destruct (PyStr.contains "dev" word) eqn:E; [|destruct H].
    destruct rest as [|next rest']; [destruct H|].
    destruct H as [H|[]]. inversion H; subst.
    exists word. repeat split; [left; reflexivity | exact E].
  - destruct (IH H) as (w & Hin & Hd & Hk).
    exists w. repeat split; [right; exact Hin | exact Hd | exact Hk].
Qed.

Lemma virsh_report_pairs_word (h : Host) (l : dict string string)
  (k : string) (D : option string) (v : string) :
  In (D, v) (virsh_report_pairs h k l) ->
  exists field value w,
    In (field, value) l /\ In (field, k) device_fields
    /\ In w (PyStr.split_char "," value)
    /\ PyStr.contains "dev" w = true /\ dev_key h w = D.
Proof.
  unfold virsh_report_pairs. intro H.
  apply in_flat_map in H as ([field value] & Hin & H).
  unfold virsh_field_pairs in H.
  destruct (in_list field ["weight"]) eqn:Ew; [destruct H|].
  destruct (in_list field (dict_keys VIRSH_BLKIOTUNE_OUTPUT_MAPPING)
            && negb (String.eqb value ""))%bool; [|destruct H].
  destruct (sget field VIRSH_BLKIOTUNE_OUTPUT_MAPPING) as [k'|] eqn:Es;
    [|destruct H].
  destruct (String.eqb k k') eqn:Ek; [|destruct H].
  apply String.eqb_eq in Ek. subst k'.
  destruct (virsh_dev_pairs_word _ _ _ _ H) as (w & Hw & Hd & Hk).
  exists field, value, w. repeat split; try assumption.
  unfold device_fields. unfold sget in Es.
  cbn [VIRSH_BLKIOTUNE_OUTPUT_MAPPING dict_get tl In] in *.
  cbn [in_list existsb] in Ew. rewrite orb_false_r in Ew.
  rewrite Ew in Es.
  repeat match type of Es with
         | (if String.eqb field ?x then _ else _) = _ =>
             destruct (String.eqb field x) eqn:?E
         end; try discriminate;
    match goal with
    | HE : String.eqb field _ = true |- _ =>
        apply String.eqb_eq in HE; subst field
    end; inversion Es; subst; tauto.
Qed.

(** *** The v2 reader *)

Lemma last_line_cons (dev line : string) (lines : list string) :
  fold_left (fun acc l => if names_dev dev l then Some l else acc)
            (line :: lines) None
  = match last_line_for dev lines with
    | Some l => Some l
    | None => if names_dev dev line then Some line else None
    end.
Proof.
  unfold last_line_for. cbn [fold_left].
  generalize (if names_dev dev line then Some line else None).
  induction lines as [|l lines IH]; intro init; cbn [fold_left].
  - reflexivity.
  - rewrite IH. rewrite (IH (if names_dev dev l then Some l else None)).
    destruct (fold_left _ lines None); [reflexivity|].
    destruct (names_dev dev l); reflexivity.
Qed.

Lemma last_line_for_cons (dev line : string) (lines : list string) :
  last_line_for dev (line :: lines)
  = match last_line_for dev lines with
    | Some l => Some l
    | None => if names_dev dev line then Some line else None
    end.
Proof. apply last_line_cons. Qed.

(** The lines of [io.max], one after the other. *)
Lemma cgroup2_iomax_lines_spec (lines : list string) :
  forall (std r : info) (st st' : state),
    for_each cgroup2_iomax_line lines std st = (Ok r, st') ->
    kget None r = kget None std
    /\ forall dev,
         kget (Some dev) r
         = match last_line_for dev lines with
           | Some line => Some (VDict (iomax_entry line))
           | None => kget (Some dev) std
           end.
Proof.
  induction lines as [|line lines IH]; intros std r st st' H.
  - apply ret_Ok_inv in H as [<- _]. split; reflexivity.
  - cbn [for_each] in H. apply bind_Ok_inv in H as (std1 & st1 & H1 & H).
    apply cgroup2_iomax_line_entry in H1 as (d0 & Hd0 & ->).
    destruct (IH _ _ _ _ H) as [Hnone Hget]. split.
    + rewrite Hnone, kget_kset. reflexivity.
    + intro dev. rewrite Hget, last_line_for_cons.
      destruct (last_line_for dev lines); [reflexivity|].
      rewrite kget_kset. cbn [key_eqb]. unfold names_dev. rewrite Hd0.
      destruct (String.eqb dev d0); reflexivity.
Qed.

(** The weight entry as the v2 reader seeds it. *)
Lemma iomax_entry_keys (line k : string) :
  has_key (iomax_entry line) k = true
  <-> In k (map (PyStr.before_first "=") (tl (iomax_words line))).
Proof.
  unfold iomax_entry.
  assert (Hgen : forall words d,
             has_key (fold_left
                        (fun d word =>
                           sset (PyStr.before_first "=" word)
                                (after_first "=" word) d) words d) k = true
             <-> has_key d k = true
                 \/ In k (map (PyStr.before_first "=") words)).
  { induction words as [|w words IH]; intro d; cbn [fold_left map In].
    - tauto.
    - rewrite IH, has_key_sset_iff. intuition congruence. }
  rewrite Hgen. cbn. intuition discriminate.
Qed.

(** The v2 reader of block I/O: the directory is the one that the path
    resolution returns, the weight is looked for in the weight file above
    [libvirt], and every line of [io.max] under the directory replaces the
    entry of its device. *)
Lemma cgroup2_blkiotune_map (h : Host) (vm_pid : string)
  (st st' : state) (r : info) :
  __get_standardized_cgroup2_info h vm_pid (Some "blkiotune") st = (Ok r, st') ->
  exists p st1 weight_file iomax_file,
    get_cgroup_path h vm_pid None st = (Ok (Some p), st1)
    /\ open_read h (path_join (PyStr.before_first "libvirt" p) "io.bfq.weight")
       = Some weight_file
    /\ open_read h (path_join p "io.max") = Some iomax_file
    /\ kget None r = None
    /\ forall dev,
         kget (Some dev) r
         = match last_line_for dev (PyStr.readlines iomax_file) with
           | Some line => Some (VDict (iomax_entry line))
           | None =>
               if String.eqb dev "weight"
               then Some match search_digits weight_file with
                         | Some g => VStr g
                         | None => VNone
                         end
               else None
           end.
Proof.
  unfold __get_standardized_cgroup2_info. intro H.
  apply bind_Ok_inv in H as (cgroup_path & st1 & Hp & H).
  cbn [cmd_is String.eqb Ascii.eqb Bool.eqb] in H.
  apply bind_Ok_inv in H as (wn & st2 & Hwn & H).
  apply orraise_Ok_inv in Hwn as [Hwn <-]. inversion Hwn; subst wn.
  apply bind_Ok_inv in H as (im & st3 & Him & H).
  apply orraise_Ok_inv in Him as [Him <-]. inversion Him; subst im.
  apply bind_Ok_inv in H as (p & st4 & Hsome & H).
  apply orraise_Ok_inv in Hsome as [-> <-].
  apply bind_Ok_inv in H as (weight_file & st5 & Hw & H).
  apply orraise_Ok_inv in Hw as [Hw <-].
  apply bind_Ok_inv in H as (iomax_file & st6 & Ho & H).
  apply orraise_Ok_inv in Ho as [Ho <-].
  exists p, st1, weight_file, iomax_file.
  split; [exact Hp|]. split; [exact Hw|]. split; [exact Ho|].
  destruct (cgroup2_iomax_lines_spec _ _ _ _ _ H) as [Hnone Hget].
  split; [rewrite Hnone; reflexivity|].
  intro dev. rewrite Hget.
  destruct (last_line_for dev (PyStr.readlines iomax_file)); [reflexivity|].
  rewrite kget_kset. cbn [key_eqb]. destruct (String.eqb dev "weight"); reflexivity.
Qed.

(** The first run of decimal digits of a text. *)
Lemma take_digits_split (s : string) :
  exists post,
    s = take_digits s ++ post
    /\ match post with
       | String c _ => PyStr.isdecimal_c c = false
       | EmptyString => True
       end.
Proof.
  induction s as [|c s (post & E & Hpost)]; cbn [take_digits].
  - exists "". split; [reflexivity | exact I].
  - destruct (PyStr.isdecimal_c c) eqn:Ec.
    + exists post. split; [cbn [append]; rewrite <- E; reflexivity | exact Hpost].
    + exists (String c s). split; [reflexivity | exact Ec].
Qed.

Lemma search_digits_spec (text : string) :
  match search_digits text with
  | Some g =>
      PyStr.isdecimal g = true
      /\ exists pre post,
           text = pre ++ g ++ post
           /\ PyStr.all_chars (fun c => negb (PyStr.isdecimal_c c)) pre = true
           /\ match post with
              | String c _ => PyStr.isdecimal_c c = false
              | EmptyString => True
              end
  | None => PyStr.all_chars (fun c => negb (PyStr.isdecimal_c c)) text = true
  end.
Proof.
  induction text as [|c s IH]; cbn [search_digits].
  - reflexivity.
  - destruct (PyStr.isdecimal_c c) eqn:Ec.
    + split.
      * apply (search_digits_isdecimal (String c s)).
        cbn [search_digits]. rewrite Ec. reflexivity.
      * destruct (take_digits_split (String c s)) as (post & E & Hpost).
        exists "", post. split; [exact E|]. split; [reflexivity | exact Hpost].
    + destruct (search_digits s) as [g|].
      * destruct IH as (Hg & pre & post & E & Hpre & Hpost). split; [exact Hg|].
        exists (String c pre), post. split; [cbn [append]; rewrite E; reflexivity|].
        split; [|exact Hpost]. cbn [PyStr.all_chars]. rewrite Ec, Hpre. reflexivity.
      * cbn [PyStr.all_chars]. rewrite Ec, IH. reflexivity.
Qed.

(** *** The claims on the per-device entries *)

Lemma last_for_last_or (D : option string) (l : list (option string * string))
  (x : string) :
  last_for D l (Some x) = Some (last_or D l x).
Proof.
  unfold last_for, last_or. revert x.
  induction l as [|p l IH]; intro x; cbn [fold_left]; [reflexivity|].
  destruct (key_eqb D (fst p)); apply IH.
Qed.

Lemma v1_key_pairs_throttle (h : Host) (p : string) (table : dict string string)
  (k cg_file_name : string) :
  v1_table_reachable table ->
  In (k, cg_file_name) v1_throttle_files ->
  v1_key_pairs h p (tl table) k = v1_file_pairs h p cg_file_name
  /\ sget k dev_init_dict = Some "max".
Proof.
  unfold v1_throttle_files. cbn [tl CGROUP_V1_BLKIO_FILE_MAPPING In].
  intros [->| ->] [E|[E|[E|[E|[]]]]]; inversion E; subst;
    (split; [|reflexivity]);
    unfold v1_key_pairs;
    cbn [tl CGROUP_V1_BLKIO_FILE_MAPPING patch_v1_blkio sset dict_set flat_map
           fst snd String.eqb Ascii.eqb Bool.eqb app];
    rewrite ?app_nil_r; reflexivity.
Qed.

(** C1 (as amended): for block I/O, every per-device entry of a map that
    the v1 kernel-state reader or the report parser returns has the four
    keys rbps, wbps, riops and wiops, each at the default [max] unless a
    value was found for the device under that key, and then at the last
    such value: on v1 the values of the lines of the key's throttle file
    under the resolved blkio directory, in the parser the words that follow
    the device words of the key's report field.  On v2 nothing is seeded: a
    device's entry is the sub-map of the last line of [io.max] (under the
    resolved directory) that names the device, with the keys that the
    [key=value] words of that line name and no other.  In particular the v1
    line [8:0 500] of blkio.throttle.read_iops_device gives the entry 8:0
    with riops 500 and the other three at [max]. *)
Theorem blkio_device_entries
  (h : Host) (vm_pid : string) (st st' : state) (r : info) :
  (v1_table_reachable (v1_blkio_mapping st) ->
   __get_standardized_cgroup1_info h vm_pid (Some "blkiotune") st = (Ok r, st') ->
   exists p st1,
     get_cgroup_path h vm_pid (Some "blkio") st = (Ok (Some p), st1)
     /\ forall dev d,
          kget dev r = Some (VDict d) ->
          forall k cg_file_name,
            In (k, cg_file_name) v1_throttle_files ->
            sget k d
            = Some (last_or dev (v1_file_pairs h p cg_file_name) "max"))
  /\ (forall virsh_dict,
         get_standardized_virsh_info h (Some "blkiotune") (Some virsh_dict) st
         = (Ok (Some r), st') ->
         forall dev d,
           kget dev r = Some (VDict d) ->
           forall k,
             In k four_keys ->
             sget k d
             = Some (last_or dev (virsh_report_pairs h k virsh_dict) "max"))
  /\ (__get_standardized_cgroup2_info h vm_pid (Some "blkiotune") st = (Ok r, st') ->
      exists p st1 iomax_file,
        get_cgroup_path h vm_pid None st = (Ok (Some p), st1)
        /\ open_read h (path_join p "io.max") = Some iomax_file
        /\ forall dev d,
             kget dev r = Some (VDict d) ->
             exists dev_num line,
               dev = Some dev_num
               /\ last_line_for dev_num (PyStr.readlines iomax_file) = Some line
               /\ d = iomax_entry line
               /\ forall k,
                    has_key d k = true
                    <-> In k (map (PyStr.before_first "=")
                                (tl (iomax_words line))))
  /\ fst (__get_standardized_cgroup1_info host_v1_blkio "4242"
            (Some "blkiotune") initial_state)
     = Ok [ (Some "weight", VStr "100");
            (Some "8:0", VDict [("rbps", "max"); ("wbps", "max");
                                ("riops", "500"); ("wiops", "max")]) ].
Proof.
  split; [|split; [|split; [|reflexivity]]].
  - intros Hreach Hrun.
    destruct (cgroup1_blkiotune_values _ _ _ _ _ Hreach Hrun)
      as (p & st1 & Hp & Hreach' & _ & Hval).
    exists p, st1. split; [exact Hp|].
    intros dev d Hd k f Hin.
    destruct (v1_key_pairs_throttle h p _ _ _ Hreach' Hin) as [Epairs Einit].
    rewrite (Hval _ _ Hd k), Epairs, Einit. apply last_for_last_or.
  - intros virsh_dict Hrun dev d Hd k Hk.
    destruct (virsh_blkiotune_values _ _ _ _ _ Hrun) as [_ Hval].
    rewrite (Hval _ _ Hd k).
    assert (Einit : sget k dev_init_dict = Some "max").
    { cbn [four_keys In] in Hk.
      destruct Hk as [<-|[<-|[<-|[<-|[]]]]]; reflexivity. }
    rewrite Einit. apply last_for_last_or.
  - intro Hrun.
    destruct (cgroup2_blkiotune_map _ _ _ _ _ Hrun)
      as (p & st1 & weight_file & iomax_file & Hp & _ & Ho & Hnone & Hget).
    exists p, st1, iomax_file. split; [exact Hp|]. split; [exact Ho|].
    intros dev d Hd. destruct dev as [dev_num|]; [|congruence].
    rewrite Hget in Hd.
    destruct (last_line_for dev_num (PyStr.readlines iomax_file)) as [line|] eqn:El.
    + inversion Hd; subst d. exists dev_num, line.
      split; [reflexivity|]. split; [exact El|]. split; [reflexivity|].
      intro k. apply iomax_entry_keys.
    + destruct (String.eqb dev_num "weight"); [|discriminate].
      destruct (search_digits weight_file); discriminate.
Qed.

Lemma blkio_device_entries_witness :
  exists p st1,
    get_cgroup_path host_v1_blkio "4242" (Some "blkio") initial_state
    = (Ok (Some p), st1)
    /\ forall dev d,
         kget dev [ (Some "weight", VStr "100");
                    (Some "8:0", VDict [("rbps", "max"); ("wbps", "max");
                                        ("riops", "500"); ("wiops", "max")]) ]
         = Some (VDict d) ->
         forall k cg_file_name,
           In (k, cg_file_name) v1_throttle_files ->
           sget k d
           = Some (last_or dev (v1_file_pairs host_v1_blkio p cg_file_name) "max").
Proof.
  refine (proj1 (blkio_device_entries host_v1_blkio "4242" initial_state
                   (snd (__get_standardized_cgroup1_info host_v1_blkio "4242"
                           (Some "blkiotune") initial_state))
                   _) _ _).
  - left. reflexivity.
  - vm_compute. reflexivity.
Defined.

(** C1, counterexample: on v2 the [io.max] line [8:0 riops=500] gives a
    device entry with riops alone; wiops, rbps and wbps are not defaulted
    to [max]. *)
Lemma cgroup2_device_entry_not_defaulted :
  exists r,
    fst (__get_standardized_cgroup2_info
           (host_v2_blkio ("default 100" ++ nl) ("8:0 riops=500" ++ nl))
           "4242" (Some "blkiotune") initial_state) = Ok r
    /\ kget (Some "8:0") r = Some (VDict [("riops", "500")])
    /\ has_four [("riops", "500")] = false
    /\ sget "wiops" [("riops", "500")] = None.
Proof.
  eexists. split; [vm_compute; reflexivity|].
  repeat split.
Qed.

(** C6 (as amended): the resolver returns [None], with a debug line, for a
    path that does not exist, and the [major:minor] text of the node's
    device number for one that exists.  The parser takes for a device path
    every comma-separated word of a per-device field that holds the text
    [dev], and it skips none of them: in a map that it returns, a word whose
    path does not exist has an entry under the key [None], a word whose
    path exists one under its [major:minor] key; the entry is seeded with
    the four defaults and holds, key by key, the value that follows the
    last word filed under the same key, and a missing path has left its
    debug line in the log.  A word without [dev] is no device path for the
    parser: every per-device entry of the map comes from a word with [dev],
    and a report without such a word adds nothing to the log. *)
Theorem blkiotune_missing_device_not_skipped
  (h : Host) (virsh_dict : dict string string) (st st' : state) (r : info) :
  (forall path,
      (path_exists h path = false ->
       __get_dev_major_minor h path st
       = (Ok None, log_add st DEBUG ("device '" ++ path ++ "' not existing")))
      /\ (forall st_rdev,
             path_exists h path = true ->
             stat_rdev h path = Some st_rdev ->
             __get_dev_major_minor h path st
             = (Ok (Some (major_minor st_rdev)), st)))
  /\ (get_standardized_virsh_info h (Some "blkiotune") (Some virsh_dict) st
      = (Ok (Some r), st') ->
      (forall field key value word,
          In (field, value) virsh_dict ->
          In (field, key) device_fields ->
          In word (PyStr.split_char "," value) ->
          PyStr.contains "dev" word = true ->
          (path_exists h word = false ->
           In (DEBUG, "device '" ++ word ++ "' not existing") (log st')
           /\ exists d next,
                kget None r = Some (VDict d)
                /\ In (None, next) (virsh_report_pairs h key virsh_dict)
                /\ forall k,
                     In k four_keys ->
                     sget k d
                     = Some (last_or None (virsh_report_pairs h k virsh_dict)
                               "max"))
          /\ (forall st_rdev,
                 path_exists h word = true ->
                 stat_rdev h word = Some st_rdev ->
                 exists d next,
                   kget (Some (major_minor st_rdev)) r = Some (VDict d)
                   /\ In (Some (major_minor st_rdev), next)
                        (virsh_report_pairs h key virsh_dict)
                   /\ forall k,
                        In k four_keys ->
                        sget k d
                        = Some (last_or (Some (major_minor st_rdev))
                                  (virsh_report_pairs h k virsh_dict) "max")))
      /\ (forall dev d,
             kget dev r = Some (VDict d) ->
             exists field key value word,
               In (field, value) virsh_dict
               /\ In (field, key) device_fields
               /\ In word (PyStr.split_char "," value)
               /\ PyStr.contains "dev" word = true
               /\ dev_key h word = dev)
      /\ ((forall field value word,
              In (field, value) virsh_dict ->
              In word (PyStr.split_char "," value) ->
              PyStr.contains "dev" word = false) ->
          log st' = log st)).
Proof.
  split.
  - intro path. split.
    + intro Hex. rewrite get_dev_major_minor_spec, Hex. reflexivity.
    + intros st_rdev Hex Hstat.
      rewrite get_dev_major_minor_spec, Hex, Hstat. reflexivity.
  - intro Hrun.
    pose proof (virsh_blkiotune_values _ _ _ _ _ Hrun) as [Hkeys Hval].
    assert (Hentry : forall D key next,
               In (D, next) (virsh_report_pairs h key virsh_dict) ->
               exists d,
                 kget D r = Some (VDict d)
                 /\ forall k,
                      In k four_keys ->
                      sget k d
                      = Some (last_or D (virsh_report_pairs h k virsh_dict) "max")).
    { intros D key next Hin.
      destruct (proj2 (Hkeys D) (ex_intro _ key (ex_intro _ next Hin))) as [d Hd].
      exists d. split; [exact Hd|]. intros k Hk. rewrite (Hval _ _ Hd k).
      assert (Einit : sget k dev_init_dict = Some "max").
      { cbn [four_keys In] in Hk.
        destruct Hk as [<-|[<-|[<-|[<-|[]]]]]; reflexivity. }
      rewrite Einit. apply last_for_last_or. }
    split; [|split].
    + intros field key value word Hin Hf Hw Hdev.
      destruct (virsh_blkiotune_device_word _ _ _ _ _ _ _ _ _ Hrun Hin Hf Hw Hdev)
        as [[next Hnext] Hlog].
      split.
      * intro Hex. split; [exact (Hlog Hex)|].
        unfold dev_key in Hnext. rewrite Hex in Hnext.
        destruct (Hentry _ _ _ Hnext) as (d & Hd & Hv).
        exists d, next. repeat split; assumption.
      * intros st_rdev Hex Hstat.
        unfold dev_key in Hnext. rewrite Hex, Hstat in Hnext.
        cbn [option_map] in Hnext.
        destruct (Hentry _ _ _ Hnext) as (d & Hd & Hv).
        exists d, next. repeat split; assumption.
    + intros dev d Hd.
      destruct (proj1 (Hkeys dev) (ex_intro _ d Hd)) as (k & v & Hin).
      destruct (virsh_report_pairs_word _ _ _ _ _ Hin)
        as (field & value & w & H1 & H2 & H3 & H4 & H5).
      exists field, k, value, w. repeat split; assumption.
    + intro Hno. unfold get_standardized_virsh_info in Hrun.
      cbn [cmd_is String.eqb Ascii.eqb Bool.eqb] in Hrun.
      apply bind_Ok_inv in Hrun as (l' & st1 & Hl & Hrun).
      apply orraise_Ok_inv in Hl as [Hl <-]. inversion Hl; subst l'.
      apply bind_Ok_inv in Hrun as (acc & st2 & Hloop & Hrun).
      apply ret_Ok_inv in Hrun as [_ <-].
      destruct (virsh_blkio_items_log _ _ _ _ _ _ Hloop) as (more & Hlog & Hnone).
      rewrite Hlog, Hnone; [apply app_nil_r|].
      intros [field value] w Hin Hw. exact (Hno field value w Hin Hw).
Qed.

Lemma blkiotune_missing_device_not_skipped_witness :
  In (DEBUG, "device '/dev/sdb' not existing")
     (log (log_add initial_state DEBUG "device '/dev/sdb' not existing"))
  /\ exists d next,
       kget None [(None, VDict [("rbps", "max"); ("wbps", "max");
                                ("riops", "500"); ("wiops", "max")])]
       = Some (VDict d)
       /\ In (None, next)
            (virsh_report_pairs host_one_disk "riops"
               (one_device_report "device_read_iops_sec" "/dev/sdb" "500"))
       /\ forall k,
            In k four_keys ->
            sget k d
            = Some (last_or None
                      (virsh_report_pairs host_one_disk k
                         (one_device_report "device_read_iops_sec" "/dev/sdb"
                            "500")) "max").
Proof.
  refine (proj1 (proj1 (proj2 (blkiotune_missing_device_not_skipped host_one_disk
                                 (one_device_report "device_read_iops_sec"
                                    "/dev/sdb" "500")
                                 initial_state _ _) _)
                   "device_read_iops_sec" "riops" _ "/dev/sdb" _ _ _ eq_refl)
            eq_refl).
  - vm_compute. reflexivity.
  - left. reflexivity.
  - left. reflexivity.
  - vm_compute. left. reflexivity.
Defined.

(** C6, counterexample: the report names [/dev/sdb], which does not exist;
    the device is not skipped, the standardized map gets an entry for it
    under the key [None]. *)
Lemma blkiotune_missing_device_gets_entry :
  path_exists host_one_disk "/dev/sdb" = false
  /\ exists r,
       fst (get_standardized_virsh_info host_one_disk (Some "blkiotune")
              (Some (convert_virsh_output_to_dict
                       "device_read_iops_sec: /dev/sdb,500"))
              initial_state) = Ok (Some r)
       /\ r <> []
       /\ kget None r = Some (VDict [("rbps", "max"); ("wbps", "max");
                                     ("riops", "500"); ("wiops", "max")]).
Proof.
  split; [reflexivity|].
  eexists. split; [vm_compute; reflexivity|].
  split; [discriminate | reflexivity].
Qed.

(** A report whose device paths do not hold [dev]: nothing is resolved,
    logged or filed for them. *)
Example blkiotune_path_without_dev :
  get_standardized_virsh_info host_one_disk (Some "blkiotune")
    (Some (convert_virsh_output_to_dict
             ("weight : 500" ++ nl
              ++ "device_read_iops_sec: /mnt/disk0,500"))) initial_state
  = (Ok (Some [(Some "weight", VStr "500")]), initial_state).
Proof. vm_compute. reflexivity. Qed.

(** ** The shapes of the stored values *)

Lemma isdigit_c_facts (c : ascii) :
  PyStr.isdigit_c c = true ->
  PyStr.int_blank c = c
  /\ PyStr.isspace_ascii c = false
  /\ Ascii.eqb c "-" = false.
Proof.
  destruct c as [[] [] [] [] [] [] [] []]; cbv; intro H;
    try discriminate H; repeat split; reflexivity.
Qed.

Lemma rstrip_head (p : ascii -> bool) (c : ascii) (s : string) :
  p c = false -> exists r, PyStr.rstrip_by p (String c s) = String c r.
Proof.
  intro H. cbn [PyStr.rstrip_by].
  destruct (PyStr.rstrip_by p s); [rewrite H|]; eexists; reflexivity.
Qed.

(** A digit string has no sign: what [int] reads in it is not negative. *)
Lemma isdigit_int_nonneg (v : string) (n : Z) :
  PyStr.isdigit v = true -> PyStr.int v = Some n -> (0 <= n)%Z.
Proof.
  destruct v as [|c s]; [discriminate|].
  unfold PyStr.isdigit. cbn [PyStr.all_chars]. intro H.
  apply andb_true_iff in H as [Hc _].
  destruct (isdigit_c_facts c Hc) as (Hb & Hsp & Hm).
  unfold PyStr.int, PyStr.strip_by. cbn [PyStr.map_chars PyStr.lstrip_by].
  rewrite Hb, Hsp.
  destruct (rstrip_head PyStr.isspace_ascii c
              (PyStr.map_chars PyStr.int_blank s) Hsp) as [t ->].
  assert (Hgen : forall u, option_map Z.of_N (PyStr.unsigned_val u) = Some n ->
                           (0 <= n)%Z).
  { intros u Hu. destruct (PyStr.unsigned_val u); inversion Hu. lia. }
  destruct c as [[] [] [] [] [] [] [] []];
    try discriminate Hm; apply Hgen.
Qed.

(** C8 (as amended): the values are strings taken from the files and the
    report, and they are a decimal number or [max] only where the source
    is.  At the two places the claim cites.  The v2 block-I/O weight: the
    weight file is the one above [libvirt] in the resolved directory, and
    the key weight holds the first run of decimal digits of that file, or
    the absent value [None] when the file has no digit; it holds a device
    entry instead when a line of [io.max] names a device [weight].  The
    memtune parser: every value is [max], or the decimal text of a digit
    value of the report times 1024, or a report value that is neither
    [unlimited] nor a digit string, stored unchanged under its field. *)
Theorem stored_value_shapes
  (h : Host) (vm_pid : string) (st st' : state) (r : info) :
  (__get_standardized_cgroup2_info h vm_pid (Some "blkiotune") st = (Ok r, st') ->
   exists p st1 weight_file iomax_file,
     get_cgroup_path h vm_pid None st = (Ok (Some p), st1)
     /\ open_read h (path_join (PyStr.before_first "libvirt" p) "io.bfq.weight")
        = Some weight_file
     /\ open_read h (path_join p "io.max") = Some iomax_file
     /\ kget (Some "weight") r
        = Some match last_line_for "weight" (PyStr.readlines iomax_file) with
               | Some line => VDict (iomax_entry line)
               | None =>
                   match search_digits weight_file with
                   | Some g => VStr g
                   | None => VNone
                   end
               end
     /\ match search_digits weight_file with
        | Some g =>
            PyStr.isdecimal g = true
            /\ exists pre post,
                 weight_file = pre ++ g ++ post
                 /\ PyStr.all_chars (fun c => negb (PyStr.isdecimal_c c)) pre
                    = true
                 /\ match post with
                    | String c _ => PyStr.isdecimal_c c = false
                    | EmptyString => True
                    end
        | None =>
            PyStr.all_chars (fun c => negb (PyStr.isdecimal_c c)) weight_file
            = true
        end)
  /\ (forall l key v,
         get_standardized_virsh_info h (Some "memtune") (Some l) st
         = (Ok (Some r), st') ->
         kget key r = Some v ->
         exists s,
           v = VStr s
           /\ (s = "max"
               \/ (PyStr.isdecimal s = true
                   /\ exists k x n,
                        key = Some k /\ In (k, x) l
                        /\ PyStr.isdigit x = true
                        /\ PyStr.int x = Some n
                        /\ PyStr.str (n * 1024) = Some s)
               \/ (exists k,
                      key = Some k /\ In (k, s) l
                      /\ PyStr.isdigit s = false /\ s <> "unlimited"))).
Proof.
  split.
  - intro Hrun.
    destruct (cgroup2_blkiotune_map _ _ _ _ _ Hrun)
      as (p & st1 & weight_file & iomax_file & Hp & Hw & Ho & _ & Hget).
    exists p, st1, weight_file, iomax_file.
    split; [exact Hp|]. split; [exact Hw|]. split; [exact Ho|].
    split; [|apply search_digits_spec].
    rewrite Hget.
    destruct (last_line_for "weight" (PyStr.readlines iomax_file)); reflexivity.
  - intros l key v Hrun Hget.
    pose proof (virsh_memtune_spec h l st) as Hspec. rewrite Hrun in Hspec.
    destruct Hspec as (_ & Hnone & Hval).
    destruct key as [k|]; [|congruence].
    rewrite Hval in Hget.
    destruct (last_value k l None) as [x|] eqn:El.
    + apply last_value_in in El.
      unfold virsh_mem_value in Hget.
      destruct (in_list x ["unlimited"]) eqn:Eu.
      * inversion Hget. exists "max". split; [reflexivity|]. left. reflexivity.
      * destruct (PyStr.isdigit x) eqn:Ed.
        -- destruct (PyStr.int x) as [n|] eqn:En; [|discriminate].
           destruct (PyStr.str (n * 1024)) as [s|] eqn:Es; [|discriminate].
           inversion Hget. exists s. split; [reflexivity|]. right. left.
           split.
           ++ rewrite (str_Some _ _ Es). apply str_text_nonneg_decimal.
              pose proof (isdigit_int_nonneg _ _ Ed En). lia.
           ++ exists k, x, n. repeat split; assumption.
        -- inversion Hget. exists x. split; [reflexivity|]. right. right.
           exists k. repeat split; try assumption.
           intro E. subst x. discriminate Eu.
    + destruct (in_list k memtune_keys); inversion Hget.
      exists "max". split; [reflexivity|]. left. reflexivity.
Qed.

Lemma stored_value_shapes_witness :
  exists s,
    VStr "2147483648" = VStr s
    /\ (s = "max"
        \/ (PyStr.isdecimal s = true
            /\ exists k x n,
                 Some "hard_limit" = Some k
                 /\ In (k, x) (convert_virsh_output_to_dict memtune_report)
                 /\ PyStr.isdigit x = true
                 /\ PyStr.int x = Some n
                 /\ PyStr.str (n * 1024) = Some s)
        \/ (exists k,
               Some "hard_limit" = Some k
               /\ In (k, s) (convert_virsh_output_to_dict memtune_report)
               /\ PyStr.isdigit s = false /\ s <> "unlimited")).
Proof.
  refine (proj2 (stored_value_shapes host_v1_bare "4242" initial_state
                   initial_state _)
            (convert_virsh_output_to_dict memtune_report)
            (Some "hard_limit") _ eq_refl eq_refl).
Defined.

(** C8, counterexample: a weight file without a digit gives the v2 weight
    the value [None], and a memtune report value that is not recognised is
    stored as it is; neither is a decimal number or [max]. *)
Lemma values_not_always_canonical :
  (exists r,
      fst (__get_standardized_cgroup2_info (host_v2_blkio "" "") "4242"
             (Some "blkiotune") initial_state) = Ok r
      /\ kget (Some "weight") r = Some VNone
      /\ canonical_value VNone = false)
  /\ (exists r,
         fst (get_standardized_virsh_info host_v1_bare (Some "memtune")
                (Some (convert_virsh_output_to_dict "hard_limit: unknown"))
                initial_state) = Ok (Some r)
         /\ kget (Some "hard_limit") r = Some (VStr "unknown")
         /\ canonical_value (VStr "unknown") = false).
Proof.
  split; eexists; (split; [vm_compute; reflexivity|]); split; reflexivity.
Qed.
